(** * incognitobot: the user ledger, the quota engine, the recharge command
      and the reply fallback of [src/main.py], embedded in Rocq.

    - The database file is its text, a [string]; [None] is the missing file.
      [load_user_database] parses that text line by line and
      [save_user_to_database] writes the whole dictionary back, as the source
      does.  Failures of the file system are not modelled: a read or a write
      that is attempted succeeds.
    - Text is a [string] of UTF-8 bytes.  The Python string methods the
      program calls are written out on that representation; the tests for
      white space, letter case and digits are those of the ASCII range, bytes
      above 127 are carried through unchanged.  [len] counts code points.
      On a text of the ASCII range the methods are those of Python character
      for character; a statement whose truth rests on how a text outside
      that range is stripped, split or changed in case says that its texts
      are of the ASCII range.  Integers are unbounded, and [int] and [str]
      put no limit on the number of digits.
    - The random generator is the sequence of its future draws.  The loop
      that retries a code takes a bound on the number of draws; [None] means
      it has not ended within the bound.
    - An exception is a result of its own ([Raised], [None], [escaped])
      wherever the source catches one or could let one out.
    - Calls are sequential: one operation reads and writes the file before
      the next begins.
    - What a handler gets from Telegram and from the text generator during
      one run (the membership status, the generator's response, whether each
      message it sends goes out or the call raises) is an input of the
      handler; what the handler sends is its answer. *)

From Stdlib Require Import ZArith List String Ascii Bool Lia Arith.
From Stdlib Require Import Decimal DecimalString DecimalZ Sorted.
Import ListNotations.

Local Open Scope string_scope.
Local Open Scope Z_scope.

(** ** Python's string methods *)

Module PyStr.

(** [str.isspace] on one character of the ASCII range:
    tab, line feed, vertical tab, form feed, carriage return,
    the four separators 0x1c..0x1f and the space. *)
Definition is_space (c : ascii) : bool :=
  let n := nat_of_ascii c in
  ((9 <=? n) && (n <=? 13) || (28 <=? n) && (n <=? 32))%nat.

Fixpoint lstrip (s : string) : string :=
  match s with
  | EmptyString => EmptyString
  | String c s' => if is_space c then lstrip s' else s
  end.

Fixpoint rstrip (s : string) : string :=
  match s with
  | EmptyString => EmptyString
  | String c s' =>
      match rstrip s' with
      | EmptyString => if is_space c then EmptyString else String c EmptyString
      | r => String c r
      end
  end.

(** [s.strip()] *)
Definition strip (s : string) : string := rstrip (lstrip s).

Definition lower_char (c : ascii) : ascii :=
  let n := nat_of_ascii c in
  if ((65 <=? n) && (n <=? 90))%nat then ascii_of_nat (n + 32) else c.

Definition upper_char (c : ascii) : ascii :=
  let n := nat_of_ascii c in
  if ((97 <=? n) && (n <=? 122))%nat then ascii_of_nat (n - 32) else c.

Fixpoint map_chars (f : ascii -> ascii) (s : string) : string :=
  match s with
  | EmptyString => EmptyString
  | String c s' => String (f c) (map_chars f s')
  end.

(** [s.lower()] and [s.upper()] *)
Definition lower : string -> string := map_chars lower_char.
Definition upper : string -> string := map_chars upper_char.

(** [len(s)]: the number of code points, that is of the bytes that are not
    UTF-8 continuation bytes (10xxxxxx). *)
Definition is_continuation (c : ascii) : bool :=
  let n := nat_of_ascii c in ((128 <=? n) && (n <? 192))%nat.

Fixpoint len (s : string) : nat :=
  match s with
  | EmptyString => O
  | String c s' => if is_continuation c then len s' else S (len s')
  end.

(** [sub in s] *)
Fixpoint contains (sub s : string) : bool :=
  prefix sub s
  || match s with
     | EmptyString => false
     | String _ s' => contains sub s'
     end.

Definition cons_head (c : ascii) (parts : list string) : list string :=
  match parts with
  | [] => [String c EmptyString]
  | p :: ps => String c p :: ps
  end.

(** [s.split(sep)] for a non-empty [sep]: the scan goes left to right and
    the matches do not overlap; [skip] counts the characters of a match that
    are still to be passed over. *)
Fixpoint split_go (sep : string) (skip : nat) (s : string) : list string :=
  match s with
  | EmptyString => [EmptyString]
  | String c s' =>
      match skip with
      | S k => split_go sep k s'
      | O =>
          if prefix sep s
          then EmptyString :: split_go sep (String.length sep - 1) s'
          else cons_head c (split_go sep O s')
      end
  end.

Definition split (sep s : string) : list string := split_go sep O s.

(** [s.split()]: the maximal runs of characters that are not white space. *)
Fixpoint split_ws_go (cur : option string) (s : string) : list string :=
  match s with
  | EmptyString => match cur with Some w => [w] | None => [] end
  | String c s' =>
      if is_space c
      then match cur with
           | Some w => w :: split_ws_go None s'
           | None => split_ws_go None s'
           end
      else match cur with
           | Some w => split_ws_go (Some (w ++ String c EmptyString)) s'
           | None => split_ws_go (Some (String c EmptyString)) s'
           end
  end.

Definition split_ws (s : string) : list string := split_ws_go None s.

(** [parts[-1]] of a list that [split] returned (it is never empty). *)
Definition last_part (parts : list string) : string := last parts EmptyString.

Definition is_digit (c : ascii) : bool :=
  let n := nat_of_ascii c in ((48 <=? n) && (n <=? 57))%nat.

(** The digit groups of an integer literal: digits, with single underscores
    between digits only.  Returns the digits without the underscores. *)
Fixpoint digit_groups (prev_digit : bool) (s : string) : option string :=
  match s with
  | EmptyString => if prev_digit then Some EmptyString else None
  | String c s' =>
      if is_digit c
      then option_map (String c) (digit_groups true s')
      else if (Ascii.eqb c "_" && prev_digit)%bool
           then digit_groups false s'
           else None
  end.

Definition unsigned_value (s : string) : option Z :=
  match digit_groups false s with
  | Some ds => option_map Z.of_uint (NilEmpty.uint_of_string ds)
  | None => None
  end.

(** The white space [int] passes over at the two ends of its argument: tab,
    line feed, vertical tab, form feed, carriage return and the space.  The
    separators 0x1c..0x1f, which [strip] removes, are not among them. *)
Definition is_int_space (c : ascii) : bool :=
  let n := nat_of_ascii c in
  ((9 <=? n) && (n <=? 13) || (n =? 32))%nat.

Fixpoint int_lstrip (s : string) : string :=
  match s with
  | EmptyString => EmptyString
  | String c s' => if is_int_space c then int_lstrip s' else s
  end.

Fixpoint int_rstrip (s : string) : string :=
  match s with
  | EmptyString => EmptyString
  | String c s' =>
      match int_rstrip s' with
      | EmptyString => if is_int_space c then EmptyString else String c EmptyString
      | r => String c r
      end
  end.

(** [int(s)]: [None] stands for [ValueError]. *)
Definition int (s : string) : option Z :=
  match int_rstrip (int_lstrip s) with
  | String "+" r => unsigned_value r
  | String "-" r => option_map Z.opp (unsigned_value r)
  | t => unsigned_value t
  end.

(** [str(z)], the text an f-string gives for an integer. *)
Definition str (z : Z) : string := NilZero.string_of_int (Z.to_int z).

End PyStr.

(** ** The configuration ([src/config.py]) *)

Definition FREE_MESSAGES_LIMIT : Z := 2.
Definition CREDITS_PER_MESSAGE : Z := 2.

(** ** The user database *)

(** One value of the dictionary [load_user_database] builds. *)
Record user_data := mk_user {
  unique_id : string;
  credits : Z;
  city : string;
  free_messages_used : Z
}.

(** A Python [dict] keyed by the Telegram id.  It keeps the insertion order,
    which is the order of the lines [save_user_to_database] writes and the
    order [find_user_by_unique_id] searches in. *)
Definition users_dict := list (Z * user_data).

Fixpoint dict_get (users : users_dict) (k : Z) : option user_data :=
  match users with
  | [] => None
  | (k', v) :: rest => if k' =? k then Some v else dict_get rest k
  end.

(** [users[k] = v]: an existing key keeps its place, a new one goes last. *)
Fixpoint dict_set (users : users_dict) (k : Z) (v : user_data) : users_dict :=
  match users with
  | [] => [(k, v)]
  | (k', v') :: rest =>
      if k' =? k then (k, v) :: rest else (k', v') :: dict_set rest k v
  end.

(** The contents of [DATABASE_FILE]; [None] when the file does not exist. *)
Definition database := option string.

Definition NOT_SELECTED : string := "non selezionata".

Definition LF : ascii := ascii_of_nat 10.
Definition CR : ascii := ascii_of_nat 13.

(** The lines [for line in f] yields, without their terminators (a line ends
    at a line feed or a carriage return).  The pieces this adds where the
    file has none (after a final terminator, inside CR LF) are empty, and
    [load_user_database] passes over empty lines. *)
Fixpoint file_lines (text : string) : list string :=
  match text with
  | EmptyString => [EmptyString]
  | String c text' =>
      if (Ascii.eqb c LF || Ascii.eqb c CR)%bool
      then EmptyString :: file_lines text'
      else PyStr.cons_head c (file_lines text')
  end.

(** What one line does to the loop of [load_user_database]. *)
Inductive line_result :=
| Skipped
| Raised
| Entry (telegram_id : Z) (data : user_data).

Definition parse_line (raw : string) : line_result :=
  let line := PyStr.strip raw in
  if (negb (line =? "")%string && PyStr.contains "|" line)%bool then
    let parts := PyStr.split "|" line in
    if (3 <=? List.length parts)%nat then
      match PyStr.int (nth 0 parts "") with
      | None => Raised
      | Some telegram_id =>
          let unique_id := nth 1 parts "" in
          match PyStr.int (nth 2 parts "") with
          | None => Raised
          | Some credits =>
              let city :=
                if (3 <? List.length parts)%nat then nth 3 parts "" else NOT_SELECTED in
              match (if (4 <? List.length parts)%nat
                     then PyStr.int (nth 4 parts "") else Some 0) with
              | None => Raised
              | Some free_messages_used =>
                  Entry telegram_id
                    (mk_user unique_id credits city free_messages_used)
              end
          end
      end
    else Skipped
  else Skipped.

(** The [for] loop inside the [try]: an exception ends the loop and the
    users read so far are returned. *)
Fixpoint load_lines (lines : list string) (users : users_dict) : users_dict :=
  match lines with
  | [] => users
  | line :: rest =>
      match parse_line line with
      | Skipped => load_lines rest users
      | Raised => users
      | Entry telegram_id data => load_lines rest (dict_set users telegram_id data)
      end
  end.

Definition load_user_database (db : database) : users_dict :=
  match db with
  | None => []
  | Some text => load_lines (file_lines text) []
  end.

(** One line of the file, as the f-string of [save_user_to_database]
    formats it. *)
Definition record_line (entry : Z * user_data) : string :=
  let (t_id, data) := entry in
  PyStr.str t_id ++ "|" ++ unique_id data ++ "|" ++ PyStr.str (credits data)
  ++ "|" ++ city data ++ "|" ++ PyStr.str (free_messages_used data)
  ++ String LF "".

Fixpoint write_users (users : users_dict) : string :=
  match users with
  | [] => ""
  | entry :: rest => record_line entry ++ write_users rest
  end.

(** The two [if]s under [if telegram_id in users]: a city equal to the
    default and a count equal to 0 are taken as not provided. *)
Definition preserve_existing (old : option user_data) (new_city : string)
    (new_free_used : Z) : string * Z :=
  match old with
  | Some data =>
      ((if (new_city =? NOT_SELECTED)%string then city data else new_city),
       (if new_free_used =? 0 then free_messages_used data else new_free_used))
  | None => (new_city, new_free_used)
  end.

Definition save_user_to_database (db : database) (telegram_id : Z)
    (new_unique_id : string) (new_credits : Z) (new_city : string)
    (new_free_used : Z) : database :=
  let users := load_user_database db in
  let (kept_city, kept_free_used) :=
    preserve_existing (dict_get users telegram_id) new_city new_free_used in
  Some (write_users
          (dict_set users telegram_id
             (mk_user new_unique_id new_credits kept_city kept_free_used))).

(** ** The random source *)

(** The future draws of [random]: draw [n] picks the element of index
    [draws n mod len] of the list it chooses from. *)
Definition rng := nat -> nat.

Definition rng_next (r : rng) : rng := fun n => r (S n).

(** [random.choice(l)]; [None] stands for the [IndexError] of an empty list. *)
Definition random_choice {A : Type} (l : list A) (r : rng) : option A * rng :=
  (nth_error l (r O mod List.length l)%nat, rng_next r).

(** [string.ascii_uppercase + string.digits] *)
Definition ALPHABET : list ascii :=
  list_ascii_of_string "ABCDEFGHIJKLMNOPQRSTUVWXYZ0123456789".

Definition random_char (r : rng) : ascii * rng :=
  (nth (r O mod List.length ALPHABET)%nat ALPHABET "A"%char, rng_next r).

(** [''.join(random.choices(ALPHABET, k=5))] *)
Definition generate_user_id (r : rng) : string * rng :=
  let (c1, r1) := random_char r in
  let (c2, r2) := random_char r1 in
  let (c3, r3) := random_char r2 in
  let (c4, r4) := random_char r3 in
  let (c5, r5) := random_char r4 in
  (String c1 (String c2 (String c3 (String c4 (String c5 "")))), r5).

(** The state the ledger functions act on. *)
Record world := mk_world {
  db : database;
  rand : rng
}.

Definition code_taken (users : users_dict) (code : string) : bool :=
  existsb (fun entry => (unique_id (snd entry) =? code)%string) users.

(** The [while any(...)] loop of [get_or_create_user].  [fuel] bounds the
    number of new draws; [None] means the loop is still running after them. *)
Fixpoint retry_user_id (fuel : nat) (users : users_dict) (code : string)
    (r : rng) : option (string * rng) :=
  if code_taken users code then
    match fuel with
    | O => None
    | S fuel' =>
        let (code', r') := generate_user_id r in
        retry_user_id fuel' users code' r'
    end
  else Some (code, r).

(** Returns the tuple [(unique_id, credits, city, free_messages_used)] as a
    [user_data]. *)
Definition get_or_create_user (fuel : nat) (telegram_id : Z) (w : world)
    : option (user_data * world) :=
  let users := load_user_database (db w) in
  match dict_get users telegram_id with
  | Some user_data => Some (user_data, w)
  | None =>
      let (code, r) := generate_user_id (rand w) in
      match retry_user_id fuel users code r with
      | None => None
      | Some (code, r) =>
          Some (mk_user code 0 NOT_SELECTED 0,
                mk_world (save_user_to_database (db w) telegram_id code 0
                            NOT_SELECTED 0) r)
      end
  end.

(** Returns [(telegram_id, credits, city)], or [None] for the triple of
    [None]s. *)
Fixpoint find_in_users (users : users_dict) (code : string)
    : option (Z * Z * string) :=
  match users with
  | [] => None
  | (telegram_id, data) :: rest =>
      if (unique_id data =? code)%string
      then Some (telegram_id, credits data, city data)
      else find_in_users rest code
  end.

Definition find_user_by_unique_id (db : database) (code : string)
    : option (Z * Z * string) :=
  find_in_users (load_user_database db) code.

Definition ADMIN_IDS : list Z := [7517832119; 7408188866; 7839114402].

Definition is_admin (user_id : Z) : bool :=
  existsb (Z.eqb user_id) ADMIN_IDS.

(** ** The quota engine *)

Definition can_user_send_message (fuel : nat) (user_id : Z) (w : world)
    : option ((bool * string) * world) :=
  match get_or_create_user fuel user_id w with
  | None => None
  | Some (u, w') =>
      if free_messages_used u <? FREE_MESSAGES_LIMIT then
        Some ((true, "free"), w')
      else if credits u >=? CREDITS_PER_MESSAGE then
        Some ((true, "credits"), w')
      else Some ((false, "no_credits"), w')
  end.

Definition consume_user_message (fuel : nat) (user_id : Z) (w : world)
    : option ((bool * string) * world) :=
  match get_or_create_user fuel user_id w with
  | None => None
  | Some (u, w') =>
      if free_messages_used u <? FREE_MESSAGES_LIMIT then
        Some ((true, "free_message_used"),
              mk_world (save_user_to_database (db w') user_id (unique_id u)
                          (credits u) (city u) (free_messages_used u + 1))
                       (rand w'))
      else if credits u >=? CREDITS_PER_MESSAGE then
        Some ((true, "credits_used"),
              mk_world (save_user_to_database (db w') user_id (unique_id u)
                          (credits u - CREDITS_PER_MESSAGE) (city u)
                          (free_messages_used u))
                       (rand w'))
      else Some ((false, "insufficient_credits"), w')
  end.

(** ** The recharge command *)

Record message := mk_message {
  from_user_id : Z;
  chat_id : Z;
  text : string
}.

(** Which of the calls of [bot.send_message] in one run of a command handler
    go out ([false]: the call raises): the answer the [try] body sends to the
    chat of the command, the notice to another user, the warning that this
    notice could not be sent, and the error text the [except] clause sends. *)
Record sends := mk_sends {
  answer_sent : bool;
  notice_sent : bool;
  warning_sent : bool;
  error_sent : bool
}.

(** What a run leaves outside the file: the messages that reached the chat
    of the command, in order, and whether an exception left the handler. *)
Record outcome (A : Type) := mk_outcome {
  delivered : list A;
  escaped : bool
}.

Arguments mk_outcome {A} _ _.
Arguments delivered {A} _.
Arguments escaped {A} _.

(** The [except Exception] clause of a command handler, entered after the
    messages [sent_before] went out: it sends the error text [failure]; when
    that call raises too, the exception leaves the handler. *)
Definition except_clause {A : Type} (s : sends) (failure : A)
    (sent_before : list A) : outcome A :=
  if error_sent s then mk_outcome (sent_before ++ [failure])%list false
  else mk_outcome sent_before true.

(** [bot.send_message(chat_id, reply)] as the last statement the [try] body
    runs. *)
Definition send_answer {A : Type} (s : sends) (reply failure : A) : outcome A :=
  if answer_sent s then mk_outcome [reply] false
  else except_clause s failure [].

(** A message [handle_recharge_command] sends to the administrator's chat. *)
Inductive recharge_reply :=
| NoPermission
| WrongUsage
| NotANumber
| NegativeAmount
| UserNotFound (code : string)
| CreditsSet (code : string) (new_credits previous_credits : Z)
| NotNotified      (* the credits are set, the user could not be told *)
| CommandError.    (* the error text of the [except] clause *)

(** The sends that follow the save: the confirmation to the administrator,
    then the notice to the recharged user inside a [try] of its own, whose
    [except] sends the warning to the administrator. *)
Definition confirm_and_notify (s : sends) (code : string)
    (new_credits current_credits : Z) : outcome recharge_reply :=
  if answer_sent s then
    if notice_sent s
    then mk_outcome [CreditsSet code new_credits current_credits] false
    else if warning_sent s
    then mk_outcome [CreditsSet code new_credits current_credits; NotNotified]
           false
    else except_clause s CommandError
           [CreditsSet code new_credits current_credits]
  else except_clause s CommandError [].

Definition handle_recharge_command (fuel : nat) (m : message) (s : sends)
    (w : world) : option (outcome recharge_reply * world) :=
  if negb (is_admin (from_user_id m))
  then Some (send_answer s NoPermission CommandError, w)
  else
    let command_parts := PyStr.split_ws (text m) in
    if negb (List.length command_parts =? 3)%nat
    then Some (send_answer s WrongUsage CommandError, w)
    else
      match PyStr.int (nth 1 command_parts "") with
      | None => Some (send_answer s NotANumber CommandError, w)
      | Some amount =>
          let code := PyStr.upper (nth 2 command_parts "") in
          if amount <? 0
          then Some (send_answer s NegativeAmount CommandError, w)
          else
            match find_user_by_unique_id (db w) code with
            | None => Some (send_answer s (UserNotFound code) CommandError, w)
            | Some (target_telegram_id, current_credits, current_city) =>
                match get_or_create_user fuel target_telegram_id w with
                | None => None
                | Some (u, w') =>
                    let new_credits := amount in
                    Some (confirm_and_notify s code new_credits current_credits,
                          mk_world
                            (save_user_to_database (db w') target_telegram_id
                               code new_credits current_city
                               (free_messages_used u))
                            (rand w'))
                end
            end
      end.

(** ** The reply engine *)

Definition response_patterns (profile_name : string)
    : list (string * list string) :=
  [
   ("ciao",
     ["Ciao bello! 😈 Hai voglia di giocare con me?";
      "Ehi tesoro! 🔥 Mi hai fatto venire voglia di te...";
      "Ciao amore! 💋 Spero tu sia pronto per me!"]);
   ("grazie",
     ["Prego baby! 😏 Ora tocca a te farmi felice...";
      "Figurati! 🔥 Dimmi cosa vorresti fare con me...";
      "Di niente sexy! 💋 Raccontami le tue fantasie!"]);
   ("bene",
     ["Perfetto! 😈 Anch'io sto bene... anzi bollente!";
      "Fantastico! 🔥 Io sono tutta eccitata oggi!";
      "Che bello! 💋 Dimmi, hai voglia di divertirti?"]);
   ("come va",
     ["Benissimo! 😈 Sto pensando a te nudo... e tu?";
      "Alla grande! 🔥 Ho una voglia matta di te!";
      "Perfetto! 💋 Sono tutta calda oggi! Raccontami di te!";
      "Benissimo grazie! 😏 Stavo fantasticando su di te...";
      "Molto bene! 🔥 Ho fatto sogni piccanti stanotte!"]);
   ("come stai",
     ["Benissimo! 😈 Ma sarei meglio se fossi qui con me...";
      "Alla grande! 🔥 Tu invece... hai voglia di me?";
      "Perfetta! 💋 Soprattutto ora che ci sei tu!";
      "Molto bene! 😏 Sono sempre eccitata quando parlo con te!"]);
   ("cosa fai",
     ["Sto pensando a te! 😈 E a quello che vorrei farti...";
      "Niente di speciale... 🔥 Ma ho certe fantasie...";
      "Stavo toccandomi pensando a te! 💋 Tu cosa fai?";
      "Sto qui tutta nuda ad aspettarti! 😏 E tu?"]);
   ("bello",
     ["Grazie tesoro! 🔥 Tu invece mi fai venire voglia...";
      "Sei dolce! 😈 Ma io sono anche molto cattiva...";
      "Aww! 💋 Tu mi fai sentire così sexy!"]);
   ("casino",
     ["Il casino? 😏 Preferisco giocare con te... se capisci cosa intendo!";
      "Anche tu giochi? 🔥 Io preferisco altri tipi di giochi... più intimi!";
      "Al casino? 😈 Io scommetterei tutto su di noi due insieme!"]);
   ("scopo",
     ["Oh mio dio! 😈 Sei proprio diretto! Mi piacciono gli uomini così...";
      "Che cattivo che sei! 🔥 Ma ammetto che mi ecciti...";
      "Mmm... 💋 Parli come uno che sa quello che vuole!"]);
   ("madre",
     ["Che maleducato! 😏 Ma devo ammettere che mi piace quando sei così...";
      "Ooh! 😈 Hai un caratterino! Mi eccita quando ti arrabbi...";
      "Che linguaggio! 🔥 Ma sai cosa? Mi stai facendo venire voglia..."]);
   ("come ti chiami",
     ["Mi chiamo " ++ profile_name ++ "! 😈 E tu come ti chiami, bello?";
      "Sono " ++ profile_name ++ "! 🔥 Ma puoi chiamarmi come vuoi... anche 'mia'!";
      profile_name ++ ", piacere! 💋 Spero di piacere anche a te!"]);
   ("nome",
     ["Il mio nome è " ++ profile_name ++ "! 😈 Ma tu urlalo quando...";
      "Sono " ++ profile_name ++ "! 🔥 Dimmi il tuo, così so come chiamarti!";
      "Mi chiamo " ++ profile_name ++ "! 💋 Ma preferisco quando mi chiami 'baby'!"]);
   ("cosa mi faresti",
     ["Ti farei impazzire! 😈 Ti toccherei ovunque finché non implori...";
      "Mmm... tante cose cattive! 🔥 Ti farei venire voglia come non mai!";
      "Inizierei baciandoti il collo... 💋 poi scendiamo sempre più giù!";
      "Ti farei sentire come un re! 😏 E tu cosa faresti a me?";
      "Oh tesoro... 🔥 ti farei cose che non hai mai provato!"]);
   ("faresti",
     ["Ti farei impazzire di piacere! 😈 Dimmi dove vorresti essere toccato...";
      "Tante cose piccanti! 🔥 Vuoi che te le racconti tutte?";
      "Ti farei sentire in paradiso! 💋 E tu a me cosa faresti?";
      "Cose molto cattive! 😏 Sei pronto per me?"]);
   ("voglia",
     ["Anch'io ho tanta voglia di te! 😈 Vieni qui da me...";
      "La voglia che ho è incredibile! 🔥 Non riesco a smettere di pensarti!";
      "Ho una voglia matta! 💋 Dimmi cosa vuoi fare insieme...";
      "Sono tutta bagnata dalla voglia! 😏 Tu invece?"]);
   ("nudo",
     ["Mmm... mi piace come pensi! 😈 Anch'io sono senza niente addosso!";
      "Perfetto! 🔥 Così posso toccarti meglio ovunque!";
      "Che bello! 💋 Dimmi cosa vedi quando mi guardi nuda...";
      "Sono già pronta per te! 😏 Vieni a prendermi!"]);
   ("sesso",
     ["Oh sì baby! 😈 Sono sempre pronta per te!";
      "Mi piace quando parli così! 🔥 Raccontami le tue fantasie...";
      "Dimmi come lo vuoi! 💋 Sono tutta per te!";
      "Sono già eccitata solo a sentirti! 😏 Quando ci vediamo?"])
  ].


Definition short_responses : list string :=
  ["Dimmi di più, baby! 😈";
   "Ah sì? 🔥 Continua a eccitarmi!";
   "Interessante! 💋 Vai avanti!";
   "E poi? 😏 Non fermarti!";
   "Mmm... 🔥 Mi stai piacendo!"].

Definition long_responses : list string :=
  ["Mi piace come parli! 😈 Continua così che mi ecciti!";
   "Interessante! 🔥 Dimmi di più, mi stai facendo venire voglia!";
   "Ah sì? 💋 Raccontami tutto, sono tutta per te!";
   "Mi piaci quando parli così! 😏 Vai avanti!";
   "Sono curiosa! 🔥 Dimmi tutti i tuoi segreti!";
   "Hai catturato la mia attenzione! 😈 E non solo quella...";
   "Che sexy! 💋 Continua a parlarmi così!";
   "Mi stai facendo impazzire! 🔥 Non fermarti!"].

(** The stable sort of [matched_responses.sort(key=..., reverse=True)]:
    larger keys first, equal keys in their original order. *)
Fixpoint insert_desc (x : nat * list string) (l : list (nat * list string))
    : list (nat * list string) :=
  match l with
  | [] => [x]
  | y :: l' =>
      if (fst y <=? fst x)%nat then x :: l else y :: insert_desc x l'
  end.

Definition sort_desc (l : list (nat * list string)) : list (nat * list string) :=
  fold_right insert_desc [] l.

(** The loop that fills [matched_responses], over the items of a table. *)
Definition matched_responses (table : list (string * list string))
    (prompt_lower : string) : list (nat * list string) :=
  map (fun kv => (PyStr.len (fst kv), snd kv))
      (filter (fun kv => PyStr.contains (fst kv) prompt_lower) table).

(** [matched_responses[0][1]] after the sort, when anything matched. *)
Definition winning_responses (table : list (string * list string))
    (prompt_lower : string) : option (list string) :=
  match sort_desc (matched_responses table prompt_lower) with
  | [] => None
  | best :: _ => Some (snd best)
  end.

(** The body of [get_contextual_response] after [prompt_lower] is computed,
    over a table of patterns. *)
Definition respond_with (table : list (string * list string))
    (prompt_lower : string) (r : rng) : option string * rng :=
  match winning_responses table prompt_lower with
  | Some responses => random_choice responses r
  | None =>
      if (PyStr.len prompt_lower <? 10)%nat
      then random_choice short_responses r
      else random_choice long_responses r
  end.

(** [None] as a result stands for an exception leaving the function.  The
    parameter [conversation_history] is never read and is left out. *)
Definition get_contextual_response (prompt profile_name : string) (r : rng)
    : option string * rng :=
  let prompt_lower := PyStr.strip (PyStr.lower prompt) in
  respond_with (response_patterns profile_name) prompt_lower r.

(** What the call of the text generator comes back with. *)
Inductive json_item :=
| Generated (generated_text : string)  (* a dict whose 'generated_text' is a str *)
| NoGeneratedText                      (* a dict without that key *)
| Unusable.                            (* anything [.get] or [.strip] raises on *)

Inductive json_body :=
| NotJson                              (* [response.json()] raises *)
| JsonOther                            (* valid JSON that is not a list *)
| JsonList (items : list json_item).

Inductive http_outcome :=
| RequestRaised                        (* timeout, connection error *)
| Replied (status_code : Z) (body : json_body).

Definition EMOJIS : list string := ["😈"; "🔥"; "💋"; "😏"; "😊"; "💕"; "😘"].

(** "Extract only the AI response part" *)
Definition extract_reply (profile_name generated : string) : string :=
  let ai_response := PyStr.strip generated in
  let label := profile_name ++ ":" in
  if PyStr.contains label ai_response then
    PyStr.strip (PyStr.last_part (PyStr.split label ai_response))
  else if PyStr.contains "User:" ai_response then
    let parts := PyStr.split "User:" ai_response in
    if (1 <? List.length parts)%nat
    then PyStr.strip
           (PyStr.last_part (PyStr.split label (PyStr.last_part parts)))
    else ai_response
  else ai_response.

(** "Clean and validate response": [Some] is the text that is returned,
    [None] falls through to the fallback. *)
Definition validate_reply (ai_response : string) : option string :=
  if (negb (ai_response =? "")%string
      && (3 <? PyStr.len ai_response)%nat
      && (PyStr.len ai_response <? 200)%nat)%bool
  then
    if negb (existsb (fun emoji => PyStr.contains emoji ai_response) EMOJIS)
    then Some (ai_response ++ " 😈")
    else Some ai_response
  else None.

(** The part of the [try] body before the fallback.  The outer [None] is an
    exception, [Some None] reaches the fallback call at the end of the
    [try], [Some (Some t)] returns [t]. *)
Definition primary_reply (profile_name : string) (http : http_outcome)
    : option (option string) :=
  match http with
  | RequestRaised => None
  | Replied status_code body =>
      if status_code =? 200 then
        match body with
        | NotJson => None
        | JsonOther => Some None
        | JsonList [] => Some None
        | JsonList (Unusable :: _) => None
        | JsonList (NoGeneratedText :: _) =>
            Some (validate_reply (extract_reply profile_name ""))
        | JsonList (Generated generated_text :: _) =>
            Some (validate_reply (extract_reply profile_name generated_text))
        end
      else Some None
  end.

Definition query_huggingface_ai (prompt profile_name : string)
    (http : http_outcome) (r : rng) : option string * rng :=
  match primary_reply profile_name http with
  | Some (Some ai_response) => (Some ai_response, r)
  | Some None => get_contextual_response prompt profile_name r
  | None => get_contextual_response prompt profile_name r
  end.

(** ** Predicates the statements use *)

(** Every character of [s] satisfies [p]. *)
Fixpoint all_chars (p : ascii -> bool) (s : string) : bool :=
  match s with
  | EmptyString => true
  | String c s' => p c && all_chars p s'
  end.

Definition not_bar (c : ascii) : bool := negb (Ascii.eqb c "|").
Definition not_newline (c : ascii) : bool :=
  negb (Ascii.eqb c LF || Ascii.eqb c CR).

(** A text that fits in one field of a line of the file: it holds no field
    separator and no line terminator.  The codes [generate_user_id] draws
    and the city names [process_city_input] accepts are of this kind. *)
Definition field_ok (s : string) : bool :=
  all_chars (fun c => not_bar c && not_newline c) s.

Definition keys (users : users_dict) : list Z := map fst users.

Definition fields_ok (users : users_dict) : Prop :=
  Forall (fun entry => field_ok (unique_id (snd entry)) = true
                       /\ field_ok (city (snd entry)) = true) users.

(** What every dictionary read from the file satisfies. *)
Definition well_formed (users : users_dict) : Prop :=
  NoDup (keys users) /\ fields_ok users.

(** The text of a line without its terminator. *)
Definition line_body (entry : Z * user_data) : string :=
  let (t_id, data) := entry in
  PyStr.str t_id ++ "|" ++ unique_id data ++ "|" ++ PyStr.str (credits data)
  ++ "|" ++ city data ++ "|" ++ PyStr.str (free_messages_used data).

(** The characters of the text [str] prints. *)
Definition digit_or_minus (c : ascii) : bool :=
  PyStr.is_digit c || Ascii.eqb c "-".

(** [users[k] = v] for an entry [(k, v)]. *)
Definition set_entry (users : users_dict) (entry : Z * user_data) : users_dict :=
  dict_set users (fst entry) (snd entry).

(** The record [save_user_to_database] stores for [telegram_id]. *)
Definition saved_record (users : users_dict) (telegram_id : Z)
    (new_unique_id : string) (new_credits : Z) (new_city : string)
    (new_free_used : Z) : user_data :=
  let (kept_city, kept_free_used) :=
    preserve_existing (dict_get users telegram_id) new_city new_free_used in
  mk_user new_unique_id new_credits kept_city kept_free_used.

(** The stored balances are all non-negative. *)
Definition balances_nonneg (users : users_dict) : Prop :=
  forall k u, dict_get users k = Some u -> 0 <= credits u.

(** The public codes of the stored records, in the order of the file. *)
Definition codes (users : users_dict) : list string :=
  map (fun entry => unique_id (snd entry)) users.

(** One operation on the ledger: a chat message that is charged, or a
    [/ricarica] command with the outcomes of its sends. *)
Inductive ledger_op :=
| Consume (user_id : Z)
| Recharge (m : message) (s : sends).

Definition step_op (fuel : nat) (op : ledger_op) (w : world) : option world :=
  match op with
  | Consume user_id => option_map snd (consume_user_message fuel user_id w)
  | Recharge m s => option_map snd (handle_recharge_command fuel m s w)
  end.

Fixpoint run_ops (fuel : nat) (ops : list ledger_op) (w : world)
    : option world :=
  match ops with
  | [] => Some w
  | op :: rest =>
      match step_op fuel op w with
      | None => None
      | Some w' => run_ops fuel rest w'
      end
  end.

(** [get_or_create_user] called for each identity in turn. *)
Fixpoint create_all (fuel : nat) (ids : list Z) (w : world)
    : option (list user_data * world) :=
  match ids with
  | [] => Some ([], w)
  | telegram_id :: rest =>
      match get_or_create_user fuel telegram_id w with
      | None => None
      | Some (u, w') =>
          match create_all fuel rest w' with
          | None => None
          | Some (us, w'') => Some (u :: us, w'')
          end
      end
  end.

(** The random source after [n] codes were drawn from it, and the code the
    next draw gives. *)
Fixpoint rng_after (n : nat) (r : rng) : rng :=
  match n with
  | O => r
  | S n' => rng_after n' (snd (generate_user_id r))
  end.

Definition drawn_code (n : nat) (r : rng) : string :=
  fst (generate_user_id (rng_after n r)).

(** [m] is a well-formed [/ricarica <amount> <code>] from an administrator. *)
Definition recharge_request (m : message) (amount : Z) (code : string) : Prop :=
  is_admin (from_user_id m) = true /\
  exists command amount_text code_text,
    PyStr.split_ws (text m) = [command; amount_text; code_text] /\
    PyStr.int amount_text = Some amount /\
    PyStr.upper code_text = code.

(** A file with three records, used to exercise the statements below. *)
Definition example_text : string :=
  "1|ABCDE|5|Roma|2" ++ String LF "" ++
  "2|FGHIJ|0|non selezionata|0" ++ String LF "" ++
  "3|KLMNO|5|Torino|0" ++ String LF "".

Definition example_db : database := Some example_text.

(** A random source that draws every code twice in a row: AAAAA, AAAAA,
    BBBBB, BBBBB, CCCCC, ... *)
Definition example_rng : rng := fun n => (n / 10)%nat.

(** The decidable form of [balances_nonneg]. *)
Definition balances_nonnegb (users : users_dict) : bool :=
  forallb (fun entry => 0 <=? credits (snd entry)) users.

(** The first of [ADMIN_IDS]. *)
Definition ADMIN : Z := 7517832119.

(** Every message of the run goes out. *)
Definition all_sent : sends := mk_sends true true true true.

(** The answer of the [try] body does not go out, the error text does. *)
Definition answer_lost : sends := mk_sends false true true true.

(** The answers with which [/ricarica] refuses a command. *)
Definition is_refusal (reply : recharge_reply) : bool :=
  match reply with
  | NoPermission | WrongUsage | NotANumber | NegativeAmount | UserNotFound _ =>
      true
  | CreditsSet _ _ _ | NotNotified | CommandError => false
  end.

(** A text of the ASCII range, on which the string methods above are those
    of Python character for character. *)
Definition ascii_text (s : string) : bool :=
  all_chars (fun c => (nat_of_ascii c <? 128)%nat) s.

(** A run on the example file: identity 1 pays with credits, identity 2 is
    recharged to 3 credits, uses its two free messages, pays once and is then
    refused. *)
Definition example_ops : list ledger_op :=
  [Consume 1;
   Recharge (mk_message ADMIN 100 "/ricarica 3 fghij") all_sent;
   Consume 2; Consume 2; Consume 2; Consume 2;
   Consume 1].

(** The first element of largest key: what the stable sort puts in front. *)
Fixpoint first_max (l : list (nat * list string)) : option (nat * list string) :=
  match l with
  | [] => None
  | x :: l' =>
      match first_max l' with
      | None => Some x
      | Some m => if (fst m <=? fst x)%nat then Some x else Some m
      end
  end.

(** The order the sort leaves the matches in: no later key is larger. *)
Definition key_ge (a b : nat * list string) : Prop := (fst b <= fst a)%nat.

(** Every candidate list of a table is non-empty and holds no empty text. *)
Definition candidates_ok (table : list (string * list string)) : Prop :=
  Forall (fun kv => snd kv <> [] /\ Forall (fun reply => reply <> "") (snd kv))
    table.

(** The candidate set keyed by "come stai". *)
Definition COME_STAI_RESPONSES : list string :=
  ["Benissimo! 😈 Ma sarei meglio se fossi qui con me...";
   "Alla grande! 🔥 Tu invece... hai voglia di me?";
   "Perfetta! 💋 Soprattutto ora che ci sei tu!";
   "Molto bene! 😏 Sono sempre eccitata quando parlo con te!"].

(** ** The city of a user *)

Definition get_italian_cities : list string :=
  ["roma"; "milano"; "napoli"; "torino"; "palermo"; "genova"; "bologna";
   "firenze"; "bari"; "catania"; "venezia"; "verona"; "messina"; "padova";
   "trieste"; "taranto"; "brescia"; "parma"; "prato"; "modena";
   "reggio calabria"; "reggio emilia"; "perugia"; "livorno"; "ravenna";
   "cagliari"; "foggia"; "rimini"; "salerno"; "ferrara"; "sassari"; "latina";
   "giugliano in campania"; "monza"; "siracusa"; "pescara"; "bergamo";
   "forlì"; "trento"; "vicenza"; "terni"; "bolzano"; "novara"; "piacenza";
   "ancona"; "andria"; "arezzo"; "udine"; "cesena"; "lecce"; "pesaro";
   "barletta"; "alessandria"; "como"; "pistoia"; "pavia"; "treviso";
   "catanzaro"; "caserta"; "brindisi"; "grosseto"; "asti"; "varese";
   "cremona"; "cosenza"; "vigevano"; "trapani"; "crotone"; "potenza";
   "viterbo"; "vercelli"; "cuneo"; "caltanissetta"; "agrigento"; "matera";
   "enna"; "ragusa"; "l'aquila"; "chieti"; "teramo"; "pescara"; "campobasso";
   "isernia"; "benevento"; "avellino"; "caserta"; "frosinone"; "rieti";
   "viterbo"; "tivoli"; "guidonia montecelio"; "fiumicino"; "pomezia";
   "aprilia"; "velletri"; "civitavecchia"; "anzio"; "nettuno"; "marino";
   "frascati"; "genzano di roma"; "albano laziale"; "monterotondo"; "mentana";
   "fonte nuova"; "riano"; "fiano romano"; "aosta"; "pordenone"; "gorizia";
   "imperia"; "savona"; "la spezia"; "massa"; "carrara"; "lucca"; "siena";
   "grosseto"; "terni"; "rieti"; "viterbo"; "latina"; "frosinone"; "isernia";
   "campobasso"; "teramo"; "pescara"; "chieti"; "l'aquila"; "potenza";
   "matera"; "cosenza"; "catanzaro"; "reggio calabria"; "crotone";
   "vibo valentia"; "trapani"; "palermo"; "messina"; "agrigento";
   "caltanissetta"; "enna"; "catania"; "ragusa"; "siracusa"; "cagliari";
   "sassari"; "nuoro"; "oristano"; "carbonia"; "iglesias"; "olbia";
   "tempio pausania"].

(** [s.title()]: a letter that follows a letter is put in lower case, any
    other letter in upper case.  Bytes above 127 are copied and end the
    word; the only such character in the names above is the final one of
    forlì, where Python gives the same. *)
Definition is_lower_letter (c : ascii) : bool :=
  let n := nat_of_ascii c in ((97 <=? n) && (n <=? 122))%nat.

Definition is_upper_letter (c : ascii) : bool :=
  let n := nat_of_ascii c in ((65 <=? n) && (n <=? 90))%nat.

Fixpoint title_go (previous_is_cased : bool) (s : string) : string :=
  match s with
  | EmptyString => EmptyString
  | String c s' =>
      if is_lower_letter c then
        String (if previous_is_cased then c else PyStr.upper_char c)
          (title_go true s')
      else if is_upper_letter c then
        String (if previous_is_cased then PyStr.lower_char c else c)
          (title_go true s')
      else String c (title_go false s')
  end.

Definition title (s : string) : string := title_go false s.

(** A message [process_city_input] sends to the chat. *)
Inductive city_reply :=
| CityNameInvalid
| CityLengthInvalid
| CityNotFound
| CityUpdated (proper_city_name : string)
| CityError.       (* the error text of the [except] clause *)

(** The handler of the message that follows "Seleziona Citta'", for a text
    message [m]. *)
Definition process_city_input (fuel : nat) (m : message) (user_id : Z)
    (s : sends) (w : world) : option (outcome city_reply * world) :=
  let city_name := PyStr.strip (text m) in
  if (city_name =? "")%string
  then Some (send_answer s CityNameInvalid CityError, w)
  else if ((PyStr.len city_name <? 2) || (50 <? PyStr.len city_name))%nat
  then Some (send_answer s CityLengthInvalid CityError, w)
  else
    let normalized_city := PyStr.strip (PyStr.lower city_name) in
    if negb (existsb (String.eqb normalized_city) get_italian_cities)
    then Some (send_answer s CityNotFound CityError, w)
    else
      match get_or_create_user fuel user_id w with
      | None => None
      | Some (u, w') =>
          let proper_city_name := title city_name in
          Some (send_answer s (CityUpdated proper_city_name) CityError,
                mk_world
                  (save_user_to_database (db w') user_id (unique_id u)
                     (credits u) proper_city_name (free_messages_used u))
                  (rand w'))
      end.

(** ** The info command *)

(** A message [handle_info_command] sends to the administrator's chat. *)
Inductive info_reply :=
| InfoNoPermission
| InfoWrongUsage
| InfoNotFound (code : string)
| InfoShown (code : string) (shown_credits : Z) (shown_city : string)
| InfoError.       (* the error text of the [except] clause *)

(** [/info <code>]: reads the file, writes nothing. *)
Definition handle_info_command (m : message) (s : sends) (w : world)
    : outcome info_reply :=
  if negb (is_admin (from_user_id m))
  then send_answer s InfoNoPermission InfoError
  else
    let command_parts := PyStr.split_ws (text m) in
    if negb (List.length command_parts =? 2)%nat
    then send_answer s InfoWrongUsage InfoError
    else
      let code := PyStr.upper (nth 1 command_parts "") in
      match find_user_by_unique_id (db w) code with
      | None => send_answer s (InfoNotFound code) InfoError
      | Some (_, shown_credits, shown_city) =>
          send_answer s (InfoShown code shown_credits shown_city) InfoError
      end.

(** ** The chat sessions *)

(** What [bot.get_chat_member] comes back with. *)
Inductive member_lookup :=
| LookupRaised
| MemberStatus (status : string).

Definition check_channel_membership (lookup : member_lookup) : bool :=
  match lookup with
  | LookupRaised => false
  | MemberStatus status =>
      existsb (String.eqb status) ["member"; "administrator"; "creator"]
  end.

Record profile := mk_profile {
  nome : string;
  eta : Z;
  foto : string
}.

Definition FAKE_PROFILES : list profile :=
  [mk_profile "Sofia" 22 "https://i.imgur.com/dJ8k2Vm.jpg";
   mk_profile "Giulia" 24 "https://i.imgur.com/fX9mN4p.jpg";
   mk_profile "Martina" 21 "https://i.imgur.com/hK7vR2s.jpg";
   mk_profile "Francesca" 26 "https://i.imgur.com/bL3nM8q.jpg";
   mk_profile "Chiara" 23 "https://i.imgur.com/rT6wP9m.jpg";
   mk_profile "Alessia" 25 "https://i.imgur.com/sQ4vX7k.jpg";
   mk_profile "Valentina" 20 "https://i.imgur.com/mH8nL5r.jpg";
   mk_profile "Elena" 27 "https://i.imgur.com/nK9pQ3w.jpg";
   mk_profile "Camilla" 22 "https://i.imgur.com/vR4sT8m.jpg";
   mk_profile "Aurora" 24 "https://i.imgur.com/wP7nM6q.jpg"].


(** One value of [user_chat_states]. *)
Record chat_state := mk_chat_state {
  in_chat : bool;
  messages_sent : Z;
  current_profile : profile
}.

Definition chat_states := list (Z * chat_state).

Fixpoint states_get (states : chat_states) (k : Z) : option chat_state :=
  match states with
  | [] => None
  | (k', v) :: rest => if k' =? k then Some v else states_get rest k
  end.

Fixpoint states_set (states : chat_states) (k : Z) (v : chat_state)
    : chat_states :=
  match states with
  | [] => [(k, v)]
  | (k', v') :: rest =>
      if k' =? k then (k, v) :: rest else (k', v') :: states_set rest k v
  end.

(** [del user_chat_states[k]] under [if k in user_chat_states]. *)
Fixpoint states_del (states : chat_states) (k : Z) : chat_states :=
  match states with
  | [] => []
  | (k', v') :: rest =>
      if k' =? k then states_del rest k else (k', v') :: states_del rest k
  end.

(** The file, the random source and the sessions. *)
Record bot_state := mk_bot {
  ledger : world;
  user_chat_states : chat_states
}.

(** What the outside gives one handler run: the answer of the membership
    lookup, the answer of the text generator, and which of the messages the
    handler sends go out ([false]: the call raises). *)
Record transport := mk_transport {
  membership : member_lookup;
  photo_sent : bool;
  typing_sent : bool;
  generator : http_outcome;
  reply_sent : bool
}.

(** Sets the session first, then sends the photo and the greeting; returns
    the greeting that was produced, if the photo went out. *)
Definition send_random_profile (user_id : Z) (t : transport) (b : bot_state)
    : bot_state * option string :=
  match random_choice FAKE_PROFILES (rand (ledger b)) with
  | (None, r1) => (mk_bot (mk_world (db (ledger b)) r1) (user_chat_states b), None)
  | (Some chosen, r1) =>
      let states :=
        states_set (user_chat_states b) user_id (mk_chat_state true 0 chosen) in
      if photo_sent t then
        let (greeting, r2) :=
          query_huggingface_ai "Ciao" (nome chosen) (generator t) r1 in
        (mk_bot (mk_world (db (ledger b)) r2) states, greeting)
      else (mk_bot (mk_world (db (ledger b)) r1) states, None)
  end.

Inductive session_reply :=
| SubscriptionPrompt
| CityRequired
| ProfileSent (greeting : option string)
| WelcomeMenu.

Definition handle_new_chat_message (fuel : nat) (m : message) (t : transport)
    (b : bot_state) : option (session_reply * bot_state) :=
  if check_channel_membership (membership t) then
    match get_or_create_user fuel (from_user_id m) (ledger b) with
    | None => None
    | Some (u, w1) =>
        if (city u =? NOT_SELECTED)%string
        then Some (CityRequired, mk_bot w1 (user_chat_states b))
        else
          let (b2, greeting) :=
            send_random_profile (from_user_id m) t
              (mk_bot w1 (user_chat_states b)) in
          Some (ProfileSent greeting, b2)
    end
  else Some (SubscriptionPrompt, b).

Definition handle_new_user_message (fuel : nat) (m : message) (t : transport)
    (b : bot_state) : option (session_reply * bot_state) :=
  if check_channel_membership (membership t) then
    match get_or_create_user fuel (from_user_id m) (ledger b) with
    | None => None
    | Some (u, w1) =>
        let (b2, greeting) :=
          send_random_profile (from_user_id m) t
            (mk_bot w1 (user_chat_states b)) in
        Some (ProfileSent greeting, b2)
    end
  else Some (SubscriptionPrompt, b).

Definition handle_end_chat_message (m : message) (t : transport)
    (b : bot_state) : session_reply * bot_state :=
  if check_channel_membership (membership t) then
    (WelcomeMenu,
     mk_bot (ledger b) (states_del (user_chat_states b) (from_user_id m)))
  else (SubscriptionPrompt, b).

(** The texts [handle_all_messages] passes over: the three of [BUTTONS] it
    names and the two of the chat keyboard. *)
Definition BUTTON_TEXTS : list string :=
  ["✅ Nuova Chat"; "👤 Profilo"; "🪙 Compra crediti";
   "🔄 Nuovo Utente"; "❌ Termina Chat"].

Inductive chat_reply :=
| Ignored
| NotSubscribed
| NoCredits
| CheckError
| ConsumeError
| Undelivered
| Delivered (ai_response : string).

Definition handle_all_messages (fuel : nat) (m : message) (t : transport)
    (b : bot_state) : option (chat_reply * bot_state) :=
  let user_id := from_user_id m in
  match states_get (user_chat_states b) user_id with
  | None => Some (Ignored, b)
  | Some st =>
      if negb (in_chat st) then Some (Ignored, b)
      else if existsb (String.eqb (text m)) BUTTON_TEXTS then Some (Ignored, b)
      else if negb (check_channel_membership (membership t))
      then Some (NotSubscribed, b)
      else
        match can_user_send_message fuel user_id (ledger b) with
        | None => None
        | Some ((can_send, reason), w1) =>
            if negb can_send then
              if (reason =? "no_credits")%string
              then Some (NoCredits, mk_bot w1 (user_chat_states b))
              else Some (CheckError, mk_bot w1 (user_chat_states b))
            else
              match consume_user_message fuel user_id w1 with
              | None => None
              | Some ((consumed, consumption_type), w2) =>
                  if negb consumed
                  then Some (ConsumeError, mk_bot w2 (user_chat_states b))
                  else if negb (typing_sent t)
                  then Some (Undelivered, mk_bot w2 (user_chat_states b))
                  else
                    let (ai_response, r) :=
                      query_huggingface_ai (text m)
                        (nome (current_profile st)) (generator t) (rand w2) in
                    let w3 := mk_world (db w2) r in
                    match ai_response with
                    | Some reply_text =>
                        if reply_sent t then
                          Some (Delivered reply_text,
                                mk_bot w3
                                  (states_set (user_chat_states b) user_id
                                     (mk_chat_state (in_chat st)
                                        (messages_sent st + 1)
                                        (current_profile st))))
                        else Some (Undelivered, mk_bot w3 (user_chat_states b))
                    | None => Some (Undelivered, mk_bot w3 (user_chat_states b))
                    end
              end
        end
  end.

(** The answers with which [process_city_input] refuses a name. *)
Definition is_city_refusal (reply : city_reply) : bool :=
  match reply with
  | CityNameInvalid | CityLengthInvalid | CityNotFound => true
  | CityUpdated _ | CityError => false
  end.

(** A character that may stand in a field. *)
Definition field_char (c : ascii) : bool := not_bar c && not_newline c.

(** ** Every operation on the file *)

(** The operations of the program that read or write the database file;
    the two handlers come with the outcomes of their sends. *)
Inductive store_op :=
| OpGetOrCreate (telegram_id : Z)
| OpCheck (user_id : Z)
| OpConsume (user_id : Z)
| OpRecharge (m : message) (s : sends)
| OpCityInput (m : message) (user_id : Z) (s : sends).

Definition step_store_op (fuel : nat) (op : store_op) (w : world)
    : option world :=
  match op with
  | OpGetOrCreate telegram_id =>
      option_map snd (get_or_create_user fuel telegram_id w)
  | OpCheck user_id => option_map snd (can_user_send_message fuel user_id w)
  | OpConsume user_id => option_map snd (consume_user_message fuel user_id w)
  | OpRecharge m s => option_map snd (handle_recharge_command fuel m s w)
  | OpCityInput m user_id s =>
      option_map snd (process_city_input fuel m user_id s w)
  end.

Fixpoint run_store_ops (fuel : nat) (ops : list store_op) (w : world)
    : option world :=
  match ops with
  | [] => Some w
  | op :: rest =>
      match step_store_op fuel op w with
      | None => None
      | Some w' => run_store_ops fuel rest w'
      end
  end.

(** What a later version [u'] of a record [u] keeps: the code; a count of
    free messages that has not gone down and has not passed the limit unless
    it was beyond it; a balance that is not negative if it was not. *)
Definition record_kept (u u' : user_data) : Prop :=
  unique_id u' = unique_id u /\
  free_messages_used u <= free_messages_used u' /\
  free_messages_used u' <= Z.max (free_messages_used u) FREE_MESSAGES_LIMIT /\
  (0 <= credits u -> 0 <= credits u').

Definition records_kept (users users' : users_dict) : Prop :=
  forall k u, dict_get users k = Some u ->
              exists u', dict_get users' k = Some u' /\ record_kept u u'.

(** A session and a transport used to exercise the statements on the
    handlers: identity 3 is in a chat with the first profile, the sender is
    a member, every message goes out and the generator cannot be reached. *)
Definition example_profile : profile :=
  mk_profile "Sofia" 22 "https://i.imgur.com/dJ8k2Vm.jpg".

Definition example_bot : bot_state :=
  mk_bot (mk_world example_db example_rng)
    [(3, mk_chat_state true 4 example_profile)].

Definition example_transport : transport :=
  mk_transport (MemberStatus "member") true true RequestRaised true.

(** The same, but the reply does not go out. *)
Definition failing_transport : transport :=
  mk_transport (MemberStatus "member") true true RequestRaised false.

(** ** Runs used by the further properties *)

(** [n] charged messages of one identity in a row; the verdicts in order. *)
Fixpoint consume_times (fuel n : nat) (user_id : Z) (w : world)
    : option (list bool * world) :=
  match n with
  | O => Some ([], w)
  | S n' =>
      match consume_user_message fuel user_id w with
      | None => None
      | Some ((ok, _), w1) =>
          match consume_times fuel n' user_id w1 with
          | None => None
          | Some (oks, w2) => Some (ok :: oks, w2)
          end
      end
  end.

(** The messages a record can still pay for: the free ones that are left
    and one for every [CREDITS_PER_MESSAGE] credits. *)
Definition message_budget (u : user_data) : nat :=
  (Z.to_nat (FREE_MESSAGES_LIMIT - free_messages_used u)
   + Z.to_nat (credits u / CREDITS_PER_MESSAGE))%nat.

(** ** Facts about the string methods *)

Module PyStrFacts.
Import PyStr.

Lemma all_chars_app p a b :
  all_chars p (a ++ b) = all_chars p a && all_chars p b.
Proof.
  induction a as [|c a IH]; simpl; [reflexivity|].
  now rewrite IH, andb_assoc.
Qed.

Lemma all_chars_weaken (p q : ascii -> bool) s :
  (forall c, p c = true -> q c = true) ->
  all_chars p s = true -> all_chars q s = true.
Proof.
  intros Hpq. induction s as [|c s IH]; simpl; [reflexivity|].
  rewrite !andb_true_iff. intros [Hc Hs]. split; auto.
Qed.

Lemma all_chars_and p q s :
  all_chars (fun c => p c && q c) s = all_chars p s && all_chars q s.
Proof.
  induction s as [|c s IH]; simpl; [reflexivity|].
  rewrite IH. destruct (p c), (q c), (all_chars p s); reflexivity.
Qed.

(** *** strip *)

Lemma all_chars_lstrip p s :
  all_chars p s = true -> all_chars p (lstrip s) = true.
Proof.
  induction s as [|c s IH]; simpl; [reflexivity|].
  intros H. destruct (is_space c); [|exact H].
  apply andb_true_iff in H. now apply IH.
Qed.

Lemma all_chars_rstrip p s :
  all_chars p s = true -> all_chars p (rstrip s) = true.
Proof.
  induction s as [|c s IH]; simpl; [reflexivity|].
  intros H. apply andb_true_iff in H. destruct H as [Hc Hs].
  specialize (IH Hs). destruct (rstrip s) as [|d r].
  - destruct (is_space c); simpl; [reflexivity|]. now rewrite Hc.
  - change (p c && all_chars p (String d r) = true). now rewrite Hc, IH.
Qed.

Lemma all_chars_strip p s :
  all_chars p s = true -> all_chars p (strip s) = true.
Proof. intros H. now apply all_chars_rstrip, all_chars_lstrip. Qed.

Lemma rstrip_nonspace s :
  all_chars (fun c => negb (is_space c)) s = true -> rstrip s = s.
Proof.
  induction s as [|c s IH]; [reflexivity|]. simpl.
  intros H. apply andb_true_iff in H. destruct H as [Hc Hs].
  apply negb_true_iff in Hc. rewrite (IH Hs), Hc. now destruct s.
Qed.

Lemma rstrip_app a b :
  b <> "" -> all_chars (fun c => negb (is_space c)) b = true ->
  rstrip (a ++ b) = a ++ b.
Proof.
  intros Hb Hs. induction a as [|c a IH]; simpl.
  - now apply rstrip_nonspace.
  - rewrite IH. destruct a; [|reflexivity]. simpl. now destruct b.
Qed.

Lemma append_assoc (a b c : string) : (a ++ b) ++ c = a ++ b ++ c.
Proof. induction a as [|x a IH]; simpl; [reflexivity|now rewrite IH]. Qed.

(** A text framed by two non-empty runs without white space is its own
    [strip]. *)
Lemma strip_framed a m b :
  a <> "" -> b <> "" ->
  all_chars (fun c => negb (is_space c)) a = true ->
  all_chars (fun c => negb (is_space c)) b = true ->
  strip (a ++ m ++ b) = a ++ m ++ b.
Proof.
  intros Ha Hb Hsa Hsb. unfold strip.
  destruct a as [|c a]; [congruence|].
  simpl in Hsa. apply andb_true_iff in Hsa. destruct Hsa as [Hc _].
  apply negb_true_iff in Hc. simpl lstrip. rewrite Hc.
  change (String c (a ++ m ++ b)) with (String c a ++ m ++ b).
  rewrite <- append_assoc. now apply rstrip_app.
Qed.

Lemma strip_nonspace s :
  all_chars (fun c => negb (is_space c)) s = true -> strip s = s.
Proof.
  intros H. unfold strip. destruct s as [|c s]; [reflexivity|].
  assert (Hc : is_space c = false).
  { simpl in H. apply andb_true_iff in H. now apply negb_true_iff. }
  simpl lstrip. rewrite Hc. now apply rstrip_nonspace.
Qed.

(** *** split on the field separator *)

Lemma split_bar_cons c s :
  split "|" (String c s) =
  if Ascii.eqb c "|" then "" :: split "|" s else cons_head c (split "|" s).
Proof.
  unfold split. cbn [split_go prefix].
  destruct (ascii_dec "|" c) as [<-|Hne].
  - now destruct s.
  - destruct (Ascii.eqb_spec c "|") as [->|_]; [now elim Hne|reflexivity].
Qed.

Lemma split_bar_nonempty s : split "|" s <> [].
Proof.
  destruct s as [|c s]; [discriminate|].
  rewrite split_bar_cons. destruct (Ascii.eqb c "|"); [discriminate|].
  now destruct (split "|" s).
Qed.

Lemma split_bar_plain a :
  all_chars not_bar a = true -> split "|" a = [a].
Proof.
  induction a as [|c a IH]; [reflexivity|]. simpl.
  intros H. apply andb_true_iff in H. destruct H as [Hc Ha].
  rewrite split_bar_cons, (IH Ha). apply negb_true_iff in Hc.
  now rewrite Hc.
Qed.

Lemma split_bar_app a b :
  all_chars not_bar a = true ->
  split "|" (a ++ String "|" b) = a :: split "|" b.
Proof.
  induction a as [|c a IH]; simpl.
  - intros _. now rewrite split_bar_cons.
  - intros H. apply andb_true_iff in H. destruct H as [Hc Ha].
    rewrite split_bar_cons, (IH Ha). apply negb_true_iff in Hc.
    now rewrite Hc.
Qed.

Lemma split_bar_chars p s :
  all_chars p s = true ->
  Forall (fun part => all_chars p part = true) (split "|" s).
Proof.
  induction s as [|c s IH]; simpl.
  - intros _. repeat constructor.
  - intros H. apply andb_true_iff in H. destruct H as [Hc Hs].
    specialize (IH Hs). rewrite split_bar_cons.
    destruct (Ascii.eqb c "|"); [now constructor|].
    destruct (split "|" s) as [|q qs]; simpl.
    + repeat constructor. simpl. now rewrite Hc.
    + inversion IH; subst. constructor; [|assumption].
      simpl. now rewrite Hc.
Qed.

Lemma split_bar_no_bar s :
  Forall (fun part => all_chars not_bar part = true) (split "|" s).
Proof.
  induction s as [|c s IH].
  - repeat constructor.
  - rewrite split_bar_cons. destruct (Ascii.eqb c "|") eqn:Hc.
    + now constructor.
    + destruct (split "|" s) as [|q qs]; simpl.
      * repeat constructor. simpl. unfold not_bar. now rewrite Hc.
      * inversion IH; subst. constructor; [|assumption].
        simpl. unfold not_bar at 1. now rewrite Hc.
Qed.

Lemma nth_all_chars p parts n :
  Forall (fun part => all_chars p part = true) parts ->
  all_chars p (nth n parts "") = true.
Proof.
  intros H. revert n. induction H as [|q qs Hq _ IH]; intros [|n]; simpl; auto.
Qed.

(** *** digits and integers *)

Lemma uint_digits d : all_chars is_digit (NilEmpty.string_of_uint d) = true.
Proof. induction d; simpl; auto. Qed.

Lemma digit_groups_digits b s :
  s <> "" -> all_chars is_digit s = true -> digit_groups b s = Some s.
Proof.
  revert b. induction s as [|c s IH]; [congruence|]. intros b _ H.
  simpl in H. apply andb_true_iff in H. destruct H as [Hc Hs].
  simpl. rewrite Hc. destruct s as [|d s]; [reflexivity|].
  rewrite IH by (congruence || exact Hs). reflexivity.
Qed.

Lemma uint_nonempty d : d <> Nil -> NilEmpty.string_of_uint d <> "".
Proof. destruct d; simpl; congruence. Qed.

Lemma unsigned_value_uint d :
  d <> Nil -> unsigned_value (NilEmpty.string_of_uint d) = Some (Z.of_uint d).
Proof.
  intros Hd. unfold unsigned_value.
  rewrite digit_groups_digits by (apply uint_nonempty, Hd || apply uint_digits).
  now rewrite NilEmpty.usu.
Qed.

Lemma digit_not_space c : is_digit c = true -> is_space c = false.
Proof.
  unfold is_digit, is_space. intros H.
  apply andb_true_iff in H. destruct H as [H1 H2].
  apply Nat.leb_le in H1. apply Nat.leb_le in H2.
  apply orb_false_iff. split; apply andb_false_iff.
  - right. apply Nat.leb_gt. lia.
  - right. apply Nat.leb_gt. lia.
Qed.

Lemma digit_or_minus_field c :
  digit_or_minus c = true ->
  (not_bar c && not_newline c) = true /\ is_space c = false.
Proof.
  unfold digit_or_minus. intros H. apply orb_true_iff in H.
  destruct H as [H|H].
  - split; [|now apply digit_not_space].
    unfold is_digit in H. apply andb_true_iff in H. destruct H as [H1 H2].
    apply Nat.leb_le in H1. apply Nat.leb_le in H2.
    unfold not_bar, not_newline.
    destruct (Ascii.eqb_spec c "|") as [->|_];
      [change (nat_of_ascii "|") with 124%nat in *; lia|].
    destruct (Ascii.eqb_spec c LF) as [->|_];
      [change (nat_of_ascii LF) with 10%nat in *; lia|].
    destruct (Ascii.eqb_spec c CR) as [->|_];
      [change (nat_of_ascii CR) with 13%nat in *; lia|].
    reflexivity.
  - apply Ascii.eqb_eq in H. subst c. split; reflexivity.
Qed.

Lemma str_uint_chars d :
  all_chars digit_or_minus (NilZero.string_of_uint d) = true.
Proof.
  destruct d; try reflexivity;
    (eapply all_chars_weaken; [|apply uint_digits]);
    intros c Hc; unfold digit_or_minus; now rewrite Hc.
Qed.

Lemma str_chars z : all_chars digit_or_minus (str z) = true.
Proof.
  unfold str. destruct (Z.to_int z) as [d|d]; simpl.
  - apply str_uint_chars.
  - apply str_uint_chars.
Qed.

Lemma str_field z : field_ok (str z) = true.
Proof.
  unfold field_ok. eapply all_chars_weaken; [|apply str_chars].
  intros c Hc. now apply digit_or_minus_field.
Qed.

Lemma str_no_bar z : all_chars not_bar (str z) = true.
Proof.
  eapply all_chars_weaken; [|apply str_chars].
  intros c Hc. apply digit_or_minus_field in Hc. destruct Hc as [Hc _].
  now apply andb_true_iff in Hc.
Qed.

Lemma str_no_space z : all_chars (fun c => negb (is_space c)) (str z) = true.
Proof.
  eapply all_chars_weaken; [|apply str_chars].
  intros c Hc. apply digit_or_minus_field in Hc. destruct Hc as [_ Hc].
  now rewrite Hc.
Qed.

Lemma str_nonempty z : str z <> "".
Proof.
  unfold str. destruct (Z.to_int z) as [d|d]; simpl; [|discriminate].
  destruct d; simpl; discriminate.
Qed.

Lemma int_space_is_space c : is_int_space c = true -> is_space c = true.
Proof.
  destruct c as [[|] [|] [|] [|] [|] [|] [|] [|]]; intros H;
    (reflexivity || discriminate H).
Qed.

Lemma int_rstrip_nonspace s :
  all_chars (fun c => negb (is_space c)) s = true -> int_rstrip s = s.
Proof.
  induction s as [|c s IH]; [reflexivity|]. simpl.
  intros H. apply andb_true_iff in H. destruct H as [Hc Hs].
  apply negb_true_iff in Hc. rewrite (IH Hs).
  destruct (is_int_space c) eqn:Hi;
    [apply int_space_is_space in Hi; congruence|].
  now destruct s.
Qed.

Lemma int_strip_nonspace s :
  all_chars (fun c => negb (is_space c)) s = true ->
  int_rstrip (int_lstrip s) = s.
Proof.
  intros H. destruct s as [|c s]; [reflexivity|].
  assert (Hc : is_int_space c = false).
  { simpl in H. apply andb_true_iff in H. destruct H as [Hc _].
    apply negb_true_iff in Hc.
    destruct (is_int_space c) eqn:Hi; [|reflexivity].
    apply int_space_is_space in Hi. congruence. }
  cbn [int_lstrip]. rewrite Hc. now apply int_rstrip_nonspace.
Qed.

(** [int] reads back what [str] prints. *)
Lemma int_str z : int (str z) = Some z.
Proof.
  unfold int. rewrite int_strip_nonspace by apply str_no_space.
  rewrite <- (DecimalZ.of_to z) at 2. unfold str.
  destruct z as [|p|p]; simpl Z.to_int.
  - reflexivity.
  - pose proof (DecimalPos.Unsigned.to_uint_nonnil p) as Hnil.
    unfold NilZero.string_of_int, NilZero.string_of_uint.
    destruct (Pos.to_uint p) as [|d|d|d|d|d|d|d|d|d|d] eqn:E;
      try congruence; rewrite <- E in *;
      pose proof (unsigned_value_uint _ Hnil) as Hv;
      rewrite E in Hv |- *; simpl NilEmpty.string_of_uint in *;
      cbv iota beta; simpl Z.of_int; exact Hv.
  - pose proof (DecimalPos.Unsigned.to_uint_nonnil p) as Hnil.
    unfold NilZero.string_of_int, NilZero.string_of_uint.
    assert (Hs : (match Pos.to_uint p with
                  | Nil => "0"
                  | _ => NilEmpty.string_of_uint (Pos.to_uint p)
                  end) = NilEmpty.string_of_uint (Pos.to_uint p))
      by (destruct (Pos.to_uint p); congruence).
    rewrite Hs. simpl Z.of_int.
    now rewrite (unsigned_value_uint _ Hnil).
Qed.

(** *** [in] *)

Lemma contains_bar_app a b : contains "|" (a ++ String "|" b) = true.
Proof.
  induction a as [|c a IH].
  - simpl. destruct (ascii_dec "|" "|"); [now destruct b|congruence].
  - change (String c a ++ String "|" b) with (String c (a ++ String "|" b)).
    cbn [contains]. rewrite IH. apply orb_true_r.
Qed.

End PyStrFacts.

(** ** Facts about the file and the dictionary *)

Module LedgerFacts.
Import PyStr PyStrFacts.

(** *** The dictionary *)

Lemma dict_get_set_same users k v : dict_get (dict_set users k v) k = Some v.
Proof.
  induction users as [|[k' v'] rest IH]; simpl.
  - now rewrite Z.eqb_refl.
  - destruct (k' =? k) eqn:E; simpl; [now rewrite Z.eqb_refl|].
    now rewrite E.
Qed.

Lemma dict_get_set_other users k k' v :
  k' <> k -> dict_get (dict_set users k v) k' = dict_get users k'.
Proof.
  intros Hne. induction users as [|[k0 v0] rest IH]; simpl.
  - destruct (Z.eqb_spec k k'); [congruence|reflexivity].
  - destruct (Z.eqb_spec k0 k) as [->|Hk]; simpl.
    + destruct (Z.eqb_spec k k'); [congruence|reflexivity].
    + destruct (k0 =? k'); [reflexivity|exact IH].
Qed.

Lemma dict_get_in_keys users k :
  In k (keys users) <-> exists v, dict_get users k = Some v.
Proof.
  induction users as [|[k' v'] rest IH]; simpl.
  - split; [tauto|]. intros [v Hv]. discriminate.
  - destruct (Z.eqb_spec k' k) as [->|Hne].
    + split; [eauto|auto].
    + rewrite <- IH. tauto.
Qed.

Lemma dict_get_none users k :
  dict_get users k = None <-> ~ In k (keys users).
Proof.
  rewrite dict_get_in_keys. destruct (dict_get users k) as [v|].
  - split; [discriminate|]. intros H. elim H. eauto.
  - split; [|reflexivity]. intros _ [v Hv]. discriminate.
Qed.

Lemma dict_get_In users k v : dict_get users k = Some v -> In (k, v) users.
Proof.
  induction users as [|[k' v'] rest IH]; simpl; [discriminate|].
  destruct (Z.eqb_spec k' k) as [->|Hne].
  - intros [= ->]. now left.
  - auto.
Qed.

Lemma In_dict_get users k v :
  NoDup (keys users) -> In (k, v) users -> dict_get users k = Some v.
Proof.
  induction users as [|[k' v'] rest IH]; simpl; [tauto|].
  intros Hnd [Heq|Hin].
  - injection Heq as -> ->. now rewrite Z.eqb_refl.
  - inversion Hnd as [|? ? Hnotin Hnd']; subst.
    destruct (Z.eqb_spec k' k) as [->|Hne].
    + elim Hnotin. apply (in_map fst) in Hin. exact Hin.
    + auto.
Qed.

Lemma dict_set_new users k v :
  ~ In k (keys users) -> dict_set users k v = (users ++ [(k, v)])%list.
Proof.
  induction users as [|[k' v'] rest IH]; simpl; [reflexivity|].
  intros Hnotin. destruct (Z.eqb_spec k' k) as [->|Hne]; [tauto|].
  rewrite IH by tauto. reflexivity.
Qed.

Lemma keys_dict_set_old users k v :
  In k (keys users) -> keys (dict_set users k v) = keys users.
Proof.
  induction users as [|[k' v'] rest IH]; simpl; [tauto|].
  intros Hin. destruct (Z.eqb_spec k' k) as [->|Hne]; [reflexivity|].
  simpl. f_equal. apply IH. destruct Hin; [congruence|assumption].
Qed.

Lemma In_dict_set users k v e :
  In e (dict_set users k v) -> e = (k, v) \/ In e users.
Proof.
  induction users as [|[k' v'] rest IH]; simpl.
  - intros [<-|[]]. now left.
  - destruct (k' =? k); simpl.
    + intros [<-|Hin]; auto.
    + intros [<-|Hin]; auto. destruct (IH Hin); auto.
Qed.

Lemma NoDup_keys_dict_set users k v :
  NoDup (keys users) -> NoDup (keys (dict_set users k v)).
Proof.
  intros Hnd. destruct (in_dec Z.eq_dec k (keys users)) as [Hin|Hnotin].
  - now rewrite keys_dict_set_old.
  - rewrite dict_set_new by assumption. unfold keys. rewrite map_app. simpl.
    apply NoDup_app; [assumption|repeat constructor; simpl; tauto|].
    intros a Ha [<-|[]]. contradiction.
Qed.

(** *** Reading the lines back *)

Lemma field_ok_no_bar s : field_ok s = true -> all_chars not_bar s = true.
Proof.
  unfold field_ok. rewrite all_chars_and. intros H.
  now apply andb_true_iff in H.
Qed.

Lemma field_ok_no_newline s :
  field_ok s = true -> all_chars not_newline s = true.
Proof.
  unfold field_ok. rewrite all_chars_and. intros H.
  now apply andb_true_iff in H.
Qed.

Lemma field_ok_intro s :
  all_chars not_bar s = true -> all_chars not_newline s = true ->
  field_ok s = true.
Proof.
  intros H1 H2. unfold field_ok. now rewrite all_chars_and, H1, H2.
Qed.

Lemma line_body_split t data :
  field_ok (unique_id data) = true -> field_ok (city data) = true ->
  split "|" (line_body (t, data)) =
  [str t; unique_id data; str (credits data); city data;
   str (free_messages_used data)].
Proof.
  intros Hu Hc. unfold line_body. cbn [append].
  rewrite split_bar_app by apply str_no_bar.
  rewrite split_bar_app by now apply field_ok_no_bar.
  rewrite split_bar_app by apply str_no_bar.
  rewrite split_bar_app by now apply field_ok_no_bar.
  rewrite split_bar_plain by apply str_no_bar.
  reflexivity.
Qed.

Lemma line_body_strip entry : strip (line_body entry) = line_body entry.
Proof.
  destruct entry as [t data]. unfold line_body.
  set (a := str t). set (b := str (free_messages_used data)).
  replace (a ++ "|" ++ unique_id data ++ "|" ++ str (credits data) ++ "|"
           ++ city data ++ "|" ++ b)
    with (a ++ ("|" ++ unique_id data ++ "|" ++ str (credits data) ++ "|"
                ++ city data ++ "|") ++ b).
  - apply strip_framed; subst a b;
      solve [apply str_nonempty | apply str_no_space].
  - f_equal. rewrite !append_assoc. reflexivity.
Qed.

Lemma line_body_cons entry : exists c rest, line_body entry = String c rest.
Proof.
  destruct entry as [t data]. unfold line_body.
  pose proof (str_nonempty t) as Hne.
  destruct (str t) as [|c r]; [congruence|]. simpl. eauto.
Qed.

Lemma parse_line_body t data :
  field_ok (unique_id data) = true -> field_ok (city data) = true ->
  parse_line (line_body (t, data)) = Entry t data.
Proof.
  intros Hu Hc. unfold parse_line.
  rewrite line_body_strip.
  destruct (line_body_cons (t, data)) as (c & rest & Hshape).
  assert (Hneq : (line_body (t, data) =? "")%string = false)
    by (rewrite Hshape; reflexivity).
  assert (Hbar : contains "|" (line_body (t, data)) = true)
    by (unfold line_body; cbn [append]; apply contains_bar_app).
  rewrite Hneq, Hbar, line_body_split by assumption.
  cbn [negb andb List.length Nat.leb Nat.ltb nth].
  rewrite !int_str. now destruct data.
Qed.

Lemma parse_line_empty : parse_line "" = Skipped.
Proof. reflexivity. Qed.

(** The fields [load_user_database] takes from a line hold no separator and
    no line terminator. *)
Lemma parse_line_fields raw t data :
  all_chars not_newline raw = true ->
  parse_line raw = Entry t data ->
  field_ok (unique_id data) = true /\ field_ok (city data) = true.
Proof.
  intros Hraw. unfold parse_line.
  set (line := strip raw).
  assert (Hline : all_chars not_newline line = true)
    by now apply all_chars_strip.
  pose proof (split_bar_chars _ _ Hline) as Hnl.
  pose proof (split_bar_no_bar line) as Hnb.
  set (parts := split "|" line) in *.
  destruct (negb (line =? "")%string && contains "|" line)%bool;
    [|discriminate].
  destruct (3 <=? List.length parts)%nat; [|discriminate].
  destruct (int (nth 0 parts "")) as [tid|]; [|discriminate].
  destruct (int (nth 2 parts "")) as [cr|]; [|discriminate].
  destruct (if (4 <? List.length parts)%nat
            then int (nth 4 parts "") else Some 0) as [fmu|]; [|discriminate].
  intros [= <- <-]. simpl. split.
  - apply field_ok_intro; now apply nth_all_chars.
  - destruct (3 <? List.length parts)%nat; [|reflexivity].
    apply field_ok_intro; now apply nth_all_chars.
Qed.

(** *** The lines of a file *)

Lemma file_lines_app a b :
  all_chars not_newline a = true ->
  file_lines (a ++ String LF b) = a :: file_lines b.
Proof.
  induction a as [|c a IH]; simpl.
  - intros _. reflexivity.
  - intros H. apply andb_true_iff in H. destruct H as [Hc Ha].
    rewrite (IH Ha). unfold not_newline in Hc. apply negb_true_iff in Hc.
    now rewrite Hc.
Qed.

Lemma file_lines_no_newline text :
  Forall (fun line => all_chars not_newline line = true) (file_lines text).
Proof.
  induction text as [|c text IH]; simpl.
  - repeat constructor.
  - destruct (Ascii.eqb c LF || Ascii.eqb c CR)%bool eqn:Hc.
    + now constructor.
    + destruct (file_lines text) as [|q qs]; simpl.
      * repeat constructor. simpl. unfold not_newline. now rewrite Hc.
      * inversion IH; subst. constructor; [|assumption].
        simpl. unfold not_newline at 1. now rewrite Hc.
Qed.

Lemma record_line_body entry :
  record_line entry = line_body entry ++ String LF "".
Proof.
  destruct entry as [t data]. unfold record_line, line_body.
  rewrite !append_assoc. reflexivity.
Qed.

Lemma line_body_no_newline t data :
  field_ok (unique_id data) = true -> field_ok (city data) = true ->
  all_chars not_newline (line_body (t, data)) = true.
Proof.
  intros Hu Hc. unfold line_body.
  rewrite !all_chars_app.
  rewrite !(field_ok_no_newline _ (str_field _)).
  rewrite (field_ok_no_newline _ Hu), (field_ok_no_newline _ Hc).
  reflexivity.
Qed.

Lemma file_lines_write users :
  fields_ok users ->
  file_lines (write_users users) = (map line_body users ++ [""])%list.
Proof.
  induction 1 as [|[t data] rest [Hu Hc] _ IH]; [reflexivity|].
  cbn [write_users map]. rewrite record_line_body, append_assoc.
  change (String LF "" ++ write_users rest) with (String LF (write_users rest)).
  rewrite file_lines_app by now apply line_body_no_newline.
  now rewrite IH.
Qed.

(** *** Writing, then loading *)

Lemma load_lines_bodies users acc :
  fields_ok users ->
  load_lines (map line_body users ++ [""])%list acc =
  fold_left set_entry users acc.
Proof.
  intros H. revert acc.
  induction H as [|[t data] rest [Hu Hc] _ IH]; intros acc; [reflexivity|].
  simpl in Hu, Hc. cbn [map]. rewrite <- app_comm_cons.
  cbn [load_lines fold_left].
  rewrite parse_line_body by assumption. apply IH.
Qed.

Lemma fold_set_fresh users acc :
  NoDup (keys users) ->
  (forall k, In k (keys users) -> ~ In k (keys acc)) ->
  fold_left set_entry users acc = (acc ++ users)%list.
Proof.
  revert acc. induction users as [|[k v] rest IH]; intros acc Hnd Hfresh.
  - now rewrite app_nil_r.
  - simpl in Hnd. inversion Hnd as [|? ? Hk Hnd']; subst.
    cbn [fold_left]. unfold set_entry at 2. cbn [fst snd].
    rewrite dict_set_new by (apply Hfresh; now left).
    rewrite IH.
    + now rewrite <- app_assoc.
    + assumption.
    + intros k' Hk'. unfold keys. rewrite map_app, in_app_iff.
      intros [Hin|[<-|[]]].
      * apply (Hfresh k'); [now right|assumption].
      * contradiction.
Qed.

(** A well-formed dictionary survives the trip through the file. *)
Lemma load_write users :
  well_formed users ->
  load_user_database (Some (write_users users)) = users.
Proof.
  intros [Hnd Hok]. unfold load_user_database.
  rewrite file_lines_write, load_lines_bodies by assumption.
  now rewrite fold_set_fresh.
Qed.

(** *** Loading gives a well-formed dictionary *)

Lemma fields_ok_dict_set users k v :
  fields_ok users ->
  field_ok (unique_id v) = true -> field_ok (city v) = true ->
  fields_ok (dict_set users k v).
Proof.
  intros Hok Hu Hc. apply Forall_forall. intros e He.
  apply In_dict_set in He. destruct He as [->|He]; [now split|].
  unfold fields_ok in Hok. rewrite Forall_forall in Hok. now apply Hok.
Qed.

Lemma well_formed_dict_set users k v :
  well_formed users ->
  field_ok (unique_id v) = true -> field_ok (city v) = true ->
  well_formed (dict_set users k v).
Proof.
  intros [Hnd Hok] Hu Hc. split.
  - now apply NoDup_keys_dict_set.
  - now apply fields_ok_dict_set.
Qed.

Lemma load_lines_well_formed lines acc :
  Forall (fun line => all_chars not_newline line = true) lines ->
  well_formed acc -> well_formed (load_lines lines acc).
Proof.
  intros H. revert acc. induction H as [|line rest Hline _ IH]; intros acc Hacc.
  - exact Hacc.
  - cbn [load_lines]. destruct (parse_line line) as [| |t data] eqn:E.
    + now apply IH.
    + exact Hacc.
    + destruct (parse_line_fields _ _ _ Hline E) as [Hu Hc].
      apply IH. now apply well_formed_dict_set.
Qed.

Lemma load_well_formed db : well_formed (load_user_database db).
Proof.
  destruct db as [text|]; simpl.
  - apply load_lines_well_formed; [apply file_lines_no_newline|].
    split; constructor.
  - split; constructor.
Qed.

Lemma well_formed_get users k v :
  well_formed users -> dict_get users k = Some v ->
  field_ok (unique_id v) = true /\ field_ok (city v) = true.
Proof.
  intros [_ Hok] Hget. apply dict_get_In in Hget.
  unfold fields_ok in Hok. rewrite Forall_forall in Hok.
  exact (Hok _ Hget).
Qed.

Lemma NOT_SELECTED_field : field_ok NOT_SELECTED = true.
Proof. reflexivity. Qed.

(** *** What a save leaves in the file *)

Lemma load_save db telegram_id code amount town used :
  field_ok code = true -> field_ok town = true ->
  load_user_database
    (save_user_to_database db telegram_id code amount town used) =
  dict_set (load_user_database db) telegram_id
    (saved_record (load_user_database db) telegram_id code amount town used).
Proof.
  intros Hcode Htown. unfold save_user_to_database, saved_record.
  pose proof (load_well_formed db) as Hwf.
  set (users := load_user_database db) in *.
  destruct (preserve_existing (dict_get users telegram_id) town used)
    as [kept_city kept_used] eqn:E.
  apply load_write. apply well_formed_dict_set; [assumption|exact Hcode|].
  simpl. unfold preserve_existing in E.
  destruct (dict_get users telegram_id) as [old|] eqn:G.
  - injection E as <- _.
    destruct (town =? NOT_SELECTED)%string; [|exact Htown].
    now destruct (well_formed_get _ _ _ Hwf G).
  - now injection E as <- _.
Qed.

(** *** get_or_create_user *)

Lemma alphabet_char_field n :
  (not_bar (nth n ALPHABET "A"%char) && not_newline (nth n ALPHABET "A"%char))
  = true.
Proof. do 37 (destruct n as [|n]; [reflexivity|]). reflexivity. Qed.

Lemma generate_user_id_field r : field_ok (fst (generate_user_id r)) = true.
Proof.
  unfold generate_user_id, random_char, field_ok. cbn [fst all_chars].
  now rewrite !alphabet_char_field.
Qed.

(** A generated code has five characters, all of them capital letters or
    digits. *)
Lemma generate_user_id_shape r :
  String.length (fst (generate_user_id r)) = 5%nat /\
  Forall (fun c => In c ALPHABET)
    (list_ascii_of_string (fst (generate_user_id r))).
Proof.
  assert (Hpick : forall n,
             In (nth (n mod List.length ALPHABET) ALPHABET "A"%char) ALPHABET).
  { intros n. apply nth_In. apply Nat.mod_upper_bound. discriminate. }
  unfold generate_user_id, random_char. split.
  - cbn [fst String.length]. reflexivity.
  - cbn [fst list_ascii_of_string].
    repeat (apply Forall_cons; [apply Hpick|]). apply Forall_nil.
Qed.

Lemma retry_user_id_spec fuel users code r code' r' :
  retry_user_id fuel users code r = Some (code', r') ->
  code_taken users code' = false /\
  (field_ok code = true -> field_ok code' = true).
Proof.
  revert code r. induction fuel as [|fuel IH]; intros code r;
    cbn [retry_user_id].
  - destruct (code_taken users code) eqn:E; [discriminate|].
    intros [= <- <-]. auto.
  - destruct (code_taken users code) eqn:E.
    + destruct (generate_user_id r) as [c rr] eqn:G. intros H.
      destruct (IH _ _ H) as [H1 H2]. split; [exact H1|]. intros _.
      apply H2. pose proof (generate_user_id_field r) as F.
      now rewrite G in F.
    + intros [= <- <-]. auto.
Qed.

Lemma code_taken_false users code :
  code_taken users code = false <-> ~ In code (codes users).
Proof.
  unfold code_taken, codes. induction users as [|[k v] rest IH]; simpl.
  - tauto.
  - destruct (String.eqb_spec (unique_id v) code) as [->|Hne]; simpl.
    + split; [discriminate|]. intros H. elim H. now left.
    + rewrite IH. tauto.
Qed.

(** An identity that has a record: the record is returned, nothing is
    written and nothing is drawn. *)
Lemma get_or_create_user_known fuel telegram_id w u :
  dict_get (load_user_database (db w)) telegram_id = Some u ->
  get_or_create_user fuel telegram_id w = Some (u, w).
Proof. intros H. unfold get_or_create_user. now rewrite H. Qed.

(** An unseen identity: a record with a code no stored record has is
    appended, with no credits, no city and no free message used. *)
Lemma get_or_create_user_new fuel telegram_id w u w' :
  dict_get (load_user_database (db w)) telegram_id = None ->
  get_or_create_user fuel telegram_id w = Some (u, w') ->
  exists code,
    u = mk_user code 0 NOT_SELECTED 0 /\
    ~ In code (codes (load_user_database (db w))) /\
    field_ok code = true /\
    load_user_database (db w') =
      (load_user_database (db w) ++ [(telegram_id, u)])%list.
Proof.
  intros Hnone. unfold get_or_create_user. rewrite Hnone.
  destruct (generate_user_id (rand w)) as [c0 r0] eqn:G.
  destruct (retry_user_id fuel _ c0 r0) as [[code r]|] eqn:R; [|discriminate].
  intros [= <- <-]. exists code.
  destruct (retry_user_id_spec _ _ _ _ _ _ R) as [Hfree Hfield].
  assert (Hok : field_ok code = true).
  { apply Hfield. pose proof (generate_user_id_field (rand w)) as F.
    now rewrite G in F. }
  repeat split; [now apply code_taken_false|exact Hok|].
  cbn [db]. rewrite load_save by (exact Hok || reflexivity).
  unfold saved_record. rewrite Hnone. cbn [preserve_existing].
  apply dict_set_new. now apply dict_get_none.
Qed.

(** The loop ends as soon as a drawn code is free. *)
Lemma retry_user_id_free fuel users code r :
  code_taken users code = false ->
  retry_user_id fuel users code r = Some (code, r).
Proof. intros H. destruct fuel; cbn [retry_user_id]; now rewrite H. Qed.

Lemma retry_user_id_returns fuel users n r code :
  (n < fuel)%nat ->
  code_taken users (drawn_code n r) = false ->
  exists result, retry_user_id fuel users code r = Some result.
Proof.
  revert fuel r code. induction n as [|n IH]; intros fuel r code Hlt Hfree;
    (destruct fuel as [|fuel]; [lia|]); cbn [retry_user_id];
    (destruct (code_taken users code); [|eauto]);
    unfold drawn_code in Hfree; cbn [rng_after] in Hfree;
    destruct (generate_user_id r) as [c rr] eqn:G; cbn [fst snd] in Hfree.
  - rewrite retry_user_id_free by exact Hfree. eauto.
  - apply (IH fuel rr c); [lia|exact Hfree].
Qed.

(** [get_or_create_user] returns: at once for a known identity, and for an
    unseen one as soon as one of the first [fuel + 1] drawn codes is free. *)
Lemma get_or_create_user_returns fuel telegram_id w n :
  (n <= fuel)%nat ->
  code_taken (load_user_database (db w)) (drawn_code n (rand w)) = false ->
  exists result, get_or_create_user fuel telegram_id w = Some result.
Proof.
  intros Hle Hfree. unfold get_or_create_user.
  destruct (dict_get _ telegram_id); [eauto|].
  unfold drawn_code in Hfree.
  destruct n as [|n]; cbn [rng_after] in Hfree;
    destruct (generate_user_id (rand w)) as [c0 r0] eqn:G;
    cbn [fst snd] in Hfree.
  - rewrite retry_user_id_free by exact Hfree. eauto.
  - destruct (retry_user_id_returns fuel (load_user_database (db w)) n r0 c0)
      as [[code r] ->]; [lia|exact Hfree|eauto].
Qed.

Lemma get_or_create_user_cases fuel telegram_id w u w' :
  get_or_create_user fuel telegram_id w = Some (u, w') ->
  (dict_get (load_user_database (db w)) telegram_id = Some u /\ w' = w)
  \/
  (dict_get (load_user_database (db w)) telegram_id = None /\
   exists code,
     u = mk_user code 0 NOT_SELECTED 0 /\
     ~ In code (codes (load_user_database (db w))) /\
     load_user_database (db w') =
       dict_set (load_user_database (db w)) telegram_id u).
Proof.
  intros H.
  destruct (dict_get (load_user_database (db w)) telegram_id) as [u0|] eqn:G.
  - left. rewrite (get_or_create_user_known _ _ _ _ G) in H.
    now injection H as -> ->.
  - right. split; [reflexivity|].
    destruct (get_or_create_user_new _ _ _ _ _ G H)
      as (code & -> & Hfree & _ & Hload).
    exists code. repeat split; [exact Hfree|].
    rewrite Hload. symmetry. apply dict_set_new. now apply dict_get_none.
Qed.

(** In both cases the returned record is the stored one afterwards, and its
    texts fit in a field. *)
Lemma get_or_create_user_stored fuel telegram_id w u w' :
  get_or_create_user fuel telegram_id w = Some (u, w') ->
  dict_get (load_user_database (db w')) telegram_id = Some u /\
  field_ok (unique_id u) = true /\ field_ok (city u) = true.
Proof.
  intros H.
  assert (Hget : dict_get (load_user_database (db w')) telegram_id = Some u).
  { destruct (get_or_create_user_cases _ _ _ _ _ H)
      as [[G ->]|[_ (code & _ & _ & Hload)]]; [exact G|].
    rewrite Hload. apply dict_get_set_same. }
  split; [exact Hget|].
  exact (well_formed_get _ _ _ (load_well_formed _) Hget).
Qed.

Lemma balances_nonneg_set users k v :
  balances_nonneg users -> 0 <= credits v ->
  balances_nonneg (dict_set users k v).
Proof.
  intros Hall Hv k' u'. destruct (Z.eq_dec k' k) as [->|Hne].
  - rewrite dict_get_set_same. now intros [= <-].
  - rewrite dict_get_set_other by assumption. apply Hall.
Qed.

Lemma saved_record_credits users k code amount town used :
  credits (saved_record users k code amount town used) = amount.
Proof.
  unfold saved_record.
  now destruct (preserve_existing (dict_get users k) town used).
Qed.

Lemma saved_record_unique_id users k code amount town used :
  unique_id (saved_record users k code amount town used) = code.
Proof.
  unfold saved_record.
  now destruct (preserve_existing (dict_get users k) town used).
Qed.

(** Saving a stored record back with its own city and a count that is not 0
    stores exactly what is passed. *)
Lemma saved_record_update users k old code amount used :
  dict_get users k = Some old -> used <> 0 ->
  saved_record users k code amount (city old) used =
  mk_user code amount (city old) used.
Proof.
  intros Hold Hused. unfold saved_record, preserve_existing. rewrite Hold.
  destruct (Z.eqb_spec used 0); [contradiction|].
  now destruct (city old =? NOT_SELECTED)%string.
Qed.

(** Saving it back with its own city and its own count, too. *)
Lemma saved_record_same users k old code amount :
  dict_get users k = Some old ->
  saved_record users k code amount (city old) (free_messages_used old) =
  mk_user code amount (city old) (free_messages_used old).
Proof.
  intros Hold. unfold saved_record, preserve_existing. rewrite Hold.
  destruct (free_messages_used old =? 0);
    now destruct (city old =? NOT_SELECTED)%string.
Qed.

(** *** find_user_by_unique_id *)

Lemma find_in_users_spec users code t cr town :
  NoDup (keys users) ->
  find_in_users users code = Some (t, cr, town) ->
  exists data,
    dict_get users t = Some data /\
    unique_id data = code /\ credits data = cr /\ city data = town.
Proof.
  induction users as [|[k v] rest IH]; simpl; [discriminate|].
  intros Hnd. inversion Hnd as [|? ? Hk Hnd']; subst.
  destruct (String.eqb_spec (unique_id v) code) as [Hc|Hc].
  - intros [= <- <- <-]. exists v. now rewrite Z.eqb_refl.
  - intros H. destruct (IH Hnd' H) as (data & Hget & Hrest).
    exists data. split; [|exact Hrest].
    destruct (Z.eqb_spec k t) as [->|_]; [|exact Hget].
    elim Hk. apply dict_get_in_keys. eauto.
Qed.

(** Changing the credits of the record that is found leaves it the one that
    is found. *)
Lemma find_in_users_set users code t cr town amount used :
  NoDup (keys users) ->
  find_in_users users code = Some (t, cr, town) ->
  find_in_users (dict_set users t (mk_user code amount town used)) code =
  Some (t, amount, town).
Proof.
  induction users as [|[k v] rest IH]; simpl; [discriminate|].
  intros Hnd. inversion Hnd as [|? ? Hk Hnd']; subst.
  destruct (String.eqb_spec (unique_id v) code) as [Hc|Hc].
  - intros [= <- <- <-]. rewrite Z.eqb_refl. simpl.
    now rewrite String.eqb_refl.
  - intros H. destruct (Z.eqb_spec k t) as [->|Hkt].
    + destruct (find_in_users_spec _ _ _ _ _ Hnd' H) as (data & Hget & _).
      elim Hk. apply dict_get_in_keys. eauto.
    + simpl. destruct (String.eqb_spec (unique_id v) code); [contradiction|].
      now apply IH.
Qed.

(** *** consume_user_message and handle_recharge_command *)

(** What a charged message leaves in the file: either nothing changes, or
    one record is stored whose credits are not negative if the stored ones
    were not. *)
Lemma consume_user_message_step fuel user_id w verdict w' :
  consume_user_message fuel user_id w = Some (verdict, w') ->
  balances_nonneg (load_user_database (db w)) ->
  balances_nonneg (load_user_database (db w')).
Proof.
  unfold consume_user_message.
  destruct (get_or_create_user fuel user_id w) as [[u w1]|] eqn:G;
    [|discriminate].
  intros H Hnn.
  destruct (get_or_create_user_stored _ _ _ _ _ G) as (Hget & Hcode & Htown).
  assert (Hnn1 : balances_nonneg (load_user_database (db w1))).
  { destruct (get_or_create_user_cases _ _ _ _ _ G)
      as [[_ ->]|[_ (code & -> & _ & Hload)]]; [exact Hnn|].
    rewrite Hload. apply balances_nonneg_set; [exact Hnn|]. simpl. lia. }
  pose proof (Hnn1 _ _ Hget) as Hu.
  destruct (free_messages_used u <? FREE_MESSAGES_LIMIT).
  - injection H as _ <-. simpl db. rewrite load_save by assumption.
    apply balances_nonneg_set; [exact Hnn1|].
    now rewrite saved_record_credits.
  - destruct (credits u >=? CREDITS_PER_MESSAGE) eqn:Hc.
    + injection H as _ <-. simpl db. rewrite load_save by assumption.
      apply balances_nonneg_set; [exact Hnn1|].
      rewrite saved_record_credits. apply Z.geb_le in Hc. lia.
    + now injection H as _ <-.
Qed.

Lemma handle_recharge_command_step fuel m s w reply w' :
  handle_recharge_command fuel m s w = Some (reply, w') ->
  balances_nonneg (load_user_database (db w)) ->
  balances_nonneg (load_user_database (db w')).
Proof.
  unfold handle_recharge_command. intros H Hnn.
  destruct (negb (is_admin (from_user_id m))); [now injection H as _ <-|].
  destruct (negb (List.length (split_ws (text m)) =? 3)%nat);
    [now injection H as _ <-|].
  destruct (int (nth 1 (split_ws (text m)) "")) as [amount|];
    [|now injection H as _ <-].
  destruct (amount <? 0) eqn:Hneg; [now injection H as _ <-|].
  apply Z.ltb_ge in Hneg.
  set (code := upper (nth 2 (split_ws (text m)) "")) in *.
  unfold find_user_by_unique_id in H.
  destruct (find_in_users (load_user_database (db w)) code)
    as [[[target cr] town]|] eqn:F; [|now injection H as _ <-].
  destruct (find_in_users_spec _ _ _ _ _ (proj1 (load_well_formed _)) F)
    as (data & Hget & Hcode & _ & Htown).
  rewrite (get_or_create_user_known _ _ _ _ Hget) in H.
  injection H as _ <-. simpl db.
  destruct (well_formed_get _ _ _ (load_well_formed _) Hget) as [Hf1 Hf2].
  rewrite load_save;
    [|rewrite <- Hcode; exact Hf1|rewrite <- Htown; exact Hf2].
  apply balances_nonneg_set; [exact Hnn|].
  now rewrite saved_record_credits.
Qed.

Lemma balances_nonnegb_sound users :
  balances_nonnegb users = true -> balances_nonneg users.
Proof.
  unfold balances_nonnegb. rewrite forallb_forall. intros H k u Hget.
  apply dict_get_In in Hget. apply H in Hget. now apply Z.leb_le in Hget.
Qed.

Lemma consume_free_step fuel user_id w u :
  dict_get (load_user_database (db w)) user_id = Some u ->
  free_messages_used u < FREE_MESSAGES_LIMIT ->
  free_messages_used u + 1 <> 0 ->
  exists w1,
    consume_user_message fuel user_id w =
      Some ((true, "free_message_used"), w1) /\
    load_user_database (db w1) =
      dict_set (load_user_database (db w)) user_id
        (mk_user (unique_id u) (credits u) (city u)
           (free_messages_used u + 1)).
Proof.
  intros Hu Hfree Hnz. unfold consume_user_message.
  rewrite (get_or_create_user_known _ _ _ _ Hu).
  apply Z.ltb_lt in Hfree. rewrite Hfree.
  eexists. split; [reflexivity|]. simpl db.
  destruct (well_formed_get _ _ _ (load_well_formed _) Hu) as [Hf1 Hf2].
  rewrite load_save by assumption.
  now rewrite (saved_record_update _ _ _ _ _ _ Hu Hnz).
Qed.

Lemma consume_credits_step fuel user_id w u :
  dict_get (load_user_database (db w)) user_id = Some u ->
  FREE_MESSAGES_LIMIT <= free_messages_used u ->
  CREDITS_PER_MESSAGE <= credits u ->
  exists w1,
    consume_user_message fuel user_id w = Some ((true, "credits_used"), w1) /\
    load_user_database (db w1) =
      dict_set (load_user_database (db w)) user_id
        (mk_user (unique_id u) (credits u - CREDITS_PER_MESSAGE) (city u)
           (free_messages_used u)).
Proof.
  intros Hu Hused Hcr. unfold consume_user_message.
  rewrite (get_or_create_user_known _ _ _ _ Hu).
  apply Z.ltb_ge in Hused. rewrite Hused.
  apply Z.geb_le in Hcr. rewrite Hcr.
  eexists. split; [reflexivity|]. simpl db.
  destruct (well_formed_get _ _ _ (load_well_formed _) Hu) as [Hf1 Hf2].
  rewrite load_save by assumption.
  now rewrite (saved_record_same _ _ _ _ _ Hu).
Qed.

Lemma consume_denied_step fuel user_id w u :
  dict_get (load_user_database (db w)) user_id = Some u ->
  FREE_MESSAGES_LIMIT <= free_messages_used u ->
  credits u < CREDITS_PER_MESSAGE ->
  consume_user_message fuel user_id w =
    Some ((false, "insufficient_credits"), w).
Proof.
  intros Hu Hused Hcr. unfold consume_user_message.
  rewrite (get_or_create_user_known _ _ _ _ Hu).
  apply Z.ltb_ge in Hused. rewrite Hused.
  assert (Hc : (credits u >=? CREDITS_PER_MESSAGE) = false).
  { rewrite Z.geb_leb. apply Z.leb_gt. exact Hcr. }
  now rewrite Hc.
Qed.

Lemma handle_recharge_command_sets fuel m s w amount code target cr town :
  recharge_request m amount code -> 0 <= amount ->
  find_user_by_unique_id (db w) code = Some (target, cr, town) ->
  exists u w1,
    dict_get (load_user_database (db w)) target = Some u /\
    unique_id u = code /\ credits u = cr /\ city u = town /\
    handle_recharge_command fuel m s w =
      Some (confirm_and_notify s code amount cr, w1) /\
    load_user_database (db w1) =
      dict_set (load_user_database (db w)) target
        (mk_user code amount town (free_messages_used u)).
Proof.
  intros (Hadmin & command & amount_text & code_text & Hparts & Hint & Hup)
         Hpos Hfind.
  unfold find_user_by_unique_id in Hfind.
  destruct (find_in_users_spec _ _ _ _ _ (proj1 (load_well_formed _)) Hfind)
    as (u & Hget & Hcode & Hcr & Htown).
  destruct (well_formed_get _ _ _ (load_well_formed _) Hget) as [Hf1 Hf2].
  exists u. eexists. repeat split; try assumption.
  - unfold handle_recharge_command. rewrite Hadmin, Hparts. cbn [negb].
    cbn [List.length Nat.eqb negb nth]. rewrite Hint, Hup.
    apply Z.ltb_ge in Hpos. rewrite Hpos.
    unfold find_user_by_unique_id. rewrite Hfind.
    rewrite (get_or_create_user_known _ _ _ _ Hget). reflexivity.
  - simpl db. rewrite load_save;
      [|rewrite <- Hcode; exact Hf1|rewrite <- Htown; exact Hf2].
    rewrite <- Htown. now rewrite (saved_record_same _ _ _ _ _ Hget).
Qed.

(** *** Distinct codes *)

Lemma codes_dict_set_new users k v :
  ~ In k (keys users) ->
  codes (dict_set users k v) = (codes users ++ [unique_id v])%list.
Proof.
  intros Hk. rewrite dict_set_new by assumption.
  unfold codes. now rewrite map_app.
Qed.

Lemma NoDup_snoc {A} (l : list A) (x : A) :
  NoDup l -> ~ In x l -> NoDup (l ++ [x]).
Proof.
  intros Hl Hx. apply NoDup_app; [assumption|repeat constructor; simpl; tauto|].
  intros a Ha [<-|[]]. contradiction.
Qed.

Lemma NoDup_map_inj_in {A B} (f : A -> B) (l : list A) x y :
  NoDup (map f l) -> In x l -> In y l -> f x = f y -> x = y.
Proof.
  induction l as [|a l IH]; simpl; [tauto|].
  intros Hnd Hx Hy Hf. inversion Hnd as [|? ? Ha Hnd']; subst.
  destruct Hx as [->|Hx], Hy as [->|Hy]; auto.
  - elim Ha. rewrite Hf. now apply in_map.
  - elim Ha. rewrite <- Hf. now apply in_map.
Qed.

(** Two stored records with the same code belong to the same identity. *)
Lemma distinct_codes_inj users k1 k2 u1 u2 :
  NoDup (codes users) ->
  dict_get users k1 = Some u1 -> dict_get users k2 = Some u2 ->
  unique_id u1 = unique_id u2 -> k1 = k2.
Proof.
  intros Hnd H1 H2 Heq. apply dict_get_In in H1. apply dict_get_In in H2.
  assert (E : (k1, u1) = (k2, u2))
    by (apply (NoDup_map_inj_in _ _ _ _ Hnd H1 H2); exact Heq).
  congruence.
Qed.

Lemma get_or_create_user_codes fuel telegram_id w u w' :
  get_or_create_user fuel telegram_id w = Some (u, w') ->
  NoDup (codes (load_user_database (db w))) ->
  NoDup (codes (load_user_database (db w'))) /\
  (forall k v, dict_get (load_user_database (db w)) k = Some v ->
               dict_get (load_user_database (db w')) k = Some v).
Proof.
  intros H Hnd.
  destruct (get_or_create_user_cases _ _ _ _ _ H)
    as [[_ ->]|[Hnone (code & -> & Hfree & Hload)]]; [auto|].
  rewrite Hload. split.
  - rewrite codes_dict_set_new by now apply dict_get_none.
    now apply NoDup_snoc.
  - intros k v Hk. rewrite dict_get_set_other; [exact Hk|congruence].
Qed.

Lemma create_all_spec fuel ids w records w' :
  create_all fuel ids w = Some (records, w') ->
  NoDup (codes (load_user_database (db w))) ->
  NoDup (codes (load_user_database (db w'))) /\
  Forall2 (fun k u => dict_get (load_user_database (db w')) k = Some u)
    ids records /\
  (forall k v, dict_get (load_user_database (db w)) k = Some v ->
               dict_get (load_user_database (db w')) k = Some v).
Proof.
  revert w records. induction ids as [|k ids IH]; intros w records; simpl.
  - intros [= <- <-]. auto.
  - destruct (get_or_create_user fuel k w) as [[u w1]|] eqn:G; [|discriminate].
    destruct (create_all fuel ids w1) as [[us w2]|] eqn:C; [|discriminate].
    intros [= <- <-] Hnd.
    destruct (get_or_create_user_codes _ _ _ _ _ G Hnd) as [Hnd1 Hkeep1].
    destruct (IH _ _ C Hnd1) as (Hnd2 & Hall & Hkeep2).
    destruct (get_or_create_user_stored _ _ _ _ _ G) as [Hget _].
    repeat split; auto.
Qed.

Lemma Forall2_In_r {A B} (R : A -> B -> Prop) l1 l2 y :
  Forall2 R l1 l2 -> In y l2 -> exists x, In x l1 /\ R x y.
Proof.
  induction 1 as [|a b l1 l2 Hab _ IH]; simpl; [tauto|].
  intros [<-|Hy]; [eauto|]. destruct (IH Hy) as (x & Hx & Hr). eauto.
Qed.

(** A line whose numbers do not parse ends the loading: the lines after it
    are not read, and no record of theirs is in the dictionary. *)
Example load_stops_at_unreadable_line :
  load_user_database
    (Some ("1|ABCDE|5|Roma|2" ++ String LF "" ++
           "x|FGHIJ|0|Roma|0" ++ String LF "" ++
           "3|KLMNO|5|Torino|0" ++ String LF ""))
  = [(1, mk_user "ABCDE" 5 "Roma" 2)].
Proof. reflexivity. Qed.

(** A line with three fields is read with the default city and count. *)
Example load_three_fields :
  load_user_database (Some "7|QRSTU|12")
  = [(7, mk_user "QRSTU" 12 NOT_SELECTED 0)].
Proof. reflexivity. Qed.

(** *** Sequences of operations return *)

Lemma consume_user_message_keys fuel user_id w u :
  dict_get (load_user_database (db w)) user_id = Some u ->
  exists verdict w1,
    consume_user_message fuel user_id w = Some (verdict, w1) /\
    keys (load_user_database (db w1)) = keys (load_user_database (db w)).
Proof.
  intros Hu. unfold consume_user_message.
  rewrite (get_or_create_user_known _ _ _ _ Hu).
  destruct (well_formed_get _ _ _ (load_well_formed _) Hu) as [Hf1 Hf2].
  assert (Hin : In user_id (keys (load_user_database (db w))))
    by (apply dict_get_in_keys; eauto).
  destruct (free_messages_used u <? FREE_MESSAGES_LIMIT).
  - do 2 eexists. split; [reflexivity|]. simpl db.
    rewrite load_save by assumption. now apply keys_dict_set_old.
  - destruct (credits u >=? CREDITS_PER_MESSAGE).
    + do 2 eexists. split; [reflexivity|]. simpl db.
      rewrite load_save by assumption. now apply keys_dict_set_old.
    + do 2 eexists. split; reflexivity.
Qed.

Lemma handle_recharge_command_keys fuel m s w :
  exists reply w1,
    handle_recharge_command fuel m s w = Some (reply, w1) /\
    keys (load_user_database (db w1)) = keys (load_user_database (db w)).
Proof.
  unfold handle_recharge_command.
  destruct (negb (is_admin (from_user_id m))); [eauto|].
  destruct (negb (List.length (split_ws (text m)) =? 3)%nat); [eauto|].
  destruct (int (nth 1 (split_ws (text m)) "")) as [amount|]; [|eauto].
  destruct (amount <? 0); [eauto|].
  unfold find_user_by_unique_id.
  destruct (find_in_users (load_user_database (db w)) _)
    as [[[target cr] town]|] eqn:F; [|eauto].
  destruct (find_in_users_spec _ _ _ _ _ (proj1 (load_well_formed _)) F)
    as (data & Hget & Hcode & _ & Htown).
  destruct (well_formed_get _ _ _ (load_well_formed _) Hget) as [Hf1 Hf2].
  rewrite (get_or_create_user_known _ _ _ _ Hget).
  do 2 eexists. split; [reflexivity|]. simpl db.
  rewrite load_save;
    [|rewrite <- Hcode; exact Hf1|rewrite <- Htown; exact Hf2].
  apply keys_dict_set_old. apply dict_get_in_keys. eauto.
Qed.

(** A sequence whose charged messages all come from identities the file
    holds runs to its end, whatever the fuel and the random source. *)
Lemma run_ops_returns fuel ops w :
  (forall user_id, In (Consume user_id) ops ->
                   In user_id (keys (load_user_database (db w)))) ->
  exists w', run_ops fuel ops w = Some w'.
Proof.
  revert w. induction ops as [|op ops IH]; intros w Hknown; simpl; [eauto|].
  assert (Hstep : exists w1,
             step_op fuel op w = Some w1 /\
             keys (load_user_database (db w1)) =
             keys (load_user_database (db w))).
  { destruct op as [user_id|m s]; simpl.
    - assert (Hin : In user_id (keys (load_user_database (db w))))
        by (apply Hknown; now left).
      apply dict_get_in_keys in Hin. destruct Hin as [u Hu].
      destruct (consume_user_message_keys fuel user_id w u Hu)
        as (verdict & w1 & -> & Hk).
      exists w1. split; [reflexivity|exact Hk].
    - destruct (handle_recharge_command_keys fuel m s w)
        as (reply & w1 & -> & Hk).
      exists w1. split; [reflexivity|exact Hk]. }
  destruct Hstep as (w1 & -> & Hk). apply IH.
  intros user_id Hin. rewrite Hk. apply Hknown. now right.
Qed.

End LedgerFacts.

(** ** Facts about the reply engine *)

Module ReplyFacts.
Import PyStr.

Lemma insert_desc_In x l y : In y (insert_desc x l) <-> y = x \/ In y l.
Proof.
  induction l as [|a l IH]; simpl.
  - intuition.
  - destruct (fst a <=? fst x)%nat; simpl; [intuition|].
    rewrite IH. intuition.
Qed.

Lemma sort_desc_In l y : In y (sort_desc l) <-> In y l.
Proof.
  induction l as [|a l IH]; simpl; [tauto|].
  rewrite insert_desc_In, IH. intuition.
Qed.

Lemma insert_desc_sorted x l :
  StronglySorted key_ge l -> StronglySorted key_ge (insert_desc x l).
Proof.
  induction 1 as [|a l Hs IH Ha]; simpl.
  - repeat constructor.
  - destruct (Nat.leb_spec (fst a) (fst x)) as [Hle|Hgt].
    + constructor; [now constructor|]. constructor; [exact Hle|].
      rewrite Forall_forall in *. intros y Hy. specialize (Ha y Hy).
      unfold key_ge in *. lia.
    + constructor; [exact IH|]. rewrite Forall_forall in *. intros y Hy.
      apply insert_desc_In in Hy. destruct Hy as [->|Hy]; [|now apply Ha].
      unfold key_ge. lia.
Qed.

Lemma sort_desc_sorted l : StronglySorted key_ge (sort_desc l).
Proof.
  induction l as [|a l IH]; simpl; [constructor|].
  now apply insert_desc_sorted.
Qed.

(** The head of the sorted list is one of the matches and no match has a
    larger key. *)
Lemma sort_desc_head l best rest :
  sort_desc l = best :: rest ->
  In best l /\ forall y, In y l -> (fst y <= fst best)%nat.
Proof.
  intros E. split.
  - apply sort_desc_In. rewrite E. now left.
  - intros y Hy. apply sort_desc_In in Hy. rewrite E in Hy.
    pose proof (sort_desc_sorted l) as Hs. rewrite E in Hs.
    inversion Hs as [|? ? _ Hall]; subst.
    destruct Hy as [<-|Hy]; [lia|].
    rewrite Forall_forall in Hall. exact (Hall y Hy).
Qed.

(** Among matches of equal length the sort keeps the order of the table:
    its head is the first of the longest. *)
Lemma sort_desc_first_max l : hd_error (sort_desc l) = first_max l.
Proof.
  induction l as [|x l IH]; [reflexivity|].
  cbn [sort_desc fold_right first_max]. fold (sort_desc l).
  rewrite <- IH. destruct (sort_desc l) as [|y rest]; [reflexivity|].
  cbn [insert_desc hd_error]. now destruct (fst y <=? fst x)%nat.
Qed.

Lemma matched_responses_In table prompt_lower n rs :
  In (n, rs) (matched_responses table prompt_lower) <->
  exists kw, In (kw, rs) table /\ contains kw prompt_lower = true
             /\ n = len kw.
Proof.
  unfold matched_responses. rewrite in_map_iff. split.
  - intros ([kw rs'] & [= <- <-] & Hin). apply filter_In in Hin.
    exists kw. simpl in Hin. intuition.
  - intros (kw & Hin & Hc & ->). exists (kw, rs). split; [reflexivity|].
    apply filter_In. auto.
Qed.

(** The winning candidate set is keyed by a matching keyword that no other
    matching keyword exceeds in length. *)
Lemma winning_responses_longest table prompt_lower rs :
  winning_responses table prompt_lower = Some rs ->
  exists kw,
    In (kw, rs) table /\ contains kw prompt_lower = true /\
    forall kw' rs', In (kw', rs') table ->
      contains kw' prompt_lower = true -> (len kw' <= len kw)%nat.
Proof.
  unfold winning_responses.
  destruct (sort_desc (matched_responses table prompt_lower))
    as [|[n rs0] rest] eqn:E; [discriminate|].
  intros [= <-]. destruct (sort_desc_head _ _ _ E) as [Hin Hmax].
  apply matched_responses_In in Hin. destruct Hin as (kw & Hin & Hc & ->).
  exists kw. repeat split; [exact Hin|exact Hc|].
  intros kw' rs' Hin' Hc'.
  apply (Hmax (len kw', rs')). apply matched_responses_In. eauto.
Qed.

(** Some candidate set wins as soon as one keyword matches. *)
Lemma winning_responses_some table prompt_lower kw rs :
  In (kw, rs) table -> contains kw prompt_lower = true ->
  exists rs', winning_responses table prompt_lower = Some rs'.
Proof.
  intros Hin Hc. unfold winning_responses.
  destruct (sort_desc (matched_responses table prompt_lower)) as [|b rest] eqn:E;
    [|eauto].
  assert (H : In (len kw, rs) (sort_desc (matched_responses table prompt_lower)))
    by (apply sort_desc_In, matched_responses_In; eauto).
  rewrite E in H. destruct H.
Qed.

Lemma winning_responses_none table prompt_lower :
  winning_responses table prompt_lower = None ->
  forall kw rs, In (kw, rs) table -> contains kw prompt_lower = false.
Proof.
  intros Hnone kw rs Hin.
  destruct (contains kw prompt_lower) eqn:Hc; [|reflexivity].
  destruct (winning_responses_some _ _ _ _ Hin Hc) as [rs' H]. congruence.
Qed.

(** [random.choice] of a non-empty list returns one of its elements. *)
Lemma random_choice_In {A} (l : list A) r :
  l <> [] -> exists x, fst (random_choice l r) = Some x /\ In x l.
Proof.
  intros Hl. unfold random_choice. cbn [fst].
  assert (Hlt : (r O mod List.length l < List.length l)%nat).
  { apply Nat.mod_upper_bound. destruct l; [congruence|discriminate]. }
  destruct (nth_error l (r O mod List.length l)) as [x|] eqn:E.
  - exists x. split; [reflexivity|]. eapply nth_error_In, E.
  - apply nth_error_None in E. lia.
Qed.

Lemma append_nonempty_r a b : b <> "" -> a ++ b <> "".
Proof. destruct a; simpl; [auto|discriminate]. Qed.

Lemma response_patterns_ok profile_name :
  candidates_ok (response_patterns profile_name).
Proof.
  unfold candidates_ok, response_patterns.
  repeat (apply Forall_cons || apply Forall_nil || split);
    try discriminate; try (cbn [append]; discriminate).
  apply append_nonempty_r. discriminate.
Qed.

Lemma short_responses_ok :
  short_responses <> [] /\ Forall (fun reply => reply <> "") short_responses.
Proof. split; [discriminate|]. repeat constructor; discriminate. Qed.

Lemma long_responses_ok :
  long_responses <> [] /\ Forall (fun reply => reply <> "") long_responses.
Proof. split; [discriminate|]. repeat constructor; discriminate. Qed.

(** Over a table whose candidate lists are in order, the fallback returns a
    text that is not empty: one of the winning set when a keyword matches,
    one of the short or of the long generic replies otherwise. *)
Lemma respond_with_spec table prompt_lower r :
  candidates_ok table ->
  exists reply,
    fst (respond_with table prompt_lower r) = Some reply /\
    reply <> "" /\
    match winning_responses table prompt_lower with
    | Some rs => In reply rs
    | None =>
        if (len prompt_lower <? 10)%nat
        then In reply short_responses
        else In reply long_responses
    end.
Proof.
  intros Hok. unfold respond_with.
  destruct (winning_responses table prompt_lower) as [rs|] eqn:W.
  - destruct (winning_responses_longest _ _ _ W) as (kw & Hin & _).
    unfold candidates_ok in Hok. rewrite Forall_forall in Hok.
    destruct (Hok _ Hin) as [Hne Hall]. simpl in Hne, Hall.
    destruct (random_choice_In rs r Hne) as (x & Hx & Hxin).
    exists x. repeat split; [exact Hx| |exact Hxin].
    rewrite Forall_forall in Hall. now apply Hall.
  - destruct (len prompt_lower <? 10)%nat.
    + destruct short_responses_ok as [Hne Hall].
      destruct (random_choice_In short_responses r Hne) as (x & Hx & Hxin).
      exists x. repeat split; [exact Hx| |exact Hxin].
      rewrite Forall_forall in Hall. now apply Hall.
    + destruct long_responses_ok as [Hne Hall].
      destruct (random_choice_In long_responses r Hne) as (x & Hx & Hxin).
      exists x. repeat split; [exact Hx| |exact Hxin].
      rewrite Forall_forall in Hall. now apply Hall.
Qed.

Lemma validate_reply_nonempty ai_response reply :
  validate_reply ai_response = Some reply -> reply <> "".
Proof.
  unfold validate_reply.
  destruct (String.eqb_spec ai_response "") as [->|Hne]; [discriminate|].
  cbn [negb andb].
  destruct ((3 <? len ai_response)%nat && (len ai_response <? 200)%nat)%bool;
    [|discriminate].
  destruct (negb (existsb _ EMOJIS)); intros [= <-]; [|exact Hne].
  destruct ai_response; [congruence|discriminate].
Qed.

End ReplyFacts.

(** ** The ledger store *)

Import PyStr PyStrFacts LedgerFacts.

(** C6, as the specification states it, fails in two ways.  A record that
    stands in the file after a line whose number does not parse is not read
    by the save, which writes the file without it: here the line of
    identity 3 is lost by a save for identity 1.  And a saved city that
    holds a line break puts a line of its own in the file: here a save for
    identity 3 replaces the record of identity 2. *)
Lemma save_loses_other_record_counterexample :
  let unreadable :=
    "1|ABCDE|5|Roma|2" ++ String LF "" ++
    "x|FGHIJ|0|Roma|0" ++ String LF "" ++
    "3|KLMNO|5|Torino|0" ++ String LF "" in
  (In "3|KLMNO|5|Torino|0" (file_lines unreadable) /\
   parse_line "3|KLMNO|5|Torino|0" = Entry 3 (mk_user "KLMNO" 5 "Torino" 0) /\
   save_user_to_database (Some unreadable) 1 "ABCDE" 9 "Milano" 3
   = Some ("1|ABCDE|9|Milano|3" ++ String LF "")) /\
  (dict_get (load_user_database example_db) 2
   = Some (mk_user "FGHIJ" 0 NOT_SELECTED 0) /\
   dict_get
     (load_user_database
        (save_user_to_database example_db 3 "KLMNO" 5
           ("Torino" ++ String LF "" ++ "2|ZZZZZ|99|Bari") 1)) 2
   = Some (mk_user "ZZZZZ" 99 "Bari" 1) /\
   mk_user "ZZZZZ" 99 "Bari" 1 <> mk_user "FGHIJ" 0 NOT_SELECTED 0).
Proof.
  cbv zeta. split; [split; [|split]|split; [|split]].
  - vm_compute. auto.
  - reflexivity.
  - reflexivity.
  - reflexivity.
  - reflexivity.
  - discriminate.
Qed.

(** C6, amended: a save for identity [a], of a code and a city that hold no
    '|' and no line break, leaves the record that [load_user_database] reads
    for any other identity [b] as it was, in all its fields. *)
Theorem save_keeps_other_records store a b code amount town used rb :
  a <> b ->
  field_ok code = true -> field_ok town = true ->
  dict_get (load_user_database store) b = Some rb ->
  dict_get
    (load_user_database (save_user_to_database store a code amount town used))
    b
  = Some rb.
Proof.
  intros Hab Hcode Htown Hb.
  rewrite load_save by assumption.
  rewrite dict_get_set_other by congruence. exact Hb.
Qed.

Lemma save_keeps_other_records_witness :
  dict_get
    (load_user_database
       (save_user_to_database example_db 1 "ABCDE" 9 "Milano" 3)) 2
  = Some (mk_user "FGHIJ" 0 NOT_SELECTED 0).
Proof.
  apply (save_keeps_other_records example_db 1 2 "ABCDE" 9 "Milano" 3).
  - discriminate.
  - reflexivity.
  - reflexivity.
  - reflexivity.
Defined.

(** C10, as it is stated, fails when the saved code or city holds a '|':
    the line written for the identity then has too many fields and cannot be
    read back, so neither the stored city Roma nor the stored count 2 of
    identity 1 is in the file any more. *)
Lemma save_default_unreadable_counterexample :
  dict_get (load_user_database example_db) 1
  = Some (mk_user "ABCDE" 5 "Roma" 2) /\
  option_map city
    (dict_get
       (load_user_database
          (save_user_to_database example_db 1 "AB|CD" 9 NOT_SELECTED 3)) 1)
  = None /\
  option_map free_messages_used
    (dict_get
       (load_user_database
          (save_user_to_database example_db 1 "ABCDE" 9 "Mi|lano" 0)) 1)
  = None /\
  (None : option string) <> Some "Roma" /\ (None : option Z) <> Some 2.
Proof. repeat split; (reflexivity || discriminate). Qed.

(** C10, amended: for an identity that has a stored record, and a saved code
    and city that hold no '|' and no line break, a save whose city is the
    default "non selezionata" leaves the stored city as it was, and a save
    whose count of free messages is 0 leaves the stored count as it was. *)
Theorem save_default_keeps_stored
    store telegram_id old code amount town used :
  dict_get (load_user_database store) telegram_id = Some old ->
  field_ok code = true -> field_ok town = true ->
  option_map city
    (dict_get
       (load_user_database
          (save_user_to_database store telegram_id code amount
             NOT_SELECTED used)) telegram_id)
  = Some (city old) /\
  option_map free_messages_used
    (dict_get
       (load_user_database
          (save_user_to_database store telegram_id code amount town 0))
       telegram_id)
  = Some (free_messages_used old).
Proof.
  intros Hold Hcode Htown. split.
  - rewrite load_save by (exact Hcode || reflexivity).
    rewrite dict_get_set_same. unfold saved_record. rewrite Hold.
    reflexivity.
  - rewrite load_save by assumption.
    rewrite dict_get_set_same. unfold saved_record. rewrite Hold.
    reflexivity.
Qed.

Lemma save_default_keeps_stored_witness :
  option_map city
    (dict_get
       (load_user_database
          (save_user_to_database example_db 1 "ABCDE" 9 NOT_SELECTED 3)) 1)
  = Some "Roma" /\
  option_map free_messages_used
    (dict_get
       (load_user_database
          (save_user_to_database example_db 1 "ABCDE" 9 "Milano" 0)) 1)
  = Some 2.
Proof.
  apply (save_default_keeps_stored example_db 1 (mk_user "ABCDE" 5 "Roma" 2)
           "ABCDE" 9 "Milano" 3).
  - reflexivity.
  - reflexivity.
  - reflexivity.
Defined.

(** C5, as the specification states it, fails: identity 1 is stored with the
    city Roma and 2 free messages used; saving it with the default city and
    the count 0 and reading it back gives Roma and 2, not what was saved. *)
Lemma save_round_trip_counterexample :
  let saved := mk_user "ABCDE" 7 NOT_SELECTED 0 in
  let after :=
    save_user_to_database example_db 1 (unique_id saved) (credits saved)
      (city saved) (free_messages_used saved) in
  option_map fst (get_or_create_user 0 1 (mk_world after example_rng))
  = Some (mk_user "ABCDE" 7 "Roma" 2)
  /\ mk_user "ABCDE" 7 "Roma" 2 <> saved.
Proof. split; [reflexivity|discriminate]. Qed.

(** C5, amended: after a save, [get_or_create_user] on the same identity
    returns the saved code and credits; it returns the saved city unless
    that is the default and the identity already had a record, and the saved
    count of free messages unless that is 0 and the identity already had a
    record: in those two cases it returns the value stored before.  Nothing
    is written by the read. *)
Theorem save_then_get_or_create store fuel r telegram_id code amount town used :
  field_ok code = true -> field_ok town = true ->
  let after := save_user_to_database store telegram_id code amount town used in
  let before := dict_get (load_user_database store) telegram_id in
  get_or_create_user fuel telegram_id (mk_world after r) =
  Some (mk_user code amount
          (match before with
           | Some old => if (town =? NOT_SELECTED)%string then city old else town
           | None => town
           end)
          (match before with
           | Some old => if used =? 0 then free_messages_used old else used
           | None => used
           end),
        mk_world after r).
Proof.
  intros Hcode Htown after before. apply get_or_create_user_known.
  cbn [db]. subst after. rewrite load_save by assumption.
  rewrite dict_get_set_same. unfold saved_record, preserve_existing.
  subst before. now destruct (dict_get (load_user_database store) telegram_id).
Qed.

Lemma save_then_get_or_create_witness :
  get_or_create_user 0 2
    (mk_world (save_user_to_database example_db 2 "FGHIJ" 4 "Milano" 1)
       example_rng)
  = Some (mk_user "FGHIJ" 4 "Milano" 1,
          mk_world (save_user_to_database example_db 2 "FGHIJ" 4 "Milano" 1)
            example_rng).
Proof.
  apply (save_then_get_or_create example_db 0 example_rng 2 "FGHIJ" 4
           "Milano" 1).
  - reflexivity.
  - reflexivity.
Defined.

(** ** The quota engine *)

(** C7, as the specification states it, fails: with no database file, the
    check for the unseen identity 42 creates the file with a record for
    it. *)
Lemma check_creates_record_counterexample :
  option_map (fun result => db (snd result))
    (can_user_send_message 0 42 (mk_world None example_rng))
  = Some (Some ("42|AAAAA|0|non selezionata|0" ++ String LF ""))
  /\ Some ("42|AAAAA|0|non selezionata|0" ++ String LF "") <> (None : database).
Proof. split; [reflexivity|discriminate]. Qed.

(** C7, amended: for an identity that has a stored record, the check
    returns and leaves the database file (and the random source) exactly as
    they were. *)
Theorem check_is_pure_for_known_user fuel user_id w u :
  dict_get (load_user_database (db w)) user_id = Some u ->
  exists verdict, can_user_send_message fuel user_id w = Some (verdict, w).
Proof.
  intros Hu. unfold can_user_send_message.
  rewrite (get_or_create_user_known _ _ _ _ Hu).
  destruct (free_messages_used u <? FREE_MESSAGES_LIMIT); [eauto|].
  destruct (credits u >=? CREDITS_PER_MESSAGE); eauto.
Qed.

Lemma check_is_pure_for_known_user_witness :
  exists verdict,
    can_user_send_message 0 1 (mk_world example_db example_rng)
    = Some (verdict, mk_world example_db example_rng).
Proof.
  apply (check_is_pure_for_known_user 0 1 (mk_world example_db example_rng)
           (mk_user "ABCDE" 5 "Roma" 2)).
  reflexivity.
Defined.

(** Whatever the identity, the check alters no stored record: at most it
    adds the record of an identity the file did not hold. *)
Lemma check_keeps_stored_records fuel user_id w verdict w' :
  can_user_send_message fuel user_id w = Some (verdict, w') ->
  forall k v, dict_get (load_user_database (db w)) k = Some v ->
              dict_get (load_user_database (db w')) k = Some v.
Proof.
  unfold can_user_send_message.
  destruct (get_or_create_user fuel user_id w) as [[u w1]|] eqn:G;
    [|discriminate].
  intros H k v Hk.
  assert (w' = w1).
  { destruct (free_messages_used u <? FREE_MESSAGES_LIMIT);
      [now injection H|].
    destruct (credits u >=? CREDITS_PER_MESSAGE); now injection H. }
  subst w'.
  destruct (get_or_create_user_cases _ _ _ _ _ G)
    as [[_ ->]|[Hnone (code & _ & _ & Hload)]]; [exact Hk|].
  rewrite Hload, dict_get_set_other; [exact Hk|congruence].
Qed.

(** C1: starting from a file whose balances are all non-negative, every
    sequence of charged messages and [/ricarica] commands that runs to its
    end leaves a file whose balances are all non-negative. *)
Theorem credit_balance_never_negative fuel ops w w' :
  balances_nonneg (load_user_database (db w)) ->
  run_ops fuel ops w = Some w' ->
  balances_nonneg (load_user_database (db w')).
Proof.
  revert w. induction ops as [|op ops IH]; intros w Hnn; simpl.
  - now intros [= <-].
  - destruct (step_op fuel op w) as [w1|] eqn:S; [|discriminate].
    intros Hrun. apply (IH w1); [|exact Hrun].
    destruct op as [user_id|m s]; simpl in S.
    + destruct (consume_user_message fuel user_id w) as [[verdict w2]|] eqn:C;
        [|discriminate].
      injection S as <-.
      exact (consume_user_message_step _ _ _ _ _ C Hnn).
    + destruct (handle_recharge_command fuel m s w) as [[reply w2]|] eqn:C;
        [|discriminate].
      injection S as <-.
      exact (handle_recharge_command_step _ _ _ _ _ _ C Hnn).
Qed.

Lemma credit_balance_never_negative_witness :
  exists w',
    run_ops 0 example_ops (mk_world example_db example_rng) = Some w' /\
    balances_nonneg (load_user_database (db w')).
Proof.
  eexists. split.
  - reflexivity.
  - apply (credit_balance_never_negative 0 example_ops
             (mk_world example_db example_rng)).
    + apply balances_nonnegb_sound. reflexivity.
    + reflexivity.
Defined.

(** The mechanism behind C1, first half: credits are deducted only from a
    stored balance of at least [CREDITS_PER_MESSAGE]. *)
Lemma consume_deducts_only_when_enough fuel user_id w w' :
  consume_user_message fuel user_id w = Some ((true, "credits_used"), w') ->
  exists u,
    dict_get (load_user_database (db w)) user_id = Some u /\
    CREDITS_PER_MESSAGE <= credits u /\
    dict_get (load_user_database (db w')) user_id =
      Some (mk_user (unique_id u) (credits u - CREDITS_PER_MESSAGE) (city u)
              (free_messages_used u)).
Proof.
  unfold consume_user_message.
  destruct (get_or_create_user fuel user_id w) as [[u w1]|] eqn:G;
    [|discriminate].
  destruct (free_messages_used u <? FREE_MESSAGES_LIMIT) eqn:Hfree;
    [discriminate|].
  destruct (credits u >=? CREDITS_PER_MESSAGE) eqn:Hcr; [|discriminate].
  intros [= <-].
  destruct (get_or_create_user_cases _ _ _ _ _ G)
    as [[Hget ->]|[_ (code & -> & _)]]; [|discriminate].
  exists u. apply Z.geb_le in Hcr. repeat split; [exact Hget|exact Hcr|].
  simpl db.
  destruct (well_formed_get _ _ _ (load_well_formed _) Hget) as [Hf1 Hf2].
  rewrite load_save by assumption. rewrite dict_get_set_same.
  now rewrite (saved_record_same _ _ _ _ _ Hget).
Qed.

(** The mechanism behind C1, second half: a negative amount is refused and
    nothing is written. *)
Lemma recharge_rejects_negative fuel m s w amount code :
  recharge_request m amount code -> amount < 0 ->
  handle_recharge_command fuel m s w =
    Some (send_answer s NegativeAmount CommandError, w).
Proof.
  intros (Hadmin & command & amount_text & code_text & Hparts & Hint & _) Hneg.
  unfold handle_recharge_command. rewrite Hadmin, Hparts.
  cbn [negb List.length Nat.eqb nth]. rewrite Hint.
  apply Z.ltb_lt in Hneg. now rewrite Hneg.
Qed.

(** A [/ricarica] command always returns: the identity it looks up is one
    the file holds. *)
Lemma handle_recharge_command_returns fuel m s w :
  exists result, handle_recharge_command fuel m s w = Some result.
Proof.
  unfold handle_recharge_command.
  destruct (negb (is_admin (from_user_id m))); [eauto|].
  destruct (negb (List.length (split_ws (text m)) =? 3)%nat); [eauto|].
  destruct (int (nth 1 (split_ws (text m)) "")) as [amount|]; [|eauto].
  destruct (amount <? 0); [eauto|].
  unfold find_user_by_unique_id.
  destruct (find_in_users (load_user_database (db w)) _)
    as [[[target cr] town]|] eqn:F; [|eauto].
  destruct (find_in_users_spec _ _ _ _ _ (proj1 (load_well_formed _)) F)
    as (data & Hget & _).
  rewrite (get_or_create_user_known _ _ _ _ Hget). eauto.
Qed.

(** A charged message returns whenever [get_or_create_user] does. *)
Lemma consume_user_message_returns fuel user_id w n :
  (n <= fuel)%nat ->
  code_taken (load_user_database (db w)) (drawn_code n (rand w)) = false ->
  exists result, consume_user_message fuel user_id w = Some result.
Proof.
  intros Hle Hfree. unfold consume_user_message.
  destruct (get_or_create_user_returns fuel user_id w n Hle Hfree)
    as [[u w1] ->].
  destruct (free_messages_used u <? FREE_MESSAGES_LIMIT); [eauto|].
  destruct (credits u >=? CREDITS_PER_MESSAGE); eauto.
Qed.

(** C2: [get_or_create_user] called in turn for pairwise distinct
    identities, on a file whose codes are pairwise distinct (an empty or
    missing file is one), returns records whose codes are pairwise distinct,
    and the codes in the file stay pairwise distinct. *)
Theorem public_codes_pairwise_distinct fuel ids w records w' :
  NoDup ids ->
  NoDup (codes (load_user_database (db w))) ->
  create_all fuel ids w = Some (records, w') ->
  NoDup (map unique_id records) /\
  NoDup (codes (load_user_database (db w'))).
Proof.
  intros Hids Hnd Hrun.
  destruct (create_all_spec _ _ _ _ _ Hrun Hnd) as (Hnd' & Hall & _).
  split; [|exact Hnd'].
  clear Hrun Hnd. induction Hall as [|k u ids records Hku Hall IH]; simpl.
  - constructor.
  - inversion Hids as [|? ? Hk Hids']; subst. constructor; [|now apply IH].
    intros Hin. apply in_map_iff in Hin. destruct Hin as (u' & Heq & Hu').
    destruct (Forall2_In_r _ _ _ _ Hall Hu') as (k' & Hk' & Hget').
    assert (k' = k) by exact (distinct_codes_inj _ _ _ _ _ Hnd' Hget' Hku Heq).
    subst k'. contradiction.
Qed.

Lemma public_codes_pairwise_distinct_witness :
  exists w',
    create_all 1 [10; 20; 30] (mk_world None example_rng) =
      Some ([mk_user "AAAAA" 0 NOT_SELECTED 0;
             mk_user "BBBBB" 0 NOT_SELECTED 0;
             mk_user "CCCCC" 0 NOT_SELECTED 0], w') /\
    NoDup (map unique_id
             [mk_user "AAAAA" 0 NOT_SELECTED 0;
              mk_user "BBBBB" 0 NOT_SELECTED 0;
              mk_user "CCCCC" 0 NOT_SELECTED 0]) /\
    NoDup (codes (load_user_database (db w'))).
Proof.
  eexists. split.
  - reflexivity.
  - apply (public_codes_pairwise_distinct 1 [10; 20; 30]
             (mk_world None example_rng)).
    + repeat constructor; simpl; intuition discriminate.
    + constructor.
    + reflexivity.
Defined.

(** C3: for a stored record with [c] credits and no free message used, the
    first two charged messages succeed as free ones and each adds 1 to
    [free_messages_used], leaving the credits at [c]; the third succeeds on
    credits and takes [CREDITS_PER_MESSAGE] from them when [c] is at least
    that, leaving [free_messages_used] at 2, and is refused otherwise,
    leaving the file as it is. *)
Theorem fresh_record_three_consumes fuel user_id w u :
  dict_get (load_user_database (db w)) user_id = Some u ->
  free_messages_used u = 0 ->
  exists w1 w2,
    consume_user_message fuel user_id w =
      Some ((true, "free_message_used"), w1) /\
    dict_get (load_user_database (db w1)) user_id =
      Some (mk_user (unique_id u) (credits u) (city u) 1) /\
    consume_user_message fuel user_id w1 =
      Some ((true, "free_message_used"), w2) /\
    dict_get (load_user_database (db w2)) user_id =
      Some (mk_user (unique_id u) (credits u) (city u) 2) /\
    (CREDITS_PER_MESSAGE <= credits u ->
     exists w3,
       consume_user_message fuel user_id w2 =
         Some ((true, "credits_used"), w3) /\
       dict_get (load_user_database (db w3)) user_id =
         Some (mk_user (unique_id u) (credits u - CREDITS_PER_MESSAGE)
                 (city u) 2)) /\
    (credits u < CREDITS_PER_MESSAGE ->
     consume_user_message fuel user_id w2 =
       Some ((false, "insufficient_credits"), w2)).
Proof.
  intros Hu Hzero.
  destruct (consume_free_step fuel user_id w u Hu) as (w1 & C1 & L1);
    [rewrite Hzero; reflexivity|rewrite Hzero; discriminate|].
  rewrite Hzero in L1. cbn [Z.add Z.of_nat] in L1.
  assert (G1 : dict_get (load_user_database (db w1)) user_id =
               Some (mk_user (unique_id u) (credits u) (city u) 1))
    by (rewrite L1; apply dict_get_set_same).
  destruct (consume_free_step fuel user_id w1 _ G1) as (w2 & C2 & L2);
    [reflexivity|discriminate|].
  cbn [unique_id credits city free_messages_used] in L2.
  assert (G2 : dict_get (load_user_database (db w2)) user_id =
               Some (mk_user (unique_id u) (credits u) (city u) 2))
    by (rewrite L2; apply dict_get_set_same).
  exists w1, w2. repeat split; try assumption.
  - intros Hcr.
    destruct (consume_credits_step fuel user_id w2 _ G2) as (w3 & C3 & L3);
      [cbn; reflexivity || (unfold FREE_MESSAGES_LIMIT; simpl; lia)
      |exact Hcr|].
    exists w3. split; [exact C3|]. rewrite L3. apply dict_get_set_same.
  - intros Hcr. apply (consume_denied_step fuel user_id w2 _ G2).
    + unfold FREE_MESSAGES_LIMIT. simpl. lia.
    + exact Hcr.
Qed.

Lemma fresh_record_three_consumes_witness :
  exists w1 w2,
    consume_user_message 0 3 (mk_world example_db example_rng) =
      Some ((true, "free_message_used"), w1) /\
    dict_get (load_user_database (db w1)) 3 =
      Some (mk_user "KLMNO" 5 "Torino" 1) /\
    consume_user_message 0 3 w1 = Some ((true, "free_message_used"), w2) /\
    dict_get (load_user_database (db w2)) 3 =
      Some (mk_user "KLMNO" 5 "Torino" 2) /\
    (CREDITS_PER_MESSAGE <= 5 ->
     exists w3,
       consume_user_message 0 3 w2 = Some ((true, "credits_used"), w3) /\
       dict_get (load_user_database (db w3)) 3 =
         Some (mk_user "KLMNO" (5 - CREDITS_PER_MESSAGE) "Torino" 2)) /\
    (5 < CREDITS_PER_MESSAGE ->
     consume_user_message 0 3 w2 =
       Some ((false, "insufficient_credits"), w2)).
Proof.
  apply (fresh_record_three_consumes 0 3 (mk_world example_db example_rng)
           (mk_user "KLMNO" 5 "Torino" 0)).
  - reflexivity.
  - reflexivity.
Defined.

(** ** The recharge command *)

(** C4: [/ricarica] sets the credits of the record it finds to the amount
    given, whatever they were: after a recharge of [a1] and one of [a2] the
    credits are [a2], and after each of the two the city and the count of
    free messages used are what they were at the start.  This holds whichever
    of the messages of the two runs go out. *)
Theorem recharge_sets_credits_absolutely
    fuel m1 m2 s1 s2 w a1 a2 code target cr town :
  recharge_request m1 a1 code -> recharge_request m2 a2 code ->
  0 <= a1 -> 0 <= a2 ->
  find_user_by_unique_id (db w) code = Some (target, cr, town) ->
  exists u w1 w2,
    dict_get (load_user_database (db w)) target = Some u /\
    handle_recharge_command fuel m1 s1 w =
      Some (confirm_and_notify s1 code a1 cr, w1) /\
    dict_get (load_user_database (db w1)) target =
      Some (mk_user code a1 (city u) (free_messages_used u)) /\
    handle_recharge_command fuel m2 s2 w1 =
      Some (confirm_and_notify s2 code a2 a1, w2) /\
    dict_get (load_user_database (db w2)) target =
      Some (mk_user code a2 (city u) (free_messages_used u)).
Proof.
  intros Hm1 Hm2 Ha1 Ha2 Hfind.
  destruct (handle_recharge_command_sets fuel m1 s1 w a1 code target cr town
              Hm1 Ha1 Hfind)
    as (u & w1 & Hget & Hcode & Hcr & Htown & Hrun1 & Hload1).
  assert (Hfind1 : find_user_by_unique_id (db w1) code =
                   Some (target, a1, town)).
  { unfold find_user_by_unique_id in *. rewrite Hload1.
    apply (find_in_users_set _ _ _ cr); [|exact Hfind].
    apply load_well_formed. }
  destruct (handle_recharge_command_sets fuel m2 s2 w1 a2 code target a1 town
              Hm2 Ha2 Hfind1)
    as (u1 & w2 & Hget1 & _ & _ & _ & Hrun2 & Hload2).
  assert (Hu1 : u1 = mk_user code a1 town (free_messages_used u)).
  { rewrite Hload1, dict_get_set_same in Hget1. congruence. }
  subst u1. cbn [free_messages_used] in Hload2.
  exists u, w1, w2. rewrite Htown. repeat split; try assumption.
  rewrite Hload2. apply dict_get_set_same.
Qed.

Lemma recharge_sets_credits_absolutely_witness :
  exists u w1 w2,
    dict_get (load_user_database example_db) 1 = Some u /\
    handle_recharge_command 0 (mk_message ADMIN 100 "/ricarica 50 abcde")
      all_sent (mk_world example_db example_rng)
    = Some (mk_outcome [CreditsSet "ABCDE" 50 5] false, w1) /\
    dict_get (load_user_database (db w1)) 1 =
      Some (mk_user "ABCDE" 50 (city u) (free_messages_used u)) /\
    handle_recharge_command 0 (mk_message ADMIN 100 "/ricarica 10 ABCDE")
      answer_lost w1
    = Some (mk_outcome [CommandError] false, w2) /\
    dict_get (load_user_database (db w2)) 1 =
      Some (mk_user "ABCDE" 10 (city u) (free_messages_used u)).
Proof.
  apply (recharge_sets_credits_absolutely 0
           (mk_message ADMIN 100 "/ricarica 50 abcde")
           (mk_message ADMIN 100 "/ricarica 10 ABCDE")
           all_sent answer_lost
           (mk_world example_db example_rng) 50 10 "ABCDE" 1 5 "Roma").
  - split; [reflexivity|]. exists "/ricarica", "50", "abcde".
    repeat split; reflexivity.
  - split; [reflexivity|]. exists "/ricarica", "10", "ABCDE".
    repeat split; reflexivity.
  - discriminate.
  - discriminate.
  - reflexivity.
Defined.

(** ** The reply engine *)

Import ReplyFacts.

(** The rule of C8 over any table of patterns whose candidate lists are not
    empty (such as one that holds both "come stai" and "come"): the reply is
    one of the candidates of a matching keyword that no matching keyword
    exceeds in length. *)
Lemma longest_match_in_table table prompt_lower r kw0 rs0 :
  candidates_ok table ->
  In (kw0, rs0) table -> contains kw0 prompt_lower = true ->
  exists kw rs reply,
    In (kw, rs) table /\ contains kw prompt_lower = true /\
    (forall kw' rs', In (kw', rs') table ->
       contains kw' prompt_lower = true -> (len kw' <= len kw)%nat) /\
    fst (respond_with table prompt_lower r) = Some reply /\ In reply rs.
Proof.
  intros Hok Hin0 Hc0.
  destruct (winning_responses_some _ _ _ _ Hin0 Hc0) as [rs W].
  destruct (winning_responses_longest _ _ _ W) as (kw & Hin & Hc & Hmax).
  destruct (respond_with_spec table prompt_lower r Hok) as (reply & Hr & _ & Hsel).
  rewrite W in Hsel. exists kw, rs, reply. auto.
Qed.

(** A table that holds both "come stai" and "come", in either order: the
    input "come stai" selects the set keyed by "come stai". *)
Example come_stai_beats_come rs_come rs_come_stai :
  winning_responses [("come", rs_come); ("come stai", rs_come_stai)]
    "come stai" = Some rs_come_stai /\
  winning_responses [("come stai", rs_come_stai); ("come", rs_come)]
    "come stai" = Some rs_come_stai.
Proof. split; reflexivity. Qed.

(** C8: when a keyword of the table occurs in the lower-cased, stripped
    input, the reply of [get_contextual_response] is one of the candidates
    of a matching keyword that no other matching keyword exceeds in length;
    and for the input "come stai" the reply is one of the candidates keyed
    by "come stai". *)
Theorem longest_keyword_wins prompt profile_name r kw0 rs0 :
  In (kw0, rs0) (response_patterns profile_name) ->
  contains kw0 (strip (lower prompt)) = true ->
  (exists kw rs reply,
     In (kw, rs) (response_patterns profile_name) /\
     contains kw (strip (lower prompt)) = true /\
     (forall kw' rs', In (kw', rs') (response_patterns profile_name) ->
        contains kw' (strip (lower prompt)) = true ->
        (len kw' <= len kw)%nat) /\
     fst (get_contextual_response prompt profile_name r) = Some reply /\
     In reply rs) /\
  (exists reply,
     fst (get_contextual_response "come stai" profile_name r) = Some reply /\
     In reply COME_STAI_RESPONSES).
Proof.
  intros Hin0 Hc0. split.
  - unfold get_contextual_response.
    exact (longest_match_in_table _ _ r kw0 rs0
             (response_patterns_ok profile_name) Hin0 Hc0).
  - unfold get_contextual_response.
    destruct (respond_with_spec (response_patterns profile_name)
                (strip (lower "come stai")) r
                (response_patterns_ok profile_name)) as (reply & Hr & _ & Hsel).
    exists reply. split; [exact Hr|].
    assert (W : winning_responses (response_patterns profile_name)
                  (strip (lower "come stai")) = Some COME_STAI_RESPONSES)
      by reflexivity.
    now rewrite W in Hsel.
Qed.

Lemma longest_keyword_wins_witness :
  (exists kw rs reply,
     In (kw, rs) (response_patterns "Sofia") /\
     contains kw (strip (lower "Ciao, COME STAI? tutto bene")) = true /\
     (forall kw' rs', In (kw', rs') (response_patterns "Sofia") ->
        contains kw' (strip (lower "Ciao, COME STAI? tutto bene")) = true ->
        (len kw' <= len kw)%nat) /\
     fst (get_contextual_response "Ciao, COME STAI? tutto bene" "Sofia"
            example_rng) = Some reply /\
     In reply rs) /\
  (exists reply,
     fst (get_contextual_response "come stai" "Sofia" example_rng)
     = Some reply /\
     In reply COME_STAI_RESPONSES).
Proof.
  apply (longest_keyword_wins "Ciao, COME STAI? tutto bene" "Sofia"
           example_rng "ciao"
           ["Ciao bello! 😈 Hai voglia di giocare con me?";
            "Ehi tesoro! 🔥 Mi hai fatto venire voglia di te...";
            "Ciao amore! 💋 Spero tu sia pronto per me!"]).
  - left. reflexivity.
  - reflexivity.
Defined.

(** C9: [query_huggingface_ai] returns, and returns a text that is not
    empty, whatever the input, the persona and the outcome of the call to
    the generator.  Every failure of the call and every response that cannot
    be used gives the reply of [get_contextual_response]: a call that
    raises, a status other than 200, and with status 200 a body that is not
    JSON, JSON that is not a list, an empty list, a first item that is no
    dictionary, a first item without generated text, and a generated text
    whose extracted reply has at most 3 or at least 200 characters.  Only an
    extracted reply of 4 to 199 characters is returned, with a marker added
    when it holds none.  The reply of [get_contextual_response] is never
    empty, and when no keyword matches it is one of the short generic
    replies if the stripped lower-cased input has fewer than 10 characters
    and one of the long ones otherwise. *)
Theorem query_huggingface_ai_total prompt profile_name http r :
  (exists reply,
     fst (query_huggingface_ai prompt profile_name http r) = Some reply /\
     reply <> "") /\
  query_huggingface_ai prompt profile_name RequestRaised r =
    get_contextual_response prompt profile_name r /\
  (forall status_code body,
     status_code <> 200 ->
     query_huggingface_ai prompt profile_name (Replied status_code body) r =
     get_contextual_response prompt profile_name r) /\
  query_huggingface_ai prompt profile_name (Replied 200 NotJson) r =
    get_contextual_response prompt profile_name r /\
  query_huggingface_ai prompt profile_name (Replied 200 JsonOther) r =
    get_contextual_response prompt profile_name r /\
  query_huggingface_ai prompt profile_name (Replied 200 (JsonList [])) r =
    get_contextual_response prompt profile_name r /\
  (forall items,
     query_huggingface_ai prompt profile_name
       (Replied 200 (JsonList (Unusable :: items))) r =
     get_contextual_response prompt profile_name r) /\
  (forall items,
     query_huggingface_ai prompt profile_name
       (Replied 200 (JsonList (NoGeneratedText :: items))) r =
     get_contextual_response prompt profile_name r) /\
  (forall generated_text items,
     query_huggingface_ai prompt profile_name
       (Replied 200 (JsonList (Generated generated_text :: items))) r =
     let ai_response := extract_reply profile_name generated_text in
     if ((len ai_response <=? 3) || (200 <=? len ai_response))%nat
     then get_contextual_response prompt profile_name r
     else (Some (if existsb (fun emoji => contains emoji ai_response) EMOJIS
                 then ai_response else ai_response ++ " 😈"), r)) /\
  (exists reply,
     fst (get_contextual_response prompt profile_name r) = Some reply /\
     reply <> "" /\
     match winning_responses (response_patterns profile_name)
             (strip (lower prompt)) with
     | Some rs => In reply rs
     | None =>
         if (len (strip (lower prompt)) <? 10)%nat
         then In reply short_responses
         else In reply long_responses
     end).
Proof.
  pose proof (respond_with_spec (response_patterns profile_name)
                (strip (lower prompt)) r (response_patterns_ok profile_name))
    as (fallback & Hf & Hne & Hsel).
  assert (Hfallback :
            exists reply,
              fst (get_contextual_response prompt profile_name r) = Some reply
              /\ reply <> "")
    by (exists fallback; auto).
  split; [|split; [|split; [|split; [|split; [|split; [|split; [|split;
    [|split]]]]]]]].
  - unfold query_huggingface_ai.
    destruct (primary_reply profile_name http) as [[reply|]|] eqn:P;
      [|exact Hfallback|exact Hfallback].
    exists reply. split; [reflexivity|].
    unfold primary_reply in P.
    destruct http as [|status_code body]; [discriminate|].
    destruct (status_code =? 200); [|discriminate].
    destruct body as [| |[|[generated_text| |] items]]; try discriminate;
      injection P as P; exact (validate_reply_nonempty _ _ P).
  - reflexivity.
  - intros status_code body Hstatus.
    unfold query_huggingface_ai, primary_reply.
    apply Z.eqb_neq in Hstatus. now rewrite Hstatus.
  - reflexivity.
  - reflexivity.
  - reflexivity.
  - reflexivity.
  - intros items. unfold query_huggingface_ai, primary_reply.
    now destruct profile_name.
  - intros generated_text items. cbv zeta.
    unfold query_huggingface_ai, primary_reply. cbn [Z.eqb Pos.eqb].
    generalize (extract_reply profile_name generated_text). intros ai.
    unfold validate_reply.
    destruct ai as [|c ai]; [reflexivity|].
    cbn [String.eqb negb andb].
    rewrite (Nat.leb_antisym 3 (len (String c ai))).
    rewrite (Nat.leb_antisym (len (String c ai)) 200).
    destruct (3 <? len (String c ai))%nat; cbn [negb andb orb]; [|reflexivity].
    destruct (len (String c ai) <? 200)%nat; cbn [negb andb orb];
      [|reflexivity].
    now destruct (existsb (fun emoji => contains emoji (String c ai)) EMOJIS).
  - exists fallback. auto.
Qed.

(** * Further properties of the code *)

(** ** The file format *)

Module FileFacts.
Import PyStr PyStrFacts LedgerFacts.

Lemma file_lines_plain text :
  all_chars not_newline text = true -> file_lines text = [text].
Proof.
  induction text as [|c text IH]; simpl; [reflexivity|].
  intros H. apply andb_true_iff in H. destruct H as [Hc Ht].
  rewrite (IH Ht). unfold not_newline in Hc. apply negb_true_iff in Hc.
  now rewrite Hc.
Qed.

Lemma file_lines_write_app users tail :
  fields_ok users ->
  file_lines (write_users users ++ tail) =
  (map line_body users ++ file_lines tail)%list.
Proof.
  induction 1 as [|[t data] rest [Hu Hc] _ IH]; [reflexivity|].
  cbn [write_users map]. rewrite record_line_body, !append_assoc.
  change (String LF "" ++ write_users rest ++ tail)
    with (String LF (write_users rest ++ tail)).
  rewrite file_lines_app by now apply line_body_no_newline.
  now rewrite IH.
Qed.

Lemma load_lines_bodies_app users rest acc :
  fields_ok users ->
  load_lines (map line_body users ++ rest)%list acc =
  load_lines rest (fold_left set_entry users acc).
Proof.
  intros H. revert acc.
  induction H as [|[t data] more [Hu Hc] _ IH]; intros acc; [reflexivity|].
  simpl in Hu, Hc. cbn [map]. rewrite <- app_comm_cons.
  cbn [load_lines fold_left].
  rewrite parse_line_body by assumption. apply IH.
Qed.

(** Loading a written dictionary followed by any further text. *)
Lemma load_write_app users tail :
  well_formed users ->
  load_user_database (Some (write_users users ++ tail)) =
  load_lines (file_lines tail) users.
Proof.
  intros [Hnd Hok]. unfold load_user_database.
  rewrite file_lines_write_app, load_lines_bodies_app by assumption.
  now rewrite fold_set_fresh.
Qed.

(** A line of the older format, with three fields. *)
Lemma parse_line_three_fields t code amount :
  field_ok code = true ->
  parse_line (str t ++ "|" ++ code ++ "|" ++ str amount) =
  Entry t (mk_user code amount NOT_SELECTED 0).
Proof.
  intros Hcode.
  assert (Hstrip : strip (str t ++ "|" ++ code ++ "|" ++ str amount) =
                   str t ++ "|" ++ code ++ "|" ++ str amount).
  { replace (str t ++ "|" ++ code ++ "|" ++ str amount)
      with (str t ++ ("|" ++ code ++ "|") ++ str amount)
      by (now rewrite !append_assoc).
    apply strip_framed;
      solve [apply str_nonempty | apply str_no_space]. }
  unfold parse_line. rewrite Hstrip.
  pose proof (str_nonempty t) as Hne.
  assert (Hneq : ((str t ++ "|" ++ code ++ "|" ++ str amount) =? "")%string
                 = false)
    by (destruct (str t); [congruence|reflexivity]).
  rewrite Hneq. cbn [append negb andb].
  rewrite contains_bar_app.
  rewrite split_bar_app by apply str_no_bar.
  rewrite split_bar_app by now apply field_ok_no_bar.
  rewrite split_bar_plain by apply str_no_bar.
  cbn [List.length Nat.leb Nat.ltb nth].
  now rewrite !int_str.
Qed.

End FileFacts.

Import FileFacts.

(** X1: the file format round trip.  A dictionary with distinct keys whose
    codes and cities hold no '|' and no line break is read back unchanged,
    in the same order, from the text [save_user_to_database] writes for
    it. *)
Theorem write_then_load users :
  well_formed users ->
  load_user_database (Some (write_users users)) = users.
Proof.
  intros [Hdistinct Hfields]. unfold load_user_database.
  rewrite file_lines_write by assumption.
  rewrite load_lines_bodies by assumption.
  rewrite fold_set_fresh; [reflexivity|assumption|].
  intros k _ [].
Qed.

Lemma write_then_load_witness :
  load_user_database
    (Some (write_users [(7, mk_user "QRSTU" 12 "Reggio Emilia" 1);
                        (-3, mk_user "" (-4) NOT_SELECTED 0)]))
  = [(7, mk_user "QRSTU" 12 "Reggio Emilia" 1);
     (-3, mk_user "" (-4) NOT_SELECTED 0)].
Proof.
  apply (write_then_load [(7, mk_user "QRSTU" 12 "Reggio Emilia" 1);
                          (-3, mk_user "" (-4) NOT_SELECTED 0)]).
  split.
  - repeat constructor; simpl; intuition discriminate.
  - repeat constructor.
Defined.

(** X2: whatever the text of the file, the dictionary
    [load_user_database] returns has pairwise distinct keys, and no code or
    city in it holds a '|' or a line break. *)
Theorem load_is_well_formed store :
  NoDup (keys (load_user_database store)) /\
  Forall (fun entry => field_ok (unique_id (snd entry)) = true
                       /\ field_ok (city (snd entry)) = true)
    (load_user_database store).
Proof.
  destruct store as [contents|]; cbn [load_user_database].
  - apply (load_lines_well_formed (file_lines contents) []).
    + apply file_lines_no_newline.
    + split; constructor.
  - split; constructor.
Qed.

(** X3: a last line of the older format, with only the identity, the code
    and the credits, is read as a record with the city "non selezionata" and
    no free message used; it replaces an earlier record of the same
    identity. *)
Theorem load_three_field_line users t code amount :
  well_formed users -> field_ok code = true ->
  load_user_database
    (Some (write_users users ++ str t ++ "|" ++ code ++ "|" ++ str amount))
  = dict_set users t (mk_user code amount NOT_SELECTED 0).
Proof.
  intros Hwf Hcode. rewrite load_write_app by assumption.
  rewrite file_lines_plain.
  - cbn [load_lines]. now rewrite parse_line_three_fields.
  - rewrite !all_chars_app.
    rewrite !(field_ok_no_newline _ (str_field _)).
    now rewrite (field_ok_no_newline _ Hcode).
Qed.

Lemma load_three_field_line_witness :
  load_user_database
    (Some (write_users [(7, mk_user "QRSTU" 12 "Roma" 1)]
           ++ str 8 ++ "|" ++ "VWXYZ" ++ "|" ++ str 30))
  = dict_set [(7, mk_user "QRSTU" 12 "Roma" 1)] 8
      (mk_user "VWXYZ" 30 NOT_SELECTED 0).
Proof.
  apply (load_three_field_line [(7, mk_user "QRSTU" 12 "Roma" 1)] 8 "VWXYZ" 30).
  - split; repeat constructor; simpl; tauto.
  - reflexivity.
Defined.

(** X4: a line on which [int] raises ends the loading.  The records of the
    lines after it are not in the dictionary, and the next save writes the
    file without them. *)
Theorem load_stops_at_raising_line users bad rest :
  well_formed users ->
  all_chars not_newline bad = true ->
  parse_line bad = Raised ->
  load_user_database (Some (write_users users ++ bad ++ String LF rest))
  = users
  /\ forall k code amount town used,
       save_user_to_database
         (Some (write_users users ++ bad ++ String LF rest))
         k code amount town used
       = Some (write_users
                 (dict_set users k
                    (saved_record users k code amount town used))).
Proof.
  intros Hwf Hbad Hraise.
  assert (Hload : load_user_database
                    (Some (write_users users ++ bad ++ String LF rest))
                  = users).
  { rewrite load_write_app by assumption.
    rewrite file_lines_app by assumption.
    cbn [load_lines]. now rewrite Hraise. }
  split; [exact Hload|].
  intros k code amount town used.
  unfold save_user_to_database, saved_record. rewrite Hload.
  now destruct (preserve_existing (dict_get users k) town used).
Qed.

Lemma load_stops_at_raising_line_witness :
  load_user_database
    (Some (write_users [(1, mk_user "ABCDE" 5 "Roma" 2)]
           ++ "x|FGHIJ|0|Roma|0" ++ String LF "3|KLMNO|5|Torino|0"))
  = [(1, mk_user "ABCDE" 5 "Roma" 2)]
  /\ forall k code amount town used,
       save_user_to_database
         (Some (write_users [(1, mk_user "ABCDE" 5 "Roma" 2)]
                ++ "x|FGHIJ|0|Roma|0" ++ String LF "3|KLMNO|5|Torino|0"))
         k code amount town used
       = Some (write_users
                 (dict_set [(1, mk_user "ABCDE" 5 "Roma" 2)] k
                    (saved_record [(1, mk_user "ABCDE" 5 "Roma" 2)] k code
                       amount town used))).
Proof.
  apply (load_stops_at_raising_line [(1, mk_user "ABCDE" 5 "Roma" 2)]
           "x|FGHIJ|0|Roma|0" "3|KLMNO|5|Torino|0").
  - split; repeat constructor; simpl; tauto.
  - reflexivity.
  - reflexivity.
Defined.

(** ** The ledger *)

Module MoreLedgerFacts.
Import PyStr PyStrFacts LedgerFacts.

Lemma find_in_users_of_get users telegram_id u :
  NoDup (codes users) ->
  dict_get users telegram_id = Some u ->
  find_in_users users (unique_id u) = Some (telegram_id, credits u, city u).
Proof.
  induction users as [|[k v] rest IH]; simpl; [discriminate|].
  intros Hnd Hget. inversion Hnd as [|? ? Hv Hnd']; subst.
  destruct (Z.eqb_spec k telegram_id) as [->|Hk].
  - injection Hget as ->. now rewrite String.eqb_refl.
  - destruct (String.eqb_spec (unique_id v) (unique_id u)) as [E|_].
    + elim Hv. rewrite E. apply dict_get_In in Hget.
      change (unique_id u) with
        ((fun entry : Z * user_data => unique_id (snd entry)) (telegram_id, u)).
      now apply in_map.
    + now apply IH.
Qed.

Lemma retry_user_id_shape fuel users code r code' r' :
  retry_user_id fuel users code r = Some (code', r') ->
  (String.length code = 5%nat /\
   Forall (fun c => In c ALPHABET) (list_ascii_of_string code)) ->
  String.length code' = 5%nat /\
  Forall (fun c => In c ALPHABET) (list_ascii_of_string code').
Proof.
  revert code r. induction fuel as [|fuel IH]; intros code r;
    cbn [retry_user_id]; destruct (code_taken users code).
  - discriminate.
  - now intros [= <- <-].
  - destruct (generate_user_id r) as [c rr] eqn:G. intros H _.
    apply (IH _ _ H). pose proof (generate_user_id_shape r) as S.
    now rewrite G in S.
  - now intros [= <- <-].
Qed.

(** What a charged message does, for an identity the file holds. *)
Lemma consume_user_message_known fuel user_id w u :
  dict_get (load_user_database (db w)) user_id = Some u ->
  (free_messages_used u < FREE_MESSAGES_LIMIT ->
   exists w1,
     consume_user_message fuel user_id w =
       Some ((true, "free_message_used"), w1) /\
     rand w1 = rand w /\
     load_user_database (db w1) =
       dict_set (load_user_database (db w)) user_id
         (mk_user (unique_id u) (credits u) (city u)
            (if free_messages_used u + 1 =? 0
             then free_messages_used u else free_messages_used u + 1))) /\
  (FREE_MESSAGES_LIMIT <= free_messages_used u ->
   CREDITS_PER_MESSAGE <= credits u ->
   exists w1,
     consume_user_message fuel user_id w = Some ((true, "credits_used"), w1) /\
     rand w1 = rand w /\
     load_user_database (db w1) =
       dict_set (load_user_database (db w)) user_id
         (mk_user (unique_id u) (credits u - CREDITS_PER_MESSAGE) (city u)
            (free_messages_used u))) /\
  (FREE_MESSAGES_LIMIT <= free_messages_used u ->
   credits u < CREDITS_PER_MESSAGE ->
   consume_user_message fuel user_id w =
     Some ((false, "insufficient_credits"), w)).
Proof.
  intros Hu.
  destruct (well_formed_get _ _ _ (load_well_formed _) Hu) as [Hf1 Hf2].
  repeat split.
  - intros Hfree. unfold consume_user_message.
    rewrite (get_or_create_user_known _ _ _ _ Hu).
    apply Z.ltb_lt in Hfree. rewrite Hfree.
    eexists. split; [reflexivity|]. split; [reflexivity|]. simpl db.
    rewrite load_save by assumption.
    unfold saved_record, preserve_existing. rewrite Hu.
    now destruct (city u =? NOT_SELECTED)%string.
  - intros Hused Hcr.
    destruct (consume_credits_step fuel user_id w u Hu Hused Hcr)
      as (w1 & Hrun & Hload).
    exists w1. repeat split; [exact Hrun| |exact Hload].
    unfold consume_user_message in Hrun.
    rewrite (get_or_create_user_known _ _ _ _ Hu) in Hrun.
    apply Z.ltb_ge in Hused. rewrite Hused in Hrun.
    apply Z.geb_le in Hcr. rewrite Hcr in Hrun.
    now injection Hrun as <-.
  - intros Hused Hcr. now apply (consume_denied_step fuel user_id w u).
Qed.

End MoreLedgerFacts.

Import MoreLedgerFacts.

(** X5: a second [get_or_create_user] for the same identity returns the
    record the first one returned and changes nothing: neither the file nor
    the random source, with any bound on the draws. *)
Theorem get_or_create_user_twice fuel fuel' telegram_id w u w1 :
  get_or_create_user fuel telegram_id w = Some (u, w1) ->
  get_or_create_user fuel' telegram_id w1 = Some (u, w1).
Proof.
  intros H. apply get_or_create_user_known.
  now destruct (get_or_create_user_stored _ _ _ _ _ H).
Qed.

Lemma get_or_create_user_twice_witness :
  exists u w1,
    get_or_create_user 1 42 (mk_world example_db example_rng) = Some (u, w1) /\
    get_or_create_user 0 42 w1 = Some (u, w1).
Proof.
  do 2 eexists. split.
  - reflexivity.
  - apply (get_or_create_user_twice 1 0 42 (mk_world example_db example_rng)).
    reflexivity.
Defined.

(** X6: the record created for an unseen identity has a code of five
    characters, all capital letters or digits, that no stored record has,
    0 credits, the city "non selezionata" and no free message used; it is
    appended to the file after the records that were there. *)
Theorem get_or_create_user_creates fuel telegram_id w u w1 :
  dict_get (load_user_database (db w)) telegram_id = None ->
  get_or_create_user fuel telegram_id w = Some (u, w1) ->
  String.length (unique_id u) = 5%nat /\
  Forall (fun c => In c ALPHABET) (list_ascii_of_string (unique_id u)) /\
  ~ In (unique_id u) (codes (load_user_database (db w))) /\
  credits u = 0 /\ city u = NOT_SELECTED /\ free_messages_used u = 0 /\
  load_user_database (db w1) =
    (load_user_database (db w) ++ [(telegram_id, u)])%list.
Proof.
  intros Hnone Hrun.
  destruct (get_or_create_user_new _ _ _ _ _ Hnone Hrun)
    as (code & -> & Hfree & _ & Hload).
  unfold get_or_create_user in Hrun. rewrite Hnone in Hrun.
  destruct (generate_user_id (rand w)) as [c0 r0] eqn:G.
  destruct (retry_user_id fuel _ c0 r0) as [[code' r]|] eqn:R; [|discriminate].
  injection Hrun as Hcode _. subst code'.
  pose proof (generate_user_id_shape (rand w)) as S. rewrite G in S.
  destruct (retry_user_id_shape _ _ _ _ _ _ R S) as [Hlen Hchars].
  cbn [unique_id credits city free_messages_used]. repeat split; assumption.
Qed.

Lemma get_or_create_user_creates_witness :
  exists u w1,
    get_or_create_user 1 42 (mk_world example_db example_rng) = Some (u, w1) /\
    (String.length (unique_id u) = 5%nat /\
     Forall (fun c => In c ALPHABET) (list_ascii_of_string (unique_id u)) /\
     ~ In (unique_id u) (codes (load_user_database example_db)) /\
     credits u = 0 /\ city u = NOT_SELECTED /\ free_messages_used u = 0 /\
     load_user_database (db w1) =
       (load_user_database example_db ++ [(42, u)])%list).
Proof.
  do 2 eexists. split.
  - reflexivity.
  - apply (get_or_create_user_creates 1 42 (mk_world example_db example_rng)).
    + reflexivity.
    + reflexivity.
Defined.

(** X7: looking up the code that [get_or_create_user] returned finds the
    same identity, with its credits and its city, when the codes in the file
    are pairwise distinct. *)
Theorem find_user_by_returned_code fuel telegram_id w u w1 :
  NoDup (codes (load_user_database (db w))) ->
  get_or_create_user fuel telegram_id w = Some (u, w1) ->
  find_user_by_unique_id (db w1) (unique_id u) =
  Some (telegram_id, credits u, city u).
Proof.
  intros Hnd Hrun. unfold find_user_by_unique_id.
  destruct (get_or_create_user_codes _ _ _ _ _ Hrun Hnd) as [Hnd1 _].
  destruct (get_or_create_user_stored _ _ _ _ _ Hrun) as [Hget _].
  now apply find_in_users_of_get.
Qed.

Lemma find_user_by_returned_code_witness :
  exists u w1,
    get_or_create_user 1 42 (mk_world example_db example_rng) = Some (u, w1) /\
    find_user_by_unique_id (db w1) (unique_id u) = Some (42, credits u, city u).
Proof.
  do 2 eexists. split.
  - reflexivity.
  - apply (find_user_by_returned_code 1 42 (mk_world example_db example_rng)).
    + repeat constructor; simpl; intuition discriminate.
    + reflexivity.
Defined.

Lemma handle_recharge_command_cases fuel m s w out w1 :
  handle_recharge_command fuel m s w = Some (out, w1) ->
  (exists refusal,
     is_refusal refusal = true /\
     out = send_answer s refusal CommandError /\ w1 = w)
  \/
  (exists code amount previous target u,
     out = confirm_and_notify s code amount previous /\
     is_admin (from_user_id m) = true /\ 0 <= amount /\
     rand w1 = rand w /\
     find_user_by_unique_id (db w) code = Some (target, previous, city u) /\
     dict_get (load_user_database (db w)) target = Some u /\
     unique_id u = code /\ credits u = previous /\
     load_user_database (db w1) =
       dict_set (load_user_database (db w)) target
         (mk_user code amount (city u) (free_messages_used u))).
Proof.
  unfold handle_recharge_command.
  destruct (is_admin (from_user_id m)) eqn:Hadmin; cbn [negb];
    [|intros [= <- <-]; left; now exists NoPermission].
  destruct (negb (List.length (split_ws (text m)) =? 3)%nat);
    [intros [= <- <-]; left; now exists WrongUsage|].
  destruct (int (nth 1 (split_ws (text m)) "")) as [amount|];
    [|intros [= <- <-]; left; now exists NotANumber].
  destruct (amount <? 0) eqn:Hneg;
    [intros [= <- <-]; left; now exists NegativeAmount|].
  apply Z.ltb_ge in Hneg.
  set (code := upper (nth 2 (split_ws (text m)) "")).
  destruct (find_user_by_unique_id (db w) code)
    as [[[target cr] town]|] eqn:F;
    [|intros [= <- <-]; left; now exists (UserNotFound code)].
  pose proof F as F'. unfold find_user_by_unique_id in F'.
  destruct (find_in_users_spec _ _ _ _ _ (proj1 (load_well_formed _)) F')
    as (u & Hget & Hcode & Hcr & Htown).
  rewrite (get_or_create_user_known _ _ _ _ Hget).
  intros [= <- <-]. right. exists code, amount, cr, target, u.
  rewrite Htown. repeat split; try assumption.
  simpl db.
  destruct (well_formed_get _ _ _ (load_well_formed _) Hget) as [Hf1 Hf2].
  rewrite load_save;
    [|rewrite <- Hcode; exact Hf1|rewrite <- Htown; exact Hf2].
  rewrite <- Htown. now rewrite (saved_record_same _ _ _ _ _ Hget).
Qed.

(** The messages of a run that ends in the [except] clause. *)
Lemma In_except_clause {A} (s : sends) (failure : A) sent_before r :
  In r (delivered (except_clause s failure sent_before)) ->
  In r sent_before \/ r = failure.
Proof.
  unfold except_clause. destruct (error_sent s); cbn [delivered]; [|auto].
  intros H. apply in_app_or in H. destruct H as [H|[H|[]]]; auto.
Qed.

Lemma In_send_answer {A} (s : sends) (reply failure r : A) :
  In r (delivered (send_answer s reply failure)) -> r = reply \/ r = failure.
Proof.
  unfold send_answer. destruct (answer_sent s); cbn [delivered].
  - intros [H|[]]; auto.
  - intros H. apply In_except_clause in H. destruct H as [[]|H]; auto.
Qed.

Lemma In_confirm_and_notify s code amount previous r :
  In r (delivered (confirm_and_notify s code amount previous)) ->
  r = CreditsSet code amount previous \/ r = NotNotified \/ r = CommandError.
Proof.
  unfold confirm_and_notify.
  destruct (answer_sent s); [destruct (notice_sent s);
                             [|destruct (warning_sent s)]|];
    cbn [delivered]; intros H;
    try (apply In_except_clause in H); cbn [In] in H; intuition auto.
Qed.

(** A refusal that reached the administrator: nothing was written. *)
Lemma handle_recharge_command_refused fuel m s w out w1 r :
  handle_recharge_command fuel m s w = Some (out, w1) ->
  In r (delivered out) -> is_refusal r = true -> w1 = w.
Proof.
  intros H Hin Hr.
  destruct (handle_recharge_command_cases _ _ _ _ _ _ H)
    as [(refusal & _ & _ & Hw)|(code & amount & previous & _ & _ & -> & _)];
    [exact Hw|].
  apply In_confirm_and_notify in Hin.
  destruct Hin as [->|[->| ->]]; discriminate.
Qed.

(** A confirmation that reached the administrator: the record was set. *)
Lemma handle_recharge_command_confirmed fuel m s w out w1 code amount previous :
  handle_recharge_command fuel m s w = Some (out, w1) ->
  In (CreditsSet code amount previous) (delivered out) ->
  is_admin (from_user_id m) = true /\ 0 <= amount /\
  rand w1 = rand w /\
  exists target u,
    find_user_by_unique_id (db w) code = Some (target, previous, city u) /\
    dict_get (load_user_database (db w)) target = Some u /\
    unique_id u = code /\ credits u = previous /\
    load_user_database (db w1) =
      dict_set (load_user_database (db w)) target
        (mk_user code amount (city u) (free_messages_used u)).
Proof.
  intros H Hin.
  destruct (handle_recharge_command_cases _ _ _ _ _ _ H)
    as [(refusal & Hr & -> & _)
       |(code' & amount' & previous' & target & u & -> & Hrest)].
  - apply In_send_answer in Hin. destruct Hin as [<-|Hin]; discriminate.
  - apply In_confirm_and_notify in Hin.
    destruct Hin as [Hin|[Hin|Hin]]; try discriminate.
    injection Hin as <- <- <-.
    destruct Hrest as (Hadmin & Hpos & Hrand & Hfind & Hget & Hcode & Hcr & Hload).
    repeat split; try assumption. exists target, u. auto.
Qed.

(** X8: everything [/ricarica] can do with a text of the ASCII range.
    Either the command is refused (the sender is no administrator, the
    command is malformed, the amount is negative or no record has the code):
    the file and the random source stay as they were.  Or exactly one record
    is changed: the first one with that code, whose credits are now the
    amount, a non-negative one, with its code, city and count of free
    messages as before.  In both cases the answer may fail to go out, and
    the administrator then gets the error text of the [except] clause, also
    when the credits were set.  A refusal that was delivered means that
    nothing was written, and a delivered confirmation that the record named
    in it was set. *)
Theorem handle_recharge_command_effect fuel m s w out w1 :
  ascii_text (text m) = true ->
  handle_recharge_command fuel m s w = Some (out, w1) ->
  ((exists refusal,
      is_refusal refusal = true /\
      out = send_answer s refusal CommandError /\ w1 = w)
   \/
   (exists code amount previous target u,
      out = confirm_and_notify s code amount previous /\
      is_admin (from_user_id m) = true /\ 0 <= amount /\
      rand w1 = rand w /\
      find_user_by_unique_id (db w) code = Some (target, previous, city u) /\
      dict_get (load_user_database (db w)) target = Some u /\
      unique_id u = code /\ credits u = previous /\
      load_user_database (db w1) =
        dict_set (load_user_database (db w)) target
          (mk_user code amount (city u) (free_messages_used u)))) /\
  (forall r, In r (delivered out) -> is_refusal r = true -> w1 = w) /\
  (forall code amount previous,
     In (CreditsSet code amount previous) (delivered out) ->
     exists target u,
       dict_get (load_user_database (db w)) target = Some u /\
       unique_id u = code /\ credits u = previous /\
       load_user_database (db w1) =
         dict_set (load_user_database (db w)) target
           (mk_user code amount (city u) (free_messages_used u))).
Proof.
  intros _ H. split; [|split].
  - exact (handle_recharge_command_cases _ _ _ _ _ _ H).
  - intros r. exact (handle_recharge_command_refused _ _ _ _ _ _ r H).
  - intros code amount previous Hin.
    destruct (handle_recharge_command_confirmed _ _ _ _ _ _ _ _ _ H Hin)
      as (_ & _ & _ & target & u & _ & Hrest).
    exists target, u. exact Hrest.
Qed.

Lemma handle_recharge_command_effect_witness :
  exists out w1,
    handle_recharge_command 0 (mk_message ADMIN 100 "/ricarica 50 klmno")
      answer_lost (mk_world example_db example_rng) = Some (out, w1) /\
    delivered out = [CommandError] /\
    dict_get (load_user_database (db w1)) 3
    = Some (mk_user "KLMNO" 50 "Torino" 0) /\
    ((exists refusal,
        is_refusal refusal = true /\
        out = send_answer answer_lost refusal CommandError /\
        w1 = mk_world example_db example_rng)
     \/
     (exists code amount previous target u,
        out = confirm_and_notify answer_lost code amount previous /\
        is_admin ADMIN = true /\ 0 <= amount /\
        rand w1 = example_rng /\
        find_user_by_unique_id example_db code
        = Some (target, previous, city u) /\
        dict_get (load_user_database example_db) target = Some u /\
        unique_id u = code /\ credits u = previous /\
        load_user_database (db w1) =
          dict_set (load_user_database example_db) target
            (mk_user code amount (city u) (free_messages_used u)))) /\
    (forall r, In r (delivered out) -> is_refusal r = true ->
               w1 = mk_world example_db example_rng) /\
    (forall code amount previous,
       In (CreditsSet code amount previous) (delivered out) ->
       exists target u,
         dict_get (load_user_database example_db) target = Some u /\
         unique_id u = code /\ credits u = previous /\
         load_user_database (db w1) =
           dict_set (load_user_database example_db) target
             (mk_user code amount (city u) (free_messages_used u))).
Proof.
  do 2 eexists. split; [reflexivity|]. split; [reflexivity|].
  split; [reflexivity|].
  apply (handle_recharge_command_effect 0
           (mk_message ADMIN 100 "/ricarica 50 klmno") answer_lost
           (mk_world example_db example_rng)).
  - reflexivity.
  - reflexivity.
Defined.

(** X9: a charged message of one identity leaves the stored record of every
    other identity as it was, and adds no record for any other identity. *)
Theorem consume_user_message_frame fuel user_id w verdict w1 k :
  consume_user_message fuel user_id w = Some (verdict, w1) ->
  k <> user_id ->
  dict_get (load_user_database (db w1)) k =
  dict_get (load_user_database (db w)) k.
Proof.
  unfold consume_user_message.
  destruct (get_or_create_user fuel user_id w) as [[u w0]|] eqn:G;
    [|discriminate].
  intros H Hk.
  destruct (get_or_create_user_stored _ _ _ _ _ G) as (Hget & Hf1 & Hf2).
  assert (H0 : dict_get (load_user_database (db w0)) k =
               dict_get (load_user_database (db w)) k).
  { destruct (get_or_create_user_cases _ _ _ _ _ G)
      as [[_ ->]|[_ (code & _ & _ & Hload)]]; [reflexivity|].
    rewrite Hload. now apply dict_get_set_other. }
  destruct (free_messages_used u <? FREE_MESSAGES_LIMIT).
  - injection H as _ <-. simpl db. rewrite load_save by assumption.
    now rewrite dict_get_set_other.
  - destruct (credits u >=? CREDITS_PER_MESSAGE).
    + injection H as _ <-. simpl db. rewrite load_save by assumption.
      now rewrite dict_get_set_other.
    + now injection H as _ <-.
Qed.

Lemma consume_user_message_frame_witness :
  exists verdict w1,
    consume_user_message 0 3 (mk_world example_db example_rng)
      = Some (verdict, w1) /\
    dict_get (load_user_database (db w1)) 1 =
    dict_get (load_user_database example_db) 1.
Proof.
  do 2 eexists. split.
  - reflexivity.
  - apply (consume_user_message_frame 0 3 (mk_world example_db example_rng)
             (true, "free_message_used")).
    + reflexivity.
    + discriminate.
Defined.

(** X10: the check and the charge agree.  Right after
    [can_user_send_message] has answered for an identity,
    [consume_user_message] for it returns, and succeeds exactly when the
    check allowed the message. *)
Theorem check_then_consume_agree fuel fuel' user_id w allowed reason w1 :
  can_user_send_message fuel user_id w = Some ((allowed, reason), w1) ->
  exists reason' w2,
    consume_user_message fuel' user_id w1 = Some ((allowed, reason'), w2).
Proof.
  unfold can_user_send_message.
  destruct (get_or_create_user fuel user_id w) as [[u w0]|] eqn:G;
    [|discriminate].
  destruct (get_or_create_user_stored _ _ _ _ _ G) as (Hget & _).
  intros H. unfold consume_user_message.
  assert (w1 = w0).
  { destruct (free_messages_used u <? FREE_MESSAGES_LIMIT);
      [now injection H|].
    destruct (credits u >=? CREDITS_PER_MESSAGE); now injection H. }
  subst w1. rewrite (get_or_create_user_known _ _ _ _ Hget).
  destruct (free_messages_used u <? FREE_MESSAGES_LIMIT).
  - injection H as <- _. eauto.
  - destruct (credits u >=? CREDITS_PER_MESSAGE); injection H as <- _; eauto.
Qed.

Lemma check_then_consume_agree_witness :
  exists reason' w2,
    consume_user_message 0 2 (mk_world example_db example_rng)
    = Some ((true, reason'), w2).
Proof.
  apply (check_then_consume_agree 0 0 2 (mk_world example_db example_rng)
           true "free").
  reflexivity.
Defined.

Module BudgetFacts.
Import LedgerFacts MoreLedgerFacts.

Lemma budget_after_free u :
  0 <= free_messages_used u -> free_messages_used u < FREE_MESSAGES_LIMIT ->
  message_budget u =
  S (message_budget
       (mk_user (unique_id u) (credits u) (city u) (free_messages_used u + 1))).
Proof.
  unfold message_budget, FREE_MESSAGES_LIMIT. cbn [credits free_messages_used].
  intros H0 H2. lia.
Qed.

Lemma budget_after_paid u :
  FREE_MESSAGES_LIMIT <= free_messages_used u ->
  CREDITS_PER_MESSAGE <= credits u ->
  message_budget u =
  S (message_budget
       (mk_user (unique_id u) (credits u - CREDITS_PER_MESSAGE) (city u)
          (free_messages_used u))).
Proof.
  unfold message_budget, FREE_MESSAGES_LIMIT, CREDITS_PER_MESSAGE.
  cbn [credits free_messages_used]. intros Hf Hc.
  assert (Hdiv : (credits u - 2) / 2 = credits u / 2 - 1).
  { replace (credits u - 2) with (credits u + (-1) * 2) by lia.
    rewrite Z.div_add by lia. lia. }
  assert (Hq : 1 <= credits u / 2) by (apply Z.div_le_lower_bound; lia).
  rewrite Hdiv. lia.
Qed.

Lemma budget_spent u :
  FREE_MESSAGES_LIMIT <= free_messages_used u ->
  0 <= credits u -> credits u < CREDITS_PER_MESSAGE ->
  message_budget u = O.
Proof.
  unfold message_budget, FREE_MESSAGES_LIMIT, CREDITS_PER_MESSAGE.
  intros Hf H0 H2. rewrite Z.div_small by lia. lia.
Qed.

End BudgetFacts.

Import BudgetFacts.

(** X11: how many messages a record pays for.  For a stored record with no
    negative count or balance, of the next [n] charged messages the first
    [message_budget] succeed (the free ones that are left, then one for
    every two credits) and all the later ones are refused. *)
Theorem message_budget_exact fuel n user_id w u :
  dict_get (load_user_database (db w)) user_id = Some u ->
  0 <= free_messages_used u -> 0 <= credits u ->
  exists w',
    consume_times fuel n user_id w =
    Some ((repeat true (Nat.min n (message_budget u))
           ++ repeat false (n - message_budget u))%list, w').
Proof.
  revert w u. induction n as [|n IH]; intros w u Hu Hf Hc.
  - exists w. reflexivity.
  - cbn [consume_times].
    destruct (consume_user_message_known fuel user_id w u Hu)
      as (Hfree & Hpaid & Hdenied).
    destruct (Z.lt_ge_cases (free_messages_used u) FREE_MESSAGES_LIMIT)
      as [Hlt|Hge].
    + destruct (Hfree Hlt) as (w1 & -> & _ & Hload).
      assert (Hnz : (free_messages_used u + 1 =? 0) = false)
        by (apply Z.eqb_neq; lia).
      rewrite Hnz in Hload.
      assert (Hu1 : dict_get (load_user_database (db w1)) user_id =
                    Some (mk_user (unique_id u) (credits u) (city u)
                            (free_messages_used u + 1)))
        by (rewrite Hload; apply dict_get_set_same).
      destruct (IH w1 _ Hu1) as [w' ->];
        [cbn [free_messages_used]; lia|exact Hc|].
      exists w'. rewrite (budget_after_free u Hf Hlt). reflexivity.
    + destruct (Z.lt_ge_cases (credits u) CREDITS_PER_MESSAGE) as [Hpoor|Hrich].
      * rewrite (Hdenied Hge Hpoor).
        destruct (IH w u Hu Hf Hc) as [w' ->].
        exists w'. rewrite (budget_spent u Hge Hc Hpoor).
        rewrite Nat.min_0_r, Nat.sub_0_r. reflexivity.
      * destruct (Hpaid Hge Hrich) as (w1 & -> & _ & Hload).
        assert (Hu1 : dict_get (load_user_database (db w1)) user_id =
                      Some (mk_user (unique_id u)
                              (credits u - CREDITS_PER_MESSAGE) (city u)
                              (free_messages_used u)))
          by (rewrite Hload; apply dict_get_set_same).
        destruct (IH w1 _ Hu1) as [w' ->];
          [exact Hf|cbn [credits]; lia|].
        exists w'. rewrite (budget_after_paid u Hge Hrich). reflexivity.
Qed.

Lemma message_budget_exact_witness :
  exists w',
    consume_times 0 6 3 (mk_world example_db example_rng) =
    Some ([true; true; true; true; false; false], w').
Proof.
  apply (message_budget_exact 0 6 3 (mk_world example_db example_rng)
           (mk_user "KLMNO" 5 "Torino" 0)).
  - reflexivity.
  - discriminate.
  - discriminate.
Defined.

(** ** The city of a user *)

Module CityFacts.
Import PyStr PyStrFacts LedgerFacts.

Ltac by_cases_on_char c :=
  destruct c as [[|] [|] [|] [|] [|] [|] [|] [|]]; reflexivity.

Lemma lower_char_field c : field_char (lower_char c) = field_char c.
Proof. by_cases_on_char c. Qed.

Lemma upper_char_field c : field_char (upper_char c) = field_char c.
Proof. by_cases_on_char c. Qed.

Lemma lower_char_space c : is_space (lower_char c) = is_space c.
Proof. by_cases_on_char c. Qed.

Lemma lower_char_continuation c :
  is_continuation (lower_char c) = is_continuation c.
Proof. by_cases_on_char c. Qed.

Lemma lower_char_idem c : lower_char (lower_char c) = lower_char c.
Proof. by_cases_on_char c. Qed.

Lemma lower_upper_char c : lower_char (upper_char c) = lower_char c.
Proof. by_cases_on_char c. Qed.

(** One step of [title_go] sees the same kind of character before and after
    [lower], and puts out the same character. *)
Lemma title_step_lower c :
  is_lower_letter (lower_char c) = (is_lower_letter c || is_upper_letter c)%bool
  /\ (is_lower_letter c = false -> is_upper_letter c = true ->
      upper_char (lower_char c) = c)
  /\ (is_lower_letter c = true -> lower_char c = c)
  /\ (is_lower_letter c = false -> is_upper_letter c = false ->
      lower_char c = c).
Proof.
  destruct c as [[|] [|] [|] [|] [|] [|] [|] [|]];
    repeat split; intros; try reflexivity; discriminate.
Qed.

Lemma lower_field s : field_ok (lower s) = field_ok s.
Proof.
  unfold field_ok, lower. induction s as [|c s IH]; [reflexivity|].
  cbn [map_chars all_chars]. rewrite IH.
  change (not_bar (lower_char c) && not_newline (lower_char c))
    with (field_char (lower_char c)).
  now rewrite lower_char_field.
Qed.

Lemma title_go_field b s : field_ok (title_go b s) = field_ok s.
Proof.
  unfold field_ok. revert b. induction s as [|c s IH]; intros b;
    [reflexivity|].
  cbn [title_go].
  destruct (is_lower_letter c); [|destruct (is_upper_letter c)];
    cbn [all_chars]; rewrite IH; [destruct b| destruct b|]; try reflexivity.
  - change (not_bar (upper_char c) && not_newline (upper_char c))
      with (field_char (upper_char c)).
    now rewrite upper_char_field.
  - change (not_bar (lower_char c) && not_newline (lower_char c))
      with (field_char (lower_char c)).
    now rewrite lower_char_field.
Qed.

Lemma lower_title_go b s : lower (title_go b s) = lower s.
Proof.
  unfold lower. revert b. induction s as [|c s IH]; intros b; [reflexivity|].
  cbn [title_go].
  destruct (is_lower_letter c); [|destruct (is_upper_letter c)];
    cbn [map_chars]; rewrite IH; [destruct b|destruct b|]; try reflexivity.
  - now rewrite lower_upper_char.
  - now rewrite lower_char_idem.
Qed.

(** [title] only looks at the text up to letter case. *)
Lemma title_go_lower b s : title_go b (lower s) = title_go b s.
Proof.
  unfold lower. revert b. induction s as [|c s IH]; intros b; [reflexivity|].
  cbn [map_chars title_go].
  destruct (title_step_lower c) as (Hkind & Hup & Hlow & Hother).
  rewrite Hkind.
  destruct (is_lower_letter c) eqn:L; cbn [orb].
  - rewrite IH, (Hlow eq_refl). reflexivity.
  - destruct (is_upper_letter c) eqn:U.
    + rewrite IH, (Hup eq_refl eq_refl). reflexivity.
    + rewrite (Hother eq_refl eq_refl), U, IH. reflexivity.
Qed.

Lemma len_lower s : len (lower s) = len s.
Proof.
  unfold lower. induction s as [|c s IH]; [reflexivity|].
  cbn [map_chars len]. now rewrite lower_char_continuation, IH.
Qed.

Lemma lower_empty s : (lower s =? "")%string = (s =? "")%string.
Proof. now destruct s. Qed.

Lemma lstrip_lower s : lstrip (lower s) = lower (lstrip s).
Proof.
  unfold lower. induction s as [|c s IH]; [reflexivity|].
  cbn [map_chars lstrip]. rewrite lower_char_space.
  now destruct (is_space c).
Qed.

Lemma rstrip_lower s : rstrip (lower s) = lower (rstrip s).
Proof.
  unfold lower. induction s as [|c s IH]; [reflexivity|].
  cbn [map_chars rstrip]. rewrite IH, lower_char_space.
  destruct (rstrip s); cbn [map_chars]; [|reflexivity].
  now destruct (is_space c).
Qed.

Lemma strip_lower s : strip (lower s) = lower (strip s).
Proof. unfold strip. now rewrite lstrip_lower, rstrip_lower. Qed.

Lemma rstrip_cons c s :
  rstrip (String c s) =
  match rstrip s with
  | EmptyString => if is_space c then EmptyString else String c EmptyString
  | r => String c r
  end.
Proof. reflexivity. Qed.

Lemma rstrip_idem s : rstrip (rstrip s) = rstrip s.
Proof.
  induction s as [|c s IH]; [reflexivity|]. rewrite rstrip_cons.
  destruct (rstrip s) as [|d r] eqn:E.
  - destruct (is_space c) eqn:Hc; [reflexivity|].
    rewrite rstrip_cons. cbn [rstrip]. now rewrite Hc.
  - rewrite rstrip_cons, IH. reflexivity.
Qed.

Lemma lstrip_head s :
  match lstrip s with
  | EmptyString => True
  | String c _ => is_space c = false
  end.
Proof.
  induction s as [|c s IH]; [exact I|]. cbn [lstrip].
  destruct (is_space c) eqn:Hc; [exact IH|exact Hc].
Qed.

Lemma rstrip_keeps_head c s :
  is_space c = false -> exists r, rstrip (String c s) = String c r.
Proof.
  intros Hc. cbn [rstrip]. destruct (rstrip s); [|eauto].
  rewrite Hc. eauto.
Qed.

Lemma strip_idem s : strip (strip s) = strip s.
Proof.
  unfold strip. pose proof (lstrip_head s) as H.
  destruct (lstrip s) as [|c t]; [reflexivity|].
  destruct (rstrip_keeps_head c t H) as [r Hr]. rewrite Hr.
  cbn [lstrip]. rewrite H, <- Hr. apply rstrip_idem.
Qed.

Lemma cities_are_fields :
  forallb field_ok get_italian_cities = true.
Proof. reflexivity. Qed.

Lemma default_is_no_city :
  existsb (String.eqb NOT_SELECTED) get_italian_cities = false.
Proof. reflexivity. Qed.

(** What the membership test of [process_city_input] lets through. *)
Lemma accepted_city_name raw :
  existsb (String.eqb (strip (lower (strip raw)))) get_italian_cities = true ->
  field_ok (title (strip raw)) = true /\ title (strip raw) <> NOT_SELECTED.
Proof.
  intros Hin. rewrite strip_lower, strip_idem in Hin.
  apply existsb_exists in Hin. destruct Hin as (name & Hname & Heq).
  apply String.eqb_eq in Heq. split.
  - unfold title. rewrite title_go_field, <- lower_field, Heq.
    pose proof cities_are_fields as Hall. rewrite forallb_forall in Hall.
    now apply Hall.
  - intros Htitle.
    assert (Hlow : lower (strip raw) = NOT_SELECTED).
    { rewrite <- (lower_title_go false). fold (title (strip raw)).
      now rewrite Htitle. }
    pose proof default_is_no_city as Hno.
    assert (Hyes : existsb (String.eqb NOT_SELECTED) get_italian_cities = true).
    { apply existsb_exists. exists name. split; [exact Hname|].
      apply String.eqb_eq. congruence. }
    congruence.
Qed.

End CityFacts.

Import CityFacts.

Lemma process_city_input_cases fuel m user_id s w out w1 :
  process_city_input fuel m user_id s w = Some (out, w1) ->
  (exists refusal,
     is_city_refusal refusal = true /\
     out = send_answer s refusal CityError /\ w1 = w)
  \/
  (exists name u w0,
     out = send_answer s (CityUpdated name) CityError /\
     name = title (strip (text m)) /\ name <> NOT_SELECTED /\
     existsb (String.eqb (lower (strip (text m)))) get_italian_cities = true /\
     get_or_create_user fuel user_id w = Some (u, w0) /\
     rand w1 = rand w0 /\
     load_user_database (db w1) =
       dict_set (load_user_database (db w0)) user_id
         (mk_user (unique_id u) (credits u) name (free_messages_used u))).
Proof.
  unfold process_city_input.
  destruct (strip (text m) =? "")%string;
    [intros [= <- <-]; left; now exists CityNameInvalid|].
  destruct ((len (strip (text m)) <? 2)%nat || (50 <? len (strip (text m)))%nat);
    [intros [= <- <-]; left; now exists CityLengthInvalid|].
  destruct (existsb (String.eqb (strip (lower (strip (text m)))))
              get_italian_cities) eqn:Hin; cbn [negb];
    [|intros [= <- <-]; left; now exists CityNotFound].
  destruct (accepted_city_name _ Hin) as [Hfield Hnot].
  rewrite strip_lower, strip_idem in Hin.
  destruct (get_or_create_user fuel user_id w) as [[u w0]|] eqn:G;
    [|discriminate].
  intros [= <- <-]. right. exists (title (strip (text m))), u, w0.
  repeat split; [exact Hnot|exact Hin|].
  destruct (get_or_create_user_stored _ _ _ _ _ G) as (Hget & Hf1 & _).
  simpl db. rewrite load_save by assumption.
  unfold saved_record, preserve_existing. rewrite Hget.
  apply String.eqb_neq in Hnot. rewrite Hnot.
  now destruct (free_messages_used u =? 0).
Qed.

(** A refusal that reached the chat: nothing was written. *)
Lemma process_city_input_refused fuel m user_id s w out w1 r :
  process_city_input fuel m user_id s w = Some (out, w1) ->
  In r (delivered out) -> is_city_refusal r = true -> w1 = w.
Proof.
  intros H Hin Hr.
  destruct (process_city_input_cases _ _ _ _ _ _ _ H)
    as [(refusal & _ & _ & Hw)|(name & u & w0 & -> & _)]; [exact Hw|].
  apply In_send_answer in Hin. destruct Hin as [-> | ->]; discriminate.
Qed.

(** A confirmation that reached the chat: the city named in it is stored. *)
Lemma process_city_input_confirmed fuel m user_id s w out w1 name :
  process_city_input fuel m user_id s w = Some (out, w1) ->
  In (CityUpdated name) (delivered out) ->
  name = title (strip (text m)) /\ name <> NOT_SELECTED /\
  existsb (String.eqb (lower (strip (text m)))) get_italian_cities = true /\
  exists u w0,
    get_or_create_user fuel user_id w = Some (u, w0) /\
    rand w1 = rand w0 /\
    load_user_database (db w1) =
      dict_set (load_user_database (db w0)) user_id
        (mk_user (unique_id u) (credits u) name (free_messages_used u)).
Proof.
  intros H Hin.
  destruct (process_city_input_cases _ _ _ _ _ _ _ H)
    as [(refusal & Hr & -> & _)|(name' & u & w0 & -> & Hrest)].
  - apply In_send_answer in Hin. destruct Hin as [<-|Hin]; discriminate.
  - apply In_send_answer in Hin. destruct Hin as [Hin|Hin]; [|discriminate].
    injection Hin as ->.
    destruct Hrest as (Hname & Hnot & Hcity & G & Hrand & Hload).
    repeat split; try assumption. exists u, w0. auto.
Qed.

(** X12: everything [process_city_input] can do with a text of the ASCII
    range.  Either the name is refused (empty, too short or too long, or not
    one of the known cities): the file and the random source stay as they
    were.  Or the lower-cased stripped text is one of the known cities: the
    stored city is then the stripped text in title case, which is never
    "non selezionata", and the record of the user (created first if there
    was none) keeps its code, credits and count of free messages.  In both
    cases the answer may fail to go out, and the chat then gets the error
    text of the [except] clause, also when the city was stored.  A refusal
    that was delivered means that nothing was written, and a delivered
    confirmation that the city named in it is stored. *)
Theorem process_city_input_effect fuel m user_id s w out w1 :
  ascii_text (text m) = true ->
  process_city_input fuel m user_id s w = Some (out, w1) ->
  ((exists refusal,
      is_city_refusal refusal = true /\
      out = send_answer s refusal CityError /\ w1 = w)
   \/
   (exists name u w0,
      out = send_answer s (CityUpdated name) CityError /\
      name = title (strip (text m)) /\ name <> NOT_SELECTED /\
      existsb (String.eqb (lower (strip (text m)))) get_italian_cities = true /\
      get_or_create_user fuel user_id w = Some (u, w0) /\
      rand w1 = rand w0 /\
      load_user_database (db w1) =
        dict_set (load_user_database (db w0)) user_id
          (mk_user (unique_id u) (credits u) name (free_messages_used u)))) /\
  (forall r, In r (delivered out) -> is_city_refusal r = true -> w1 = w) /\
  (forall name,
     In (CityUpdated name) (delivered out) ->
     option_map city (dict_get (load_user_database (db w1)) user_id)
     = Some name).
Proof.
  intros _ H. split; [|split].
  - exact (process_city_input_cases _ _ _ _ _ _ _ H).
  - intros r. exact (process_city_input_refused _ _ _ _ _ _ _ r H).
  - intros name Hin.
    destruct (process_city_input_confirmed _ _ _ _ _ _ _ _ H Hin)
      as (_ & _ & _ & u & w0 & _ & _ & Hload).
    rewrite Hload, dict_get_set_same. reflexivity.
Qed.

Lemma process_city_input_effect_witness :
  exists out w1,
    process_city_input 0 (mk_message 2 2 "  reggio EMILIA ") 2 answer_lost
      (mk_world example_db example_rng) = Some (out, w1) /\
    delivered out = [CityError] /\
    dict_get (load_user_database (db w1)) 2
    = Some (mk_user "FGHIJ" 0 "Reggio Emilia" 0) /\
    ((exists refusal,
        is_city_refusal refusal = true /\
        out = send_answer answer_lost refusal CityError /\
        w1 = mk_world example_db example_rng)
     \/
     (exists name u w0,
        out = send_answer answer_lost (CityUpdated name) CityError /\
        name = title (strip "  reggio EMILIA ") /\ name <> NOT_SELECTED /\
        existsb (String.eqb (lower (strip "  reggio EMILIA ")))
          get_italian_cities = true /\
        get_or_create_user 0 2 (mk_world example_db example_rng)
        = Some (u, w0) /\
        rand w1 = rand w0 /\
        load_user_database (db w1) =
          dict_set (load_user_database (db w0)) 2
            (mk_user (unique_id u) (credits u) name (free_messages_used u))))
    /\
    (forall r, In r (delivered out) -> is_city_refusal r = true ->
               w1 = mk_world example_db example_rng) /\
    (forall name,
       In (CityUpdated name) (delivered out) ->
       option_map city (dict_get (load_user_database (db w1)) 2) = Some name).
Proof.
  do 2 eexists. split; [reflexivity|]. split; [reflexivity|].
  split; [reflexivity|].
  apply (process_city_input_effect 0 (mk_message 2 2 "  reggio EMILIA ") 2
           answer_lost (mk_world example_db example_rng)).
  - reflexivity.
  - reflexivity.
Defined.

(** X13: two texts of the ASCII range that are equal once stripped and put
    in lower case get the same answer from [process_city_input] and leave
    the same file: the white space around a city name and the case of its
    letters do not matter. *)
Theorem process_city_input_ignores_case fuel m1 m2 user_id s w :
  ascii_text (text m1) = true -> ascii_text (text m2) = true ->
  lower (strip (text m1)) = lower (strip (text m2)) ->
  process_city_input fuel m1 user_id s w
  = process_city_input fuel m2 user_id s w.
Proof.
  intros _ _ H. unfold process_city_input, title.
  rewrite <- (lower_empty (strip (text m1))).
  rewrite <- (lower_empty (strip (text m2))).
  rewrite <- (len_lower (strip (text m1))).
  rewrite <- (len_lower (strip (text m2))).
  rewrite <- (title_go_lower false (strip (text m1))).
  rewrite <- (title_go_lower false (strip (text m2))).
  now rewrite H.
Qed.

Lemma process_city_input_ignores_case_witness :
  process_city_input 0 (mk_message 2 2 " ROMA ") 2 all_sent
    (mk_world example_db example_rng)
  = process_city_input 0 (mk_message 2 2 "roma") 2 all_sent
      (mk_world example_db example_rng).
Proof.
  apply (process_city_input_ignores_case 0 (mk_message 2 2 " ROMA ")
           (mk_message 2 2 "roma")).
  - reflexivity.
  - reflexivity.
  - reflexivity.
Defined.

(** ** What every operation keeps *)

Module KeptFacts.
Import PyStr PyStrFacts LedgerFacts MoreLedgerFacts CityFacts.

Lemma record_kept_refl u : record_kept u u.
Proof. unfold record_kept. repeat split; lia. Qed.

Lemma record_kept_trans u1 u2 u3 :
  record_kept u1 u2 -> record_kept u2 u3 -> record_kept u1 u3.
Proof.
  unfold record_kept. intros (Hc1 & Hl1 & Hh1 & Hn1) (Hc2 & Hl2 & Hh2 & Hn2).
  repeat split; [congruence|lia|lia|auto].
Qed.

Lemma records_kept_refl users : records_kept users users.
Proof. intros k u Hk. exists u. split; [exact Hk|apply record_kept_refl]. Qed.

Lemma records_kept_trans a b c :
  records_kept a b -> records_kept b c -> records_kept a c.
Proof.
  intros Hab Hbc k u Hk. destruct (Hab k u Hk) as (u2 & Hk2 & H12).
  destruct (Hbc k u2 Hk2) as (u3 & Hk3 & H23).
  exists u3. split; [exact Hk3|]. eapply record_kept_trans; eassumption.
Qed.

(** Replacing the record of one identity by a later version of it. *)
Lemma records_kept_set users k v :
  (forall old, dict_get users k = Some old -> record_kept old v) ->
  records_kept users (dict_set users k v).
Proof.
  intros Hv k' u Hk'. destruct (Z.eq_dec k' k) as [->|Hne].
  - exists v. rewrite dict_get_set_same. split; [reflexivity|]. now apply Hv.
  - exists u. rewrite dict_get_set_other by assumption.
    split; [exact Hk'|apply record_kept_refl].
Qed.

Lemma get_or_create_user_kept fuel telegram_id w u w1 :
  get_or_create_user fuel telegram_id w = Some (u, w1) ->
  records_kept (load_user_database (db w)) (load_user_database (db w1)).
Proof.
  intros G.
  destruct (get_or_create_user_cases _ _ _ _ _ G)
    as [[_ ->]|[Hnone (code & _ & _ & Hload)]].
  - apply records_kept_refl.
  - rewrite Hload. apply records_kept_set. intros old Hold. congruence.
Qed.

Lemma can_user_send_message_kept fuel user_id w verdict w1 :
  can_user_send_message fuel user_id w = Some (verdict, w1) ->
  records_kept (load_user_database (db w)) (load_user_database (db w1)).
Proof.
  unfold can_user_send_message.
  destruct (get_or_create_user fuel user_id w) as [[u w0]|] eqn:G;
    [|discriminate].
  intros H.
  assert (w1 = w0).
  { destruct (free_messages_used u <? FREE_MESSAGES_LIMIT);
      [now injection H|].
    destruct (credits u >=? CREDITS_PER_MESSAGE); now injection H. }
  subst w1. exact (get_or_create_user_kept _ _ _ _ _ G).
Qed.

Lemma consume_user_message_kept fuel user_id w verdict w1 :
  consume_user_message fuel user_id w = Some (verdict, w1) ->
  records_kept (load_user_database (db w)) (load_user_database (db w1)).
Proof.
  unfold consume_user_message.
  destruct (get_or_create_user fuel user_id w) as [[u w0]|] eqn:G;
    [|discriminate].
  intros H. apply (records_kept_trans _ _ _ (get_or_create_user_kept _ _ _ _ _ G)).
  destruct (get_or_create_user_stored _ _ _ _ _ G) as (Hget & Hf1 & Hf2).
  destruct (free_messages_used u <? FREE_MESSAGES_LIMIT) eqn:Hfree.
  - injection H as _ <-. simpl db. rewrite load_save by assumption.
    apply records_kept_set. intros old Hold.
    assert (old = u) by congruence. subst old.
    unfold saved_record, preserve_existing. rewrite Hget.
    apply Z.ltb_lt in Hfree. unfold record_kept, FREE_MESSAGES_LIMIT in *.
    cbn [unique_id credits free_messages_used].
    destruct (Z.eqb_spec (free_messages_used u + 1) 0);
      repeat split; lia.
  - destruct (credits u >=? CREDITS_PER_MESSAGE) eqn:Hcr.
    + injection H as _ <-. simpl db. rewrite load_save by assumption.
      apply records_kept_set. intros old Hold.
      assert (old = u) by congruence. subst old.
      rewrite (saved_record_same _ _ _ _ _ Hget).
      apply Z.geb_le in Hcr. unfold record_kept, CREDITS_PER_MESSAGE in *.
      cbn [unique_id credits free_messages_used]. repeat split; lia.
    + injection H as _ <-. apply records_kept_refl.
Qed.

Lemma handle_recharge_command_kept fuel m s w out w1 :
  handle_recharge_command fuel m s w = Some (out, w1) ->
  records_kept (load_user_database (db w)) (load_user_database (db w1)).
Proof.
  intros H.
  destruct (handle_recharge_command_cases _ _ _ _ _ _ H)
    as [(refusal & _ & _ & ->)
       |(code & amount & previous & target & u & _ & _ & Hpos & _ & _ & Hget
         & Hcode & _ & Hload)];
    [apply records_kept_refl|].
  rewrite Hload. apply records_kept_set. intros old Hold.
  assert (old = u) by congruence. subst old.
  unfold record_kept. cbn [unique_id credits free_messages_used].
  repeat split; auto; lia.
Qed.

Lemma process_city_input_kept fuel m user_id s w out w1 :
  process_city_input fuel m user_id s w = Some (out, w1) ->
  records_kept (load_user_database (db w)) (load_user_database (db w1)).
Proof.
  intros H.
  destruct (process_city_input_cases _ _ _ _ _ _ _ H)
    as [(refusal & _ & _ & ->)
       |(name & u & w0 & _ & _ & _ & _ & G & _ & Hload)];
    [apply records_kept_refl|].
  apply (records_kept_trans _ _ _ (get_or_create_user_kept _ _ _ _ _ G)).
  destruct (get_or_create_user_stored _ _ _ _ _ G) as (Hget & _).
  rewrite Hload. apply records_kept_set. intros old Hold.
  assert (old = u) by congruence. subst old.
  unfold record_kept. cbn [unique_id credits free_messages_used].
  repeat split; auto; lia.
Qed.

Lemma step_store_op_kept fuel op w w1 :
  step_store_op fuel op w = Some w1 ->
  records_kept (load_user_database (db w)) (load_user_database (db w1)).
Proof.
  destruct op as [k|k|k|m s|m k s]; cbn [step_store_op].
  - destruct (get_or_create_user fuel k w) as [[u w0]|] eqn:G; [|discriminate].
    intros [= <-]. exact (get_or_create_user_kept _ _ _ _ _ G).
  - destruct (can_user_send_message fuel k w) as [[v w0]|] eqn:G;
      [|discriminate].
    intros [= <-]. exact (can_user_send_message_kept _ _ _ _ _ G).
  - destruct (consume_user_message fuel k w) as [[v w0]|] eqn:G;
      [|discriminate].
    intros [= <-]. exact (consume_user_message_kept _ _ _ _ _ G).
  - destruct (handle_recharge_command fuel m s w) as [[v w0]|] eqn:G;
      [|discriminate].
    intros [= <-]. exact (handle_recharge_command_kept _ _ _ _ _ _ G).
  - destruct (process_city_input fuel m k s w) as [[v w0]|] eqn:G;
      [|discriminate].
    intros [= <-]. exact (process_city_input_kept _ _ _ _ _ _ _ G).
Qed.

Lemma run_store_ops_kept fuel ops w w1 :
  run_store_ops fuel ops w = Some w1 ->
  records_kept (load_user_database (db w)) (load_user_database (db w1)).
Proof.
  revert w. induction ops as [|op ops IH]; intros w; cbn [run_store_ops].
  - intros [= <-]. apply records_kept_refl.
  - destruct (step_store_op fuel op w) as [w0|] eqn:S; [|discriminate].
    intros H. eapply records_kept_trans;
      [exact (step_store_op_kept _ _ _ _ S)|exact (IH _ H)].
Qed.

End KeptFacts.

Import KeptFacts.

(** X14: no operation on the file ever removes a record or changes its
    code.  Through any sequence of record look-ups, quota checks, charged
    messages, recharges and city inputs, the record of an identity keeps its
    code, its count of free messages never goes down and never passes
    [FREE_MESSAGES_LIMIT] unless it was already beyond it, and its balance
    stays non-negative if it was. *)
Theorem records_are_kept fuel ops w w1 k u :
  run_store_ops fuel ops w = Some w1 ->
  dict_get (load_user_database (db w)) k = Some u ->
  exists u',
    dict_get (load_user_database (db w1)) k = Some u' /\
    unique_id u' = unique_id u /\
    free_messages_used u <= free_messages_used u' /\
    free_messages_used u' <= Z.max (free_messages_used u) FREE_MESSAGES_LIMIT /\
    (0 <= credits u -> 0 <= credits u').
Proof.
  intros Hrun Hk. exact (run_store_ops_kept _ _ _ _ Hrun k u Hk).
Qed.

Lemma records_are_kept_witness :
  exists w1,
    run_store_ops 1
      [OpCityInput (mk_message 2 2 "napoli") 2 answer_lost; OpConsume 2;
       OpCheck 77;
       OpRecharge (mk_message ADMIN 100 "/ricarica 9 fghij") all_sent;
       OpConsume 2; OpConsume 2; OpGetOrCreate 2]
      (mk_world example_db example_rng) = Some w1 /\
    exists u',
      dict_get (load_user_database (db w1)) 2 = Some u' /\
      unique_id u' = "FGHIJ" /\
      0 <= free_messages_used u' /\
      free_messages_used u' <= Z.max 0 FREE_MESSAGES_LIMIT /\
      (0 <= 0 -> 0 <= credits u').
Proof.
  eexists. split.
  - reflexivity.
  - apply (records_are_kept 1
             [OpCityInput (mk_message 2 2 "napoli") 2 answer_lost; OpConsume 2;
              OpCheck 77;
              OpRecharge (mk_message ADMIN 100 "/ricarica 9 fghij") all_sent;
              OpConsume 2; OpConsume 2; OpGetOrCreate 2]
             (mk_world example_db example_rng) _ 2
             (mk_user "FGHIJ" 0 NOT_SELECTED 0)).
    + reflexivity.
    + reflexivity.
Defined.

(** ** The chat sessions *)

Module SessionFacts.
Import PyStr LedgerFacts MoreLedgerFacts ReplyFacts.

Lemma states_get_set_same states k v :
  states_get (states_set states k v) k = Some v.
Proof.
  induction states as [|[k' v'] rest IH]; simpl.
  - now rewrite Z.eqb_refl.
  - destruct (k' =? k) eqn:E; simpl; [now rewrite Z.eqb_refl|now rewrite E].
Qed.

Lemma states_get_set_other states k k' v :
  k' <> k -> states_get (states_set states k v) k' = states_get states k'.
Proof.
  intros Hne. induction states as [|[k0 v0] rest IH]; simpl.
  - destruct (Z.eqb_spec k k'); [congruence|reflexivity].
  - destruct (Z.eqb_spec k0 k) as [->|Hk]; simpl.
    + destruct (Z.eqb_spec k k'); [congruence|reflexivity].
    + destruct (k0 =? k'); [reflexivity|exact IH].
Qed.

Lemma states_get_del_same states k : states_get (states_del states k) k = None.
Proof.
  induction states as [|[k' v'] rest IH]; simpl; [reflexivity|].
  destruct (k' =? k) eqn:E; [exact IH|]. simpl. now rewrite E.
Qed.

Lemma states_get_del_other states k k' :
  k' <> k -> states_get (states_del states k) k' = states_get states k'.
Proof.
  intros Hne. induction states as [|[k0 v0] rest IH]; simpl; [reflexivity|].
  destruct (Z.eqb_spec k0 k) as [->|Hk]; simpl.
  - destruct (Z.eqb_spec k k'); [congruence|exact IH].
  - destruct (k0 =? k'); [reflexivity|exact IH].
Qed.

(** A profile is always drawn, and it is one of the list. *)
Lemma random_profile r :
  exists chosen,
    random_choice FAKE_PROFILES r = (Some chosen, rng_next r) /\
    In chosen FAKE_PROFILES.
Proof.
  destruct (random_choice_In FAKE_PROFILES r) as (x & Hx & Hin);
    [discriminate|].
  exists x. split; [|exact Hin].
  unfold random_choice in *. cbn [fst] in Hx. now rewrite Hx.
Qed.

(** [send_random_profile] opens the session whatever happens to the
    messages it sends, and leaves the file alone. *)
Lemma send_random_profile_spec user_id t b :
  exists chosen,
    In chosen FAKE_PROFILES /\
    user_chat_states (fst (send_random_profile user_id t b)) =
      states_set (user_chat_states b) user_id (mk_chat_state true 0 chosen) /\
    db (ledger (fst (send_random_profile user_id t b))) = db (ledger b).
Proof.
  unfold send_random_profile.
  destruct (random_profile (rand (ledger b))) as (chosen & -> & Hin).
  exists chosen. split; [exact Hin|].
  destruct (photo_sent t).
  - destruct (query_huggingface_ai "Ciao" (nome chosen) (generator t)
                (rng_next (rand (ledger b)))) as [greeting r2].
    split; reflexivity.
  - split; reflexivity.
Qed.

(** A check that refuses leaves everything as it is, and its reason is
    "no_credits". *)
Lemma refused_check fuel user_id w reason w1 :
  can_user_send_message fuel user_id w = Some ((false, reason), w1) ->
  w1 = w /\ reason = "no_credits".
Proof.
  unfold can_user_send_message.
  destruct (get_or_create_user fuel user_id w) as [[u w0]|] eqn:G;
    [|discriminate].
  destruct (free_messages_used u <? FREE_MESSAGES_LIMIT) eqn:Hfree;
    [discriminate|].
  destruct (credits u >=? CREDITS_PER_MESSAGE); [discriminate|].
  intros [= <- <-]. split; [|reflexivity].
  destruct (get_or_create_user_cases _ _ _ _ _ G)
    as [[_ ->]|[_ (code & -> & _)]]; [reflexivity|discriminate].
Qed.

(** Right after a check that allows, the charge succeeds, and it is the
    charge that would have been made without the check. *)
Lemma consume_after_check fuel user_id w reason w1 :
  can_user_send_message fuel user_id w = Some ((true, reason), w1) ->
  consume_user_message fuel user_id w1 = consume_user_message fuel user_id w
  /\ exists reason' w2,
       consume_user_message fuel user_id w = Some ((true, reason'), w2).
Proof.
  unfold can_user_send_message.
  destruct (get_or_create_user fuel user_id w) as [[u w0]|] eqn:G;
    [|discriminate].
  destruct (get_or_create_user_stored _ _ _ _ _ G) as (Hget & _).
  intros H.
  assert (w1 = w0).
  { destruct (free_messages_used u <? FREE_MESSAGES_LIMIT);
      [now injection H|].
    destruct (credits u >=? CREDITS_PER_MESSAGE); now injection H. }
  subst w1. unfold consume_user_message.
  rewrite (get_or_create_user_known _ _ _ _ Hget), G.
  split; [reflexivity|].
  destruct (free_messages_used u <? FREE_MESSAGES_LIMIT); [eauto|].
  destruct (credits u >=? CREDITS_PER_MESSAGE); [eauto|discriminate].
Qed.

End SessionFacts.

Module ChatFacts.
Import PyStr LedgerFacts MoreLedgerFacts ReplyFacts SessionFacts.

Lemma query_reply_nonempty prompt profile_name outcome r reply_text :
  fst (query_huggingface_ai prompt profile_name outcome r) = Some reply_text ->
  reply_text <> "".
Proof.
  unfold query_huggingface_ai.
  assert (Hfallback :
            fst (get_contextual_response prompt profile_name r)
            = Some reply_text -> reply_text <> "").
  { unfold get_contextual_response. intros H.
    destruct (respond_with_spec (response_patterns profile_name)
                (strip (lower prompt)) r (response_patterns_ok profile_name))
      as (x & Hx & Hne & _).
    congruence. }
  destruct (primary_reply profile_name outcome) as [[accepted|]|] eqn:P;
    [|exact Hfallback|exact Hfallback].
  cbn [fst]. intros [= <-].
  unfold primary_reply in P.
  destruct outcome as [|status_code body]; [discriminate|].
  destruct (status_code =? 200); [|discriminate].
  destruct body as [| |[|[generated_text| |] items]]; try discriminate;
    injection P as P; exact (validate_reply_nonempty _ _ P).
Qed.

(** Every way [handle_all_messages] can end. *)
Lemma handle_all_messages_cases fuel m t b reply b1 :
  handle_all_messages fuel m t b = Some (reply, b1) ->
  match reply with
  | Ignored | NotSubscribed | NoCredits => b1 = b
  | CheckError | ConsumeError => False
  | Undelivered =>
      user_chat_states b1 = user_chat_states b /\
      exists reason w2,
        consume_user_message fuel (from_user_id m) (ledger b)
          = Some ((true, reason), w2) /\
        db (ledger b1) = db w2
  | Delivered reply_text =>
      reply_text <> "" /\
      exists st reason w2,
        states_get (user_chat_states b) (from_user_id m) = Some st /\
        consume_user_message fuel (from_user_id m) (ledger b)
          = Some ((true, reason), w2) /\
        db (ledger b1) = db w2 /\
        user_chat_states b1 =
          states_set (user_chat_states b) (from_user_id m)
            (mk_chat_state true (messages_sent st + 1) (current_profile st))
  end.
Proof.
  unfold handle_all_messages.
  destruct (states_get (user_chat_states b) (from_user_id m)) as [st|] eqn:S;
    [|now intros [= <- <-]].
  destruct (in_chat st) eqn:Hin; cbn [negb]; [|now intros [= <- <-]].
  destruct (existsb (String.eqb (text m)) BUTTON_TEXTS);
    [now intros [= <- <-]|].
  destruct (check_channel_membership (membership t)); cbn [negb];
    [|now intros [= <- <-]].
  destruct (can_user_send_message fuel (from_user_id m) (ledger b))
    as [[[can_send reason] w1]|] eqn:C; [|discriminate].
  destruct can_send; cbn [negb].
  - destruct (consume_after_check _ _ _ _ _ C) as (Hsame & reason' & w2 & Hrun).
    rewrite Hsame, Hrun. cbn [negb].
    destruct (typing_sent t); cbn [negb].
    + destruct (query_huggingface_ai (text m) (nome (current_profile st))
                  (generator t) (rand w2)) as [[reply_text|] r] eqn:Q.
      * destruct (reply_sent t).
        -- intros [= <- <-]. split.
           ++ apply (query_reply_nonempty (text m) (nome (current_profile st))
                       (generator t) (rand w2)). now rewrite Q.
           ++ exists st, reason', w2. repeat split.
        -- intros [= <- <-]. split; [reflexivity|].
           exists reason', w2. split; reflexivity.
      * intros [= <- <-]. split; [reflexivity|].
        exists reason', w2. split; reflexivity.
    + intros [= <- <-]. split; [reflexivity|].
      exists reason', w2. split; reflexivity.
  - destruct (refused_check _ _ _ _ _ C) as [-> ->]. cbn [String.eqb].
    intros [= <- <-]. now destruct b.
Qed.

End ChatFacts.

Import SessionFacts ChatFacts.

(** X15: a reply from the persona is charged exactly once.  When
    [handle_all_messages] delivers a reply, the text is not empty, the file
    is the one a single [consume_user_message] on the earlier file leaves,
    that charge succeeded, and the session counts one message more, with the
    same persona. *)
Theorem delivered_reply_is_charged_once fuel m t b reply_text b1 :
  handle_all_messages fuel m t b = Some (Delivered reply_text, b1) ->
  reply_text <> "" /\
  exists st reason w2,
    states_get (user_chat_states b) (from_user_id m) = Some st /\
    consume_user_message fuel (from_user_id m) (ledger b)
      = Some ((true, reason), w2) /\
    db (ledger b1) = db w2 /\
    user_chat_states b1 =
      states_set (user_chat_states b) (from_user_id m)
        (mk_chat_state true (messages_sent st + 1) (current_profile st)).
Proof. intros H. exact (handle_all_messages_cases _ _ _ _ _ _ H). Qed.

Lemma delivered_reply_is_charged_once_witness :
  exists reply_text b1,
    handle_all_messages 0 (mk_message 3 3 "come stai") example_transport
      example_bot = Some (Delivered reply_text, b1) /\
    (reply_text <> "" /\
     exists st reason w2,
       states_get (user_chat_states example_bot) 3 = Some st /\
       consume_user_message 0 3 (ledger example_bot)
         = Some ((true, reason), w2) /\
       db (ledger b1) = db w2 /\
       user_chat_states b1 =
         states_set (user_chat_states example_bot) 3
           (mk_chat_state true (messages_sent st + 1) (current_profile st))).
Proof.
  do 2 eexists. split.
  - reflexivity.
  - apply (delivered_reply_is_charged_once 0 (mk_message 3 3 "come stai")
             example_transport example_bot).
    reflexivity.
Defined.

(** X16: when [handle_all_messages] delivers no reply.  A message that is
    ignored (no session, or the text of a button), one from a non-member and
    one the quota refuses change nothing at all.  If the quota allowed the
    message and a send failed, the message has been charged and the session
    counts no message more.  The two error answers never occur. *)
Theorem undelivered_message_effect fuel m t b reply b1 :
  handle_all_messages fuel m t b = Some (reply, b1) ->
  match reply with
  | Delivered _ => True
  | Undelivered =>
      user_chat_states b1 = user_chat_states b /\
      exists reason w2,
        consume_user_message fuel (from_user_id m) (ledger b)
          = Some ((true, reason), w2) /\
        db (ledger b1) = db w2
  | CheckError | ConsumeError => False
  | Ignored | NotSubscribed | NoCredits => b1 = b
  end.
Proof.
  intros H. pose proof (handle_all_messages_cases _ _ _ _ _ _ H) as E.
  destruct reply; try exact E. exact I.
Qed.

Lemma undelivered_message_effect_witness :
  exists b1,
    handle_all_messages 0 (mk_message 3 3 "come stai") failing_transport
      example_bot = Some (Undelivered, b1) /\
    (user_chat_states b1 = user_chat_states example_bot /\
     exists reason w2,
       consume_user_message 0 3 (ledger example_bot)
         = Some ((true, reason), w2) /\
       db (ledger b1) = db w2).
Proof.
  eexists. split.
  - reflexivity.
  - apply (undelivered_message_effect 0 (mk_message 3 3 "come stai")
             failing_transport example_bot Undelivered).
    reflexivity.
Defined.

(** X17: everything [handle_new_chat_message] can do.  A non-member gets the
    subscription prompt and nothing changes.  A member whose record (created
    first if there was none) has the city "non selezionata" is asked for the
    city and no session is opened.  Any other member gets a session with a
    profile of the list and no message counted, in place of any session the
    identity had. *)
Theorem handle_new_chat_message_effect fuel m t b reply b1 :
  handle_new_chat_message fuel m t b = Some (reply, b1) ->
  match reply with
  | SubscriptionPrompt =>
      check_channel_membership (membership t) = false /\ b1 = b
  | CityRequired =>
      check_channel_membership (membership t) = true /\
      user_chat_states b1 = user_chat_states b /\
      exists u,
        dict_get (load_user_database (db (ledger b1))) (from_user_id m)
          = Some u /\
        city u = NOT_SELECTED
  | ProfileSent _ =>
      check_channel_membership (membership t) = true /\
      (exists u,
         dict_get (load_user_database (db (ledger b1))) (from_user_id m)
           = Some u /\
         city u <> NOT_SELECTED) /\
      exists chosen,
        In chosen FAKE_PROFILES /\
        user_chat_states b1 =
          states_set (user_chat_states b) (from_user_id m)
            (mk_chat_state true 0 chosen)
  | WelcomeMenu => False
  end.
Proof.
  unfold handle_new_chat_message.
  destruct (check_channel_membership (membership t)) eqn:Hm;
    [|now intros [= <- <-]].
  destruct (get_or_create_user fuel (from_user_id m) (ledger b))
    as [[u w1]|] eqn:G; [|discriminate].
  destruct (LedgerFacts.get_or_create_user_stored _ _ _ _ _ G) as (Hget & _).
  destruct (String.eqb_spec (city u) NOT_SELECTED) as [Hc|Hc].
  - intros [= <- <-]. repeat split. exists u. split; assumption.
  - destruct (send_random_profile_spec (from_user_id m) t
                (mk_bot w1 (user_chat_states b)))
      as (chosen & Hin & Hstates & Hdb).
    destruct (send_random_profile (from_user_id m) t
                (mk_bot w1 (user_chat_states b))) as [b2 greeting].
    cbn [fst ledger user_chat_states] in Hstates, Hdb.
    intros [= <- <-]. repeat split.
    + exists u. rewrite Hdb. split; assumption.
    + exists chosen. split; assumption.
Qed.

Lemma handle_new_chat_message_effect_witness :
  exists b1,
    handle_new_chat_message 0 (mk_message 2 2 "✅ Nuova Chat") example_transport
      example_bot = Some (CityRequired, b1) /\
    (check_channel_membership (membership example_transport) = true /\
     user_chat_states b1 = user_chat_states example_bot /\
     exists u,
       dict_get (load_user_database (db (ledger b1))) 2 = Some u /\
       city u = NOT_SELECTED).
Proof.
  eexists. split.
  - reflexivity.
  - apply (handle_new_chat_message_effect 0 (mk_message 2 2 "✅ Nuova Chat")
             example_transport example_bot CityRequired).
    reflexivity.
Defined.

(** X18: once [process_city_input] has stored a city for a user and said
    so, a new chat asked by that user, as a member, is no longer refused: a
    session is opened for the user with no message counted. *)
Theorem new_chat_after_city_input
    fuel fuel' m user_id s w out name w1 m2 t states :
  process_city_input fuel m user_id s w = Some (out, w1) ->
  In (CityUpdated name) (delivered out) ->
  from_user_id m2 = user_id ->
  check_channel_membership (membership t) = true ->
  exists greeting b1 st,
    handle_new_chat_message fuel' m2 t (mk_bot w1 states)
      = Some (ProfileSent greeting, b1) /\
    states_get (user_chat_states b1) user_id = Some st /\
    in_chat st = true /\ messages_sent st = 0 /\
    In (current_profile st) FAKE_PROFILES.
Proof.
  intros Hcity Hsaid Hfrom Hmember.
  destruct (process_city_input_confirmed _ _ _ _ _ _ _ _ Hcity Hsaid)
    as (_ & Hname & _ & u & w0 & _ & _ & Hload).
  assert (Hget : dict_get (load_user_database (db w1)) user_id =
                 Some (mk_user (unique_id u) (credits u) name
                         (free_messages_used u)))
    by (rewrite Hload; apply LedgerFacts.dict_get_set_same).
  unfold handle_new_chat_message. rewrite Hmember, Hfrom.
  cbn [ledger user_chat_states].
  rewrite (LedgerFacts.get_or_create_user_known _ _ _ _ Hget). cbn [city].
  apply String.eqb_neq in Hname. rewrite Hname.
  destruct (send_random_profile_spec user_id t (mk_bot w1 states))
    as (chosen & Hin & Hstates & _).
  destruct (send_random_profile user_id t (mk_bot w1 states))
    as [b2 greeting].
  cbn [fst user_chat_states] in Hstates.
  exists greeting, b2, (mk_chat_state true 0 chosen).
  repeat split; [|exact Hin].
  cbn [user_chat_states]. rewrite Hstates. apply states_get_set_same.
Qed.

Lemma new_chat_after_city_input_witness :
  exists greeting b1 st,
    handle_new_chat_message 0 (mk_message 2 2 "✅ Nuova Chat")
      example_transport
      (mk_bot
         (mk_world
            (save_user_to_database example_db 2 "FGHIJ" 0 "Napoli" 0)
            example_rng) [])
      = Some (ProfileSent greeting, b1) /\
    states_get (user_chat_states b1) 2 = Some st /\
    in_chat st = true /\ messages_sent st = 0 /\
    In (current_profile st) FAKE_PROFILES.
Proof.
  apply (new_chat_after_city_input 0 0 (mk_message 2 2 "napoli") 2 all_sent
           (mk_world example_db example_rng)
           (mk_outcome [CityUpdated "Napoli"] false) "Napoli").
  - reflexivity.
  - left. reflexivity.
  - reflexivity.
  - reflexivity.
Defined.

(** X19: "Nuovo Utente" does not look at the city.  For a member,
    [handle_new_user_message] always opens a session with a profile of the
    list and no message counted, in place of any session the identity had,
    whatever the stored city is. *)
Theorem handle_new_user_message_effect fuel m t b u w1 :
  check_channel_membership (membership t) = true ->
  get_or_create_user fuel (from_user_id m) (ledger b) = Some (u, w1) ->
  exists greeting b1 chosen,
    handle_new_user_message fuel m t b = Some (ProfileSent greeting, b1) /\
    In chosen FAKE_PROFILES /\
    user_chat_states b1 =
      states_set (user_chat_states b) (from_user_id m)
        (mk_chat_state true 0 chosen) /\
    db (ledger b1) = db w1.
Proof.
  intros Hmember G. unfold handle_new_user_message. rewrite Hmember, G.
  destruct (send_random_profile_spec (from_user_id m) t
              (mk_bot w1 (user_chat_states b)))
    as (chosen & Hin & Hstates & Hdb).
  destruct (send_random_profile (from_user_id m) t
              (mk_bot w1 (user_chat_states b))) as [b2 greeting].
  cbn [fst ledger user_chat_states] in Hstates, Hdb.
  exists greeting, b2, chosen. repeat split; assumption.
Qed.

Lemma handle_new_user_message_effect_witness :
  exists greeting b1 chosen,
    handle_new_user_message 0 (mk_message 2 2 "🔄 Nuovo Utente")
      example_transport example_bot = Some (ProfileSent greeting, b1) /\
    In chosen FAKE_PROFILES /\
    user_chat_states b1 =
      states_set (user_chat_states example_bot) 2
        (mk_chat_state true 0 chosen) /\
    db (ledger b1) = db (ledger example_bot).
Proof.
  apply (handle_new_user_message_effect 0 (mk_message 2 2 "🔄 Nuovo Utente")
           example_transport example_bot (mk_user "FGHIJ" 0 NOT_SELECTED 0)
           (ledger example_bot)).
  - reflexivity.
  - reflexivity.
Defined.

(** X20: ending the chat ends the charging.  After a member's
    [handle_end_chat_message] the identity has no session, the sessions of
    the others and the file are untouched, and any later text of that
    identity is ignored by [handle_all_messages]: nothing is charged and
    nothing changes. *)
Theorem messages_after_end_chat_are_ignored fuel m t b m2 t2 :
  check_channel_membership (membership t) = true ->
  from_user_id m2 = from_user_id m ->
  let b1 := snd (handle_end_chat_message m t b) in
  states_get (user_chat_states b1) (from_user_id m) = None /\
  (forall k, k <> from_user_id m ->
     states_get (user_chat_states b1) k = states_get (user_chat_states b) k) /\
  ledger b1 = ledger b /\
  handle_all_messages fuel m2 t2 b1 = Some (Ignored, b1).
Proof.
  intros Hmember Hfrom. unfold handle_end_chat_message. rewrite Hmember.
  cbn [snd user_chat_states ledger]. repeat split.
  - apply states_get_del_same.
  - intros k Hk. now apply states_get_del_other.
  - unfold handle_all_messages. cbn [user_chat_states].
    now rewrite Hfrom, states_get_del_same.
Qed.

Lemma messages_after_end_chat_are_ignored_witness :
  let b1 :=
    snd (handle_end_chat_message (mk_message 3 3 "❌ Termina Chat")
           example_transport example_bot) in
  states_get (user_chat_states b1) 3 = None /\
  (forall k, k <> 3 ->
     states_get (user_chat_states b1) k
     = states_get (user_chat_states example_bot) k) /\
  ledger b1 = ledger example_bot /\
  handle_all_messages 0 (mk_message 3 3 "come stai") example_transport b1
  = Some (Ignored, b1).
Proof.
  apply (messages_after_end_chat_are_ignored 0
           (mk_message 3 3 "❌ Termina Chat") example_transport example_bot
           (mk_message 3 3 "come stai") example_transport).
  - reflexivity.
  - reflexivity.
Defined.

(** ** The reply engine and the info command *)

Module MoreReplyFacts.
Import PyStr ReplyFacts.

Lemma contains_app_r sub a b :
  contains sub b = true -> contains sub (a ++ b) = true.
Proof.
  intros H. induction a as [|c a IH]; [exact H|].
  change (String c a ++ b) with (String c (a ++ b)).
  cbn [contains]. rewrite IH. apply orb_true_r.
Qed.

Lemma len_app a b : len (a ++ b) = (len a + len b)%nat.
Proof.
  induction a as [|c a IH]; [reflexivity|].
  change (String c a ++ b) with (String c (a ++ b)). cbn [len].
  rewrite IH. now destruct (is_continuation c).
Qed.

Lemma validate_reply_shape ai_response reply_text :
  validate_reply ai_response = Some reply_text ->
  existsb (fun emoji => contains emoji reply_text) EMOJIS = true /\
  (3 < len reply_text)%nat /\ (len reply_text < 202)%nat /\
  (reply_text = ai_response \/ reply_text = ai_response ++ " 😈").
Proof.
  unfold validate_reply.
  destruct (negb (ai_response =? "")%string); [|discriminate]. cbn [andb].
  destruct (Nat.ltb_spec 3 (len ai_response)) as [H3|]; [|discriminate].
  destruct (Nat.ltb_spec (len ai_response) 200) as [H200|]; [|discriminate].
  cbn [andb].
  destruct (existsb (fun emoji => contains emoji ai_response) EMOJIS) eqn:E;
    cbn [negb]; intros [= <-].
  - repeat split; auto; lia.
  - rewrite len_app. change (len " 😈") with 2%nat.
    repeat split; [|lia|lia|now right].
    cbn [existsb EMOJIS]. rewrite contains_app_r by reflexivity. reflexivity.
Qed.

Lemma first_max_In l m : first_max l = Some m -> In m l.
Proof.
  revert m. induction l as [|x l IH]; intros m; cbn [first_max];
    [discriminate|].
  destruct (first_max l) as [m'|].
  - destruct (fst m' <=? fst x)%nat; intros [= <-]; [now left|].
    right. now apply IH.
  - intros [= <-]. now left.
Qed.

Lemma first_max_app l1 x l2 :
  (forall y, In y l1 -> (fst y < fst x)%nat) ->
  (forall y, In y l2 -> (fst y <= fst x)%nat) ->
  first_max (l1 ++ x :: l2) = Some x.
Proof.
  intros H1 H2. induction l1 as [|y l1 IH].
  - rewrite app_nil_l. cbn [first_max].
    destruct (first_max l2) as [m|] eqn:E; [|reflexivity].
    apply first_max_In in E. apply H2 in E.
    apply Nat.leb_le in E. now rewrite E.
  - rewrite <- app_comm_cons. cbn [first_max].
    rewrite IH by (intros z Hz; apply H1; now right).
    assert (Hy : (fst y < fst x)%nat) by (apply H1; now left).
    apply Nat.leb_gt in Hy. now rewrite Hy.
Qed.

Lemma winning_responses_first_max table prompt_lower :
  winning_responses table prompt_lower =
  option_map snd (first_max (matched_responses table prompt_lower)).
Proof.
  unfold winning_responses. rewrite <- sort_desc_first_max.
  now destruct (sort_desc (matched_responses table prompt_lower)).
Qed.

End MoreReplyFacts.

Import MoreReplyFacts.

(** X21: a reply taken from the generator has more than 3 and fewer than 202
    characters and contains one of the seven markers; it comes from a
    response with status 200 whose body is a non-empty list. *)
Theorem accepted_generator_reply profile_name outcome reply_text :
  primary_reply profile_name outcome = Some (Some reply_text) ->
  existsb (fun emoji => contains emoji reply_text) EMOJIS = true /\
  (3 < len reply_text)%nat /\ (len reply_text < 202)%nat /\
  exists first others, outcome = Replied 200 (JsonList (first :: others)).
Proof.
  unfold primary_reply.
  destruct outcome as [|status_code body]; [discriminate|].
  destruct (Z.eqb_spec status_code 200) as [->|]; [|discriminate].
  destruct body as [| |[|first others]]; try discriminate.
  intros H.
  assert (Hv : exists ai_response,
             validate_reply ai_response = Some reply_text).
  { destruct first; [eexists| eexists|discriminate];
      injection H as H; exact H. }
  destruct Hv as [ai_response Hv].
  destruct (validate_reply_shape _ _ Hv) as (Hm & H3 & H202 & _).
  repeat split; try assumption. eauto.
Qed.

Lemma accepted_generator_reply_witness :
  existsb (fun emoji => contains emoji "ciao caro 😈") EMOJIS = true /\
  (3 < len "ciao caro 😈")%nat /\ (len "ciao caro 😈" < 202)%nat /\
  exists first others,
    Replied 200 (JsonList [Generated "User: ehi Sofia: ciao caro"])
    = Replied 200 (JsonList (first :: others)).
Proof.
  apply (accepted_generator_reply "Sofia"
           (Replied 200 (JsonList [Generated "User: ehi Sofia: ciao caro"]))).
  reflexivity.
Defined.

(** X22: how ties are broken in the fallback.  The candidate set that wins
    is the one of the first keyword of the table, in its order, among the
    matching keywords of the greatest length: a matching keyword placed
    before it must be strictly shorter to lose, one placed after it loses
    even with the same length. *)
Theorem ties_go_to_the_first_keyword pre kw rs post prompt_lower :
  contains kw prompt_lower = true ->
  (forall kw' rs', In (kw', rs') pre ->
     contains kw' prompt_lower = true -> (len kw' < len kw)%nat) ->
  (forall kw' rs', In (kw', rs') post ->
     contains kw' prompt_lower = true -> (len kw' <= len kw)%nat) ->
  winning_responses (pre ++ (kw, rs) :: post) prompt_lower = Some rs.
Proof.
  intros Hkw Hpre Hpost. rewrite winning_responses_first_max.
  unfold matched_responses. rewrite filter_app. cbn [filter fst].
  rewrite Hkw, map_app. cbn [map fst snd].
  rewrite first_max_app; [reflexivity| |].
  - intros [n rs'] Hin. apply in_map_iff in Hin.
    destruct Hin as ([kw' rs''] & [= <- <-] & Hin).
    apply filter_In in Hin. cbn [fst] in *. destruct Hin as [Hin Hc].
    exact (Hpre kw' rs'' Hin Hc).
  - intros [n rs'] Hin. apply in_map_iff in Hin.
    destruct Hin as ([kw' rs''] & [= <- <-] & Hin).
    apply filter_In in Hin. cbn [fst] in *. destruct Hin as [Hin Hc].
    exact (Hpost kw' rs'' Hin Hc).
Qed.

Lemma ties_go_to_the_first_keyword_witness :
  winning_responses
    ([("va", ["a"])] ++ ("bene", ["b"]) :: [("ciao", ["c"]); ("come", ["d"])])
    "ciao, come va? bene" = Some ["b"].
Proof.
  apply (ties_go_to_the_first_keyword [("va", ["a"])] "bene" ["b"]
           [("ciao", ["c"]); ("come", ["d"])] "ciao, come va? bene").
  - reflexivity.
  - intros kw' rs' [[= <- <-]|[]] _. repeat constructor.
  - intros kw' rs' [[= <- <-]|[[= <- <-]|[]]] _; repeat constructor.
Defined.

(** X23: [/info] shows what [/ricarica] has set.  After a recharge that
    answered that the credits of a code were set, the answer of an
    administrator's [/info] for that code shows the new amount; before the
    recharge it showed the previous credits, with the same city.  (When the
    answer of [/info] does not go out, the error text is sent in its
    place.) *)
Theorem info_after_recharge
    fuel m s w out code amount previous w1 m2 s2 command code_text :
  handle_recharge_command fuel m s w = Some (out, w1) ->
  In (CreditsSet code amount previous) (delivered out) ->
  is_admin (from_user_id m2) = true ->
  split_ws (text m2) = [command; code_text] ->
  upper code_text = code ->
  exists town,
    handle_info_command m2 s2 w =
      send_answer s2 (InfoShown code previous town) InfoError /\
    handle_info_command m2 s2 w1 =
      send_answer s2 (InfoShown code amount town) InfoError.
Proof.
  intros Hrun Hsaid Hadmin Hparts Hup.
  destruct (handle_recharge_command_confirmed _ _ _ _ _ _ _ _ _ Hrun Hsaid)
    as (_ & _ & _ & target & u & Hfind & _ & _ & _ & Hload).
  exists (city u). unfold handle_info_command.
  rewrite Hadmin, Hparts. cbn [negb List.length Nat.eqb nth]. rewrite Hup.
  split.
  - now rewrite Hfind.
  - unfold find_user_by_unique_id in *. rewrite Hload.
    rewrite (find_in_users_set _ _ _ previous (city u) amount
               (free_messages_used u) (proj1 (load_well_formed _)) Hfind).
    reflexivity.
Qed.

Lemma info_after_recharge_witness :
  exists w1,
    handle_recharge_command 0 (mk_message ADMIN 100 "/ricarica 50 klmno")
      all_sent (mk_world example_db example_rng)
    = Some (mk_outcome [CreditsSet "KLMNO" 50 5] false, w1) /\
    exists town,
      handle_info_command (mk_message ADMIN 100 "/info klmno") all_sent
        (mk_world example_db example_rng)
      = mk_outcome [InfoShown "KLMNO" 5 town] false /\
      handle_info_command (mk_message ADMIN 100 "/info klmno") all_sent w1
      = mk_outcome [InfoShown "KLMNO" 50 town] false.
Proof.
  eexists. split.
  - reflexivity.
  - apply (info_after_recharge 0 (mk_message ADMIN 100 "/ricarica 50 klmno")
             all_sent (mk_world example_db example_rng)
             (mk_outcome [CreditsSet "KLMNO" 50 5] false) "KLMNO" 50 5 _
             (mk_message ADMIN 100 "/info klmno") all_sent "/info" "klmno").
    + reflexivity.
    + left. reflexivity.
    + reflexivity.
    + reflexivity.
    + reflexivity.
Defined.
